(** * Multi-tenant database connection manager

    A shallow embedding of the TypeScript library
    (multi-tenant-manager.ts, connectors/*.ts, factories/connector-factory.ts,
    validators/connection-validator.ts, types/index.ts) and the properties of
    its connection lifecycle.

    Conventions of the embedding:
    - a JavaScript string is a [string] of bytes (its UTF-8 encoding);
    - a [Date] is its [getTime()] value, an integer number of milliseconds;
    - a [number] that the code only carries around or compares is a [Z];
    - an optional property of an object literal is a [Field]: the key may be
      absent, present with value [undefined], or present with a value, which
      is what the spread operator distinguishes;
    - the database drivers (mongoose, typeorm), the clock and the console are
      the outside world: the drivers are a [Backend] of transition functions
      over an abstract driver state, the clock is the sequence of its
      successive readings, and every driver call and console line is recorded
      in the environment;
    - a method is a computation in a state-and-exception monad in which a
      [throw] keeps the mutations made before it, as in JavaScript. [await]
      is sequencing: one operation runs at a time. *)

From Stdlib Require Import ZArith List String Ascii Bool Lia DecimalString.
Import ListNotations.

Local Open Scope list_scope.
Local Open Scope string_scope.

(* ================================================================== *)
(** ** JavaScript values and strings *)
(* ================================================================== *)

Module Js.

(** An optional property [k?: A] of an object. *)
Inductive Field (A : Type) : Type :=
| Absent
| Undefined
| Val (a : A).
Arguments Absent {A}.
Arguments Undefined {A}.
Arguments Val {A} a.

(** [{...a, ...b}] on one key: a key present in [b] wins, whatever it holds. *)
Definition spread {A} (a b : Field A) : Field A :=
  match b with
  | Absent => a
  | _ => b
  end.

(** Truthiness of the values met in the code. *)
Definition truthy_string (s : string) : bool := negb (s =? "").
Definition truthy_number (z : Z) : bool := negb (z =? 0)%Z.

Definition truthy_field {A} (t : A -> bool) (f : Field A) : bool :=
  match f with
  | Val a => t a
  | _ => false
  end.

(** [x || d] on an optional number. *)
Definition or_number (f : Field Z) (d : Z) : Z :=
  match f with
  | Val z => if truthy_number z then z else d
  | _ => d
  end.

(** [`${n}`] for an integer. *)
Definition string_of_number (z : Z) : string :=
  NilZero.string_of_int (Z.to_int z).

(** [`${n}`] for a length. *)
Definition string_of_length (n : nat) : string :=
  string_of_number (Z.of_nat n).

(** [s.startsWith(p)]. *)
Definition startsWith (s p : string) : bool := String.prefix p s.

(** [xs.push(x)]. *)
Definition push {A} (xs : list A) (x : A) : list A := (xs ++ [x])%list.

(** [parts.join(sep)]. *)
Fixpoint join (sep : string) (parts : list string) : string :=
  match parts with
  | [] => ""
  | [p] => p
  | p :: rest => p ++ sep ++ join sep rest
  end.

Definition in_range (lo hi n : nat) : bool :=
  (Nat.leb lo n && Nat.leb n hi)%bool.

(** The characters [encodeURIComponent] leaves alone:
    [A-Z a-z 0-9 - _ . ! ~ * ' ( )]. *)
Definition uri_unreserved (c : ascii) : bool :=
  let n := nat_of_ascii c in
  (in_range 65 90 n || in_range 97 122 n || in_range 48 57 n
   || Nat.eqb n 45 || Nat.eqb n 95 || Nat.eqb n 46 || Nat.eqb n 33
   || Nat.eqb n 126 || Nat.eqb n 42 || Nat.eqb n 39 || Nat.eqb n 40
   || Nat.eqb n 41)%bool.

Definition hex_digit (n : nat) : ascii :=
  if Nat.ltb n 10 then ascii_of_nat (48 + n) else ascii_of_nat (55 + n).

(** [encodeURIComponent(s)]: every other byte of the UTF-8 encoding becomes
    [%XX]. (A string with a lone surrogate, on which the JavaScript function
    raises [URIError], has no UTF-8 encoding and is outside this model.) *)
Fixpoint encodeURIComponent (s : string) : string :=
  match s with
  | EmptyString => EmptyString
  | String c rest =>
      if uri_unreserved c
      then String c (encodeURIComponent rest)
      else
        let n := nat_of_ascii c in
        String "%" (String (hex_digit (n / 16)) (String (hex_digit (n mod 16))
          (encodeURIComponent rest)))
  end.

(** [s.toUpperCase()] on the ASCII letters (the log levels). *)
Fixpoint toUpperCase (s : string) : string :=
  match s with
  | EmptyString => EmptyString
  | String c rest =>
      let n := nat_of_ascii c in
      String (if in_range 97 122 n then ascii_of_nat (n - 32) else c)
             (toUpperCase rest)
  end.

(** [s.trim() === '']: [s] holds only white space and line terminators
    (TAB, LF, VT, FF, CR, SP, and in UTF-8: U+00A0, U+1680, U+2000..U+200A,
    U+2028, U+2029, U+202F, U+205F, U+3000, U+FEFF). *)
Fixpoint blank_bytes (bs : list nat) : bool :=
  match bs with
  | [] => true
  | 194 :: 160 :: r => blank_bytes r
  | 225 :: 154 :: 128 :: r => blank_bytes r
  | 226 :: 128 :: b :: r =>
      (in_range 128 138 b || Nat.eqb b 168 || Nat.eqb b 169
       || Nat.eqb b 175)%bool && blank_bytes r
  | 226 :: 129 :: 159 :: r => blank_bytes r
  | 227 :: 128 :: 128 :: r => blank_bytes r
  | 239 :: 187 :: 191 :: r => blank_bytes r
  | b :: r => (in_range 9 13 b || Nat.eqb b 32)%bool && blank_bytes r
  end.

Definition trim_is_empty (s : string) : bool :=
  blank_bytes (map nat_of_ascii (list_ascii_of_string s)).

(** What a [catch] clause may receive: an [Error] with its message, or any
    other thrown value. *)
Inductive Thrown : Type :=
| ErrorObject (message : string)
| OtherValue.

(** [error instanceof Error ? error.message : 'Unknown error']. *)
Definition message_of (error : Thrown) : string :=
  match error with
  | ErrorObject m => m
  | OtherValue => "Unknown error"
  end.

End Js.

Export Js.

(* ================================================================== *)
(** ** types/index.ts *)
(* ================================================================== *)

(** [enum DatabaseType { MONGODB = 'mongodb', POSTGRESQL = 'postgresql' }].
    A string enum is its string at run time, and the code keeps a [default]
    branch for any other string, so the kind is a string here. *)
Definition DatabaseType : Type := string.
Definition MONGODB : DatabaseType := "mongodb".
Definition POSTGRESQL : DatabaseType := "postgresql".

(** [interface ConnectionOptions]. *)
Record ConnectionOptions : Type := {
  maxConnections : Field Z;
  connectionTimeout : Field Z;
  idleTimeout : Field Z;
  retryAttempts : Field Z;
  retryDelay : Field Z
}.

(** [{}] as [ConnectionOptions]. *)
Definition no_options : ConnectionOptions :=
  {| maxConnections := Absent; connectionTimeout := Absent;
     idleTimeout := Absent; retryAttempts := Absent; retryDelay := Absent |}.

(** [{...a, ...b}] on [ConnectionOptions]. *)
Definition spread_options (a b : ConnectionOptions) : ConnectionOptions :=
  {| maxConnections := spread (maxConnections a) (maxConnections b);
     connectionTimeout := spread (connectionTimeout a) (connectionTimeout b);
     idleTimeout := spread (idleTimeout a) (idleTimeout b);
     retryAttempts := spread (retryAttempts a) (retryAttempts b);
     retryDelay := spread (retryDelay a) (retryDelay b) |}.

(** [...o] where [o] may be missing: spreading [undefined] adds no key. *)
Definition object_of (o : Field ConnectionOptions) : ConnectionOptions :=
  match o with
  | Val x => x
  | _ => no_options
  end.

(** The object form of [PostgreSQLCredentials.ssl]. *)
Record SslObject : Type := {
  rejectUnauthorized : Field bool;
  ssl_ca : Field string;
  ssl_cert : Field string;
  ssl_key : Field string
}.

(** [ssl?: boolean | {...}]. *)
Inductive SslSetting : Type :=
| SslFlag (b : bool)
| SslConfig (o : SslObject).

(** [MongoDBCredentials | PostgreSQLCredentials]: the common
    [DatabaseCredentials] and the optional properties that either connector
    reads. [options] is a [Record<string, any>] that the code only spreads
    over [ConnectionOptions]; its keys outside that interface are not kept. *)
Record Credentials : Type := {
  host : string;
  port : Z;
  username : string;
  password : string;
  database : string;
  options : Field ConnectionOptions;
  authSource : Field string;
  replicaSet : Field string;
  ssl : Field SslSetting;
  schema : Field string
}.

(** [interface TenantConfig]. *)
Record TenantConfig : Type := {
  tenantId : string;
  databaseType : DatabaseType;
  credentials : Credentials;
  connectionName : Field string
}.

(** [interface ConnectionInfo]; [connection: any] is a driver handle or a
    falsy value ([None]). *)
Record ConnectionInfo (H : Type) : Type := {
  info_tenantId : string;
  info_databaseType : DatabaseType;
  connection : option H;
  createdAt : Z;
  lastUsed : Z;
  isActive : bool
}.
Arguments info_tenantId {H} _.
Arguments info_databaseType {H} _.
Arguments connection {H} _.
Arguments createdAt {H} _.
Arguments lastUsed {H} _.
Arguments isActive {H} _.

(** ['debug' | 'info' | 'warn' | 'error']. *)
Inductive LogLevel : Type := Debug | Info | Warn | Error.

(** [interface MultiTenantConfig]. *)
Record MultiTenantConfig : Type := {
  defaultOptions : Field ConnectionOptions;
  enableConnectionPooling : Field bool;
  enableLogging : Field bool;
  logLevel : Field LogLevel
}.

(** [{}] as [MultiTenantConfig]. *)
Definition empty_config : MultiTenantConfig :=
  {| defaultOptions := Absent; enableConnectionPooling := Absent;
     enableLogging := Absent; logLevel := Absent |}.

(* ================================================================== *)
(** ** The outside world: drivers, clock, console *)
(* ================================================================== *)

(** What [MongoDBConnector.connect] hands to [mongoose.createConnection]
    besides the connection string. *)
Record MongooseOptions : Type := {
  maxPoolSize : Z;
  serverSelectionTimeoutMS : Z;
  socketTimeoutMS : Z;
  bufferCommands : bool;
  mongoose_extra : Field ConnectionOptions
}.

(** The [ssl] entry that [PostgreSQLConnector.connect] adds to [extra]. *)
Inductive PgSsl : Type :=
| PgSslNone
| PgSslObject (o : SslObject)
| PgSslNoVerify.

(** What [PostgreSQLConnector.connect] hands to typeorm's [createConnection]
    (the constant entries [type], [synchronize], [logging], [entities],
    [migrations] and [subscribers] are left out). *)
Record TypeORMOptions : Type := {
  orm_host : string;
  orm_port : Z;
  orm_username : string;
  orm_password : string;
  orm_database : string;
  orm_schema : string;
  orm_max : Z;
  orm_connectionTimeoutMillis : Z;
  orm_idleTimeoutMillis : Z;
  orm_extra : Field ConnectionOptions;
  orm_ssl : PgSsl
}.

(** The result of a driver call: it returns or it throws. *)
Definition Outcome (A : Type) : Type := (Thrown + A)%type.

(** The drivers, over their own state [D] and their handle objects [H].
    A property read ([connection.db], [.isInitialized], [.close], [.destroy])
    is a test of the handle in the current driver state; a call is a
    transition that returns or throws. [clock n] is the [n]-th reading of the
    system clock since the start. *)
Record Backend (D H : Type) : Type := {
  clock : nat -> Z;
  mongoose_createConnection : string -> MongooseOptions -> D -> Outcome H * D;
  has_db : H -> D -> bool;
  admin_ping : H -> D -> Outcome unit * D;
  typeorm_createConnection : TypeORMOptions -> D -> Outcome H * D;
  has_isInitialized : H -> D -> bool;
  query : H -> string -> D -> Outcome unit * D;
  has_close : H -> D -> bool;
  close : H -> D -> Outcome unit * D;
  has_destroy : H -> D -> bool;
  destroy : H -> D -> Outcome unit * D
}.
Arguments clock {D H} _ _.
Arguments mongoose_createConnection {D H} _ _ _ _.
Arguments has_db {D H} _ _ _.
Arguments admin_ping {D H} _ _ _.
Arguments typeorm_createConnection {D H} _ _ _.
Arguments has_isInitialized {D H} _ _ _.
Arguments query {D H} _ _ _ _.
Arguments has_close {D H} _ _ _.
Arguments close {D H} _ _ _.
Arguments has_destroy {D H} _ _ _.
Arguments destroy {D H} _ _ _.

(** A driver call that was made, and whether it returned. *)
Inductive Event (H : Type) : Type :=
| MongooseCreateConnection (uri : string) (o : MongooseOptions) (r : option H)
| AdminPing (h : H) (ok : bool)
| TypeormCreateConnection (o : TypeORMOptions) (r : option H)
| Query (h : H) (sql : string) (ok : bool)
| Close (h : H) (ok : bool)
| Destroy (h : H) (ok : bool).
Arguments MongooseCreateConnection {H} _ _ _.
Arguments AdminPing {H} _ _.
Arguments TypeormCreateConnection {H} _ _.
Arguments Query {H} _ _ _.
Arguments Close {H} _ _.
Arguments Destroy {H} _ _.

Inductive ConsoleMethod : Type := ConsoleLog | ConsoleWarn | ConsoleError.

(** A console line. [ManagerLine t LEVEL message] stands for
    [`[MultiTenantManager] [${iso t}] [${LEVEL}] ${message}`]. *)
Inductive ConsoleText : Type :=
| ManagerLine (timestamp : Z) (level : string) (message : string)
| PlainLine (text : string).

(** The environment of a run: how many times the clock was read, the state
    of the drivers, the driver calls made and the console lines written (both
    most recent first). *)
Record Env (D H : Type) : Type := {
  reads : nat;
  drv : D;
  trace : list (Event H);
  console : list (ConsoleMethod * ConsoleText)
}.
Arguments reads {D H} _.
Arguments drv {D H} _.
Arguments trace {D H} _.
Arguments console {D H} _.
Arguments Build_Env {D H} _ _ _ _.

(** The number of backend connections asked of the drivers, and the number
    obtained. *)
Definition is_connect {H} (ev : Event H) : bool :=
  match ev with
  | MongooseCreateConnection _ _ _ | TypeormCreateConnection _ _ => true
  | _ => false
  end.

Definition is_connected {H} (ev : Event H) : bool :=
  match ev with
  | MongooseCreateConnection _ _ (Some _)
  | TypeormCreateConnection _ (Some _) => true
  | _ => false
  end.

Definition connects {D H} (e : Env D H) : nat :=
  List.length (filter is_connect (trace e)).

Definition connected {D H} (e : Env D H) : nat :=
  List.length (filter is_connected (trace e)).

(* ================================================================== *)
(** ** Methods as computations *)
(* ================================================================== *)

(** How a call completes. *)
Inductive Completion (A : Type) : Type :=
| Return (a : A)
| Throw (error : Thrown).
Arguments Return {A} a.
Arguments Throw {A} error.

(** A computation over a world [W]: it completes, and leaves a world. A
    pure function runs in any world and leaves it as it found it. *)
Definition Run (W A : Type) : Type := W -> Completion A * W.

Definition ret {W A} (a : A) : Run W A := fun w => (Return a, w).

Definition throw {W A} (error : Thrown) : Run W A := fun w => (Throw error, w).

Definition bind {W A B} (m : Run W A) (k : A -> Run W B) : Run W B :=
  fun w =>
    match m w with
    | (Return a, w') => k a w'
    | (Throw error, w') => (Throw error, w')
    end.

(** [try { m } catch (error) { handler }]. *)
Definition try_catch {W A} (m : Run W A) (handler : Thrown -> Run W A) : Run W A :=
  fun w =>
    match m w with
    | (Return a, w') => (Return a, w')
    | (Throw error, w') => handler error w'
    end.

Declare Scope run_scope.
Delimit Scope run_scope with run.
Notation "x <- m ;; k" := (bind m (fun x => k))
  (at level 100, m at next level, right associativity) : run_scope.
Notation "m ;; k" := (bind m (fun _ => k))
  (at level 100, right associativity) : run_scope.
Local Open Scope run_scope.

(** [if (c) { m }]. *)
Definition when {W} (c : bool) (m : Run W unit) : Run W unit :=
  if c then m else ret tt.

(** [for (const x of xs) { body }]. *)
Fixpoint for_of {W X} (xs : list X) (body : X -> Run W unit) : Run W unit :=
  match xs with
  | [] => ret tt
  | x :: rest => body x ;; for_of rest body
  end.

(** The world of a method: the object it is called on, and the environment. *)
Definition World (S D H : Type) : Type := (S * Env D H)%type.

Section Effects.

Context {S D H : Type}.

(** [this]. *)
Definition get_this : Run (World S D H) S :=
  fun w => (Return (fst w), w).

(** An assignment to properties of [this]. *)
Definition update_this (f : S -> S) : Run (World S D H) unit :=
  fun w => (Return tt, (f (fst w), snd w)).

(** [new Date()]: the next reading of the clock. *)
Definition new_Date (B : Backend D H) : Run (World S D H) Z :=
  fun w =>
    let e := snd w in
    (Return (clock B (reads e)),
     (fst w, Build_Env (Datatypes.S (reads e)) (drv e) (trace e) (console e))).

(** A property of a driver object, read in the current driver state. *)
Definition read (p : D -> bool) : Run (World S D H) bool :=
  fun w => (Return (p (drv (snd w))), w).

(** A call into a driver, recorded by [ev]. *)
Definition call {X} (f : D -> Outcome X * D) (ev : Outcome X -> Event H)
  : Run (World S D H) X :=
  fun w =>
    let e := snd w in
    let '(r, d') := f (drv e) in
    let w' := (fst w, Build_Env (reads e) d' (ev r :: trace e) (console e)) in
    match r with
    | inr x => (Return x, w')
    | inl error => (Throw error, w')
    end.

(** [console.log], [console.warn], [console.error]. *)
Definition console_write (method : ConsoleMethod) (text : ConsoleText)
  : Run (World S D H) unit :=
  fun w =>
    let e := snd w in
    (Return tt,
     (fst w, Build_Env (reads e) (drv e) (trace e) ((method, text) :: console e))).

(** A method of another object [o], run in the same environment. The caller
    keeps no reference to [o] afterwards. *)
Definition on_object {S' A} (o : S') (m : Run (World S' D H) A)
  : Run (World S D H) A :=
  fun w =>
    let '(r, w') := m (o, snd w) in
    (r, (fst w, snd w')).

End Effects.

Definition succeeded {A B} (r : Thrown + A) (f : A -> B) : option B :=
  match r with
  | inr a => Some (f a)
  | inl _ => None
  end.

Definition returned {A} (r : Thrown + A) : bool :=
  match r with
  | inr _ => true
  | inl _ => false
  end.

(* ================================================================== *)
(** ** connectors/mongodb-connector.ts *)
(* ================================================================== *)

Module MongoDBConnector.

(** The object: the [BaseConnector] properties, then its own. *)
Record t (H : Type) : Type := {
  this_databaseType : DatabaseType;
  this_credentials : Credentials;
  this_options : ConnectionOptions;
  this_connection : option H;
  this_isConnected : bool;
  mongooseConnection : option H;
  connectionString : string
}.
Arguments this_databaseType {H} _.
Arguments this_credentials {H} _.
Arguments this_options {H} _.
Arguments this_connection {H} _.
Arguments this_isConnected {H} _.
Arguments mongooseConnection {H} _.
Arguments connectionString {H} _.
Arguments Build_t {H} _ _ _ _ _ _ _.

(** [buildConnectionString(credentials)]. *)
Definition buildConnectionString (credentials : Credentials) : string :=
  let connectionString := "mongodb://" in
  let connectionString :=
    if (truthy_string (username credentials)
        && truthy_string (password credentials))%bool
    then connectionString ++ encodeURIComponent (username credentials) ++ ":"
         ++ encodeURIComponent (password credentials) ++ "@"
    else connectionString in
  let connectionString :=
    connectionString ++ host credentials ++ ":"
    ++ string_of_number (port credentials) ++ "/" ++ database credentials in
  let queryParams : list string := [] in
  let queryParams :=
    match authSource credentials with
    | Val a => if truthy_string a then push queryParams ("authSource=" ++ a)
               else queryParams
    | _ => queryParams
    end in
  let queryParams :=
    match replicaSet credentials with
    | Val r => if truthy_string r then push queryParams ("replicaSet=" ++ r)
               else queryParams
    | _ => queryParams
    end in
  let queryParams :=
    match ssl credentials with
    | Val (SslFlag false) => queryParams
    | Val _ => push queryParams "ssl=true"
    | _ => queryParams
    end in
  if Nat.ltb 0 (List.length queryParams)
  then connectionString ++ "?" ++ join "&" queryParams
  else connectionString.

(** [new MongoDBConnector(credentials, options)]. *)
Definition new {H} (credentials : Credentials) (options : ConnectionOptions) : t H :=
  {| this_databaseType := MONGODB;
     this_credentials := credentials;
     this_options := options;
     this_connection := None;
     this_isConnected := false;
     mongooseConnection := None;
     connectionString := buildConnectionString credentials |}.

Section Methods.

Context {D H : Type} (B : Backend D H).

Definition set_isConnected (b : bool) (this : t H) : t H :=
  Build_t (this_databaseType this) (this_credentials this) (this_options this)
          (this_connection this) b (mongooseConnection this)
          (connectionString this).

Definition set_mongooseConnection (c : option H) (this : t H) : t H :=
  Build_t (this_databaseType this) (this_credentials this) (this_options this)
          (this_connection this) (this_isConnected this) c
          (connectionString this).

Definition set_connection (c : option H) (this : t H) : t H :=
  Build_t (this_databaseType this) (this_credentials this) (this_options this)
          c (this_isConnected this) (mongooseConnection this)
          (connectionString this).

(** [connection.db.admin().ping()]: reading [admin] of a missing [db], or
    [db] of [null], is a [TypeError]. *)
Definition db_admin_ping (connection : option H) : Run (World (t H) D H) unit :=
  match connection with
  | None => throw (ErrorObject "Cannot read properties of null (reading 'db')")
  | Some c =>
      db <- read (has_db B c) ;;
      if db
      then call (admin_ping B c) (fun r => AdminPing c (returned r))
      else throw (ErrorObject "Cannot read properties of undefined (reading 'admin')")
  end.

(** [connect()]. The three [on(...)] registrations only install listeners
    for later driver events and are not steps of the call. *)
Definition connect : Run (World (t H) D H) H :=
  try_catch
    (this <- get_this ;;
     match (if this_isConnected this then mongooseConnection this else None) with
     | Some c => ret c
     | None =>
         let mongooseOptions :=
           {| maxPoolSize := or_number (maxConnections (this_options this)) 10;
              serverSelectionTimeoutMS :=
                or_number (connectionTimeout (this_options this)) 5000;
              socketTimeoutMS := or_number (idleTimeout (this_options this)) 30000;
              bufferCommands := false;
              mongoose_extra := options (this_credentials this) |} in
         c <- call (mongoose_createConnection B (connectionString this) mongooseOptions)
                   (fun r => MongooseCreateConnection (connectionString this)
                               mongooseOptions (succeeded r (fun h => h))) ;;
         update_this (set_mongooseConnection (Some c)) ;;
         update_this (set_connection (Some c)) ;;
         update_this (set_isConnected true) ;;
         ret c
     end)
    (fun error =>
       update_this (set_isConnected false) ;;
       throw (ErrorObject ("Failed to connect to MongoDB: " ++ message_of error))).

(** [disconnect()]. *)
Definition disconnect : Run (World (t H) D H) unit :=
  try_catch
    (this <- get_this ;;
     match mongooseConnection this with
     | Some c =>
         call (close B c) (fun r => Close c (returned r)) ;;
         update_this (set_mongooseConnection None)
     | None => ret tt
     end ;;
     update_this (set_isConnected false) ;;
     update_this (set_connection None))
    (fun error =>
       throw (ErrorObject ("Failed to disconnect from MongoDB: " ++ message_of error))).

(** [testConnection()]. *)
Definition testConnection : Run (World (t H) D H) bool :=
  try_catch
    (this <- get_this ;;
     match mongooseConnection this with
     | None => _ <- connect ;; ret tt
     | Some _ => ret tt
     end ;;
     this <- get_this ;;
     db_admin_ping (mongooseConnection this) ;;
     ret true)
    (fun _ => ret false).

(** [ping()]. *)
Definition ping : Run (World (t H) D H) bool :=
  try_catch
    (this <- get_this ;;
     match mongooseConnection this with
     | None => ret false
     | Some c =>
         db_admin_ping (Some c) ;;
         ret true
     end)
    (fun _ => ret false).

End Methods.

End MongoDBConnector.

(* ================================================================== *)
(** ** connectors/postgresql-connector.ts *)
(* ================================================================== *)

Module PostgreSQLConnector.

(** The object: the [BaseConnector] properties, then its own. *)
Record t (H : Type) : Type := {
  this_databaseType : DatabaseType;
  this_credentials : Credentials;
  this_options : ConnectionOptions;
  this_connection : option H;
  this_isConnected : bool;
  typeormConnection : option H;
  connectionString : string
}.
Arguments this_databaseType {H} _.
Arguments this_credentials {H} _.
Arguments this_options {H} _.
Arguments this_connection {H} _.
Arguments this_isConnected {H} _.
Arguments typeormConnection {H} _.
Arguments connectionString {H} _.
Arguments Build_t {H} _ _ _ _ _ _ _.

(** [buildConnectionString(credentials)]. *)
Definition buildConnectionString (credentials : Credentials) : string :=
  let connectionString :=
    "postgresql://" ++ encodeURIComponent (username credentials) ++ ":"
    ++ encodeURIComponent (password credentials) ++ "@" ++ host credentials
    ++ ":" ++ string_of_number (port credentials) ++ "/"
    ++ database credentials in
  let queryParams : list string := [] in
  let queryParams :=
    match schema credentials with
    | Val s => if truthy_string s then push queryParams ("search_path=" ++ s)
               else queryParams
    | _ => queryParams
    end in
  let queryParams :=
    match ssl credentials with
    | Val (SslFlag true) => push queryParams "sslmode=require"
    | Val (SslFlag false) => queryParams
    | Val (SslConfig o) =>
        match rejectUnauthorized o with
        | Val false => push queryParams "sslmode=require&sslmode=no-verify"
        | _ => push queryParams "sslmode=require"
        end
    | _ => queryParams
    end in
  if Nat.ltb 0 (List.length queryParams)
  then connectionString ++ "?" ++ join "&" queryParams
  else connectionString.

(** [new PostgreSQLConnector(credentials, options)]. *)
Definition new {H} (credentials : Credentials) (options : ConnectionOptions) : t H :=
  {| this_databaseType := POSTGRESQL;
     this_credentials := credentials;
     this_options := options;
     this_connection := None;
     this_isConnected := false;
     typeormConnection := None;
     connectionString := buildConnectionString credentials |}.

Section Methods.

Context {D H : Type} (B : Backend D H).

Definition set_isConnected (b : bool) (this : t H) : t H :=
  Build_t (this_databaseType this) (this_credentials this) (this_options this)
          (this_connection this) b (typeormConnection this)
          (connectionString this).

Definition set_typeormConnection (c : option H) (this : t H) : t H :=
  Build_t (this_databaseType this) (this_credentials this) (this_options this)
          (this_connection this) (this_isConnected this) c
          (connectionString this).

Definition set_connection (c : option H) (this : t H) : t H :=
  Build_t (this_databaseType this) (this_credentials this) (this_options this)
          c (this_isConnected this) (typeormConnection this)
          (connectionString this).

(** [connection.query(sql)]; on [null] it is a [TypeError]. *)
Definition connection_query (connection : option H) (sql : string)
  : Run (World (t H) D H) unit :=
  match connection with
  | None => throw (ErrorObject "Cannot read properties of null (reading 'query')")
  | Some c => call (query B c sql) (fun r => Query c sql (returned r))
  end.

(** [connect()]. *)
Definition connect : Run (World (t H) D H) H :=
  try_catch
    (this <- get_this ;;
     match (if this_isConnected this then typeormConnection this else None) with
     | Some c => ret c
     | None =>
         let credentials := this_credentials this in
         let connectionOptions :=
           {| orm_host := host credentials;
              orm_port := port credentials;
              orm_username := username credentials;
              orm_password := password credentials;
              orm_database := database credentials;
              orm_schema :=
                match schema credentials with
                | Val s => if truthy_string s then s else "public"
                | _ => "public"
                end;
              orm_max := or_number (maxConnections (this_options this)) 10;
              orm_connectionTimeoutMillis :=
                or_number (connectionTimeout (this_options this)) 5000;
              orm_idleTimeoutMillis :=
                or_number (idleTimeout (this_options this)) 30000;
              orm_extra := options credentials;
              orm_ssl :=
                match ssl credentials with
                | Val (SslConfig sslConfig) => PgSslObject sslConfig
                | Val (SslFlag true) => PgSslNoVerify
                | _ => PgSslNone
                end |} in
         c <- call (typeorm_createConnection B connectionOptions)
                   (fun r => TypeormCreateConnection connectionOptions
                               (succeeded r (fun h => h))) ;;
         update_this (set_typeormConnection (Some c)) ;;
         update_this (set_connection (Some c)) ;;
         update_this (set_isConnected true) ;;
         console_write ConsoleLog
           (PlainLine ("PostgreSQL connected for tenant: " ++ database credentials)) ;;
         ret c
     end)
    (fun error =>
       update_this (set_isConnected false) ;;
       throw (ErrorObject ("Failed to connect to PostgreSQL: " ++ message_of error))).

(** [disconnect()]. *)
Definition disconnect : Run (World (t H) D H) unit :=
  try_catch
    (this <- get_this ;;
     match typeormConnection this with
     | Some c =>
         call (close B c) (fun r => Close c (returned r)) ;;
         update_this (set_typeormConnection None)
     | None => ret tt
     end ;;
     update_this (set_isConnected false) ;;
     update_this (set_connection None))
    (fun error =>
       throw (ErrorObject ("Failed to disconnect from PostgreSQL: " ++ message_of error))).

(** [testConnection()]. *)
Definition testConnection : Run (World (t H) D H) bool :=
  try_catch
    (this <- get_this ;;
     match typeormConnection this with
     | None => _ <- connect ;; ret tt
     | Some _ => ret tt
     end ;;
     this <- get_this ;;
     connection_query (typeormConnection this) "SELECT 1" ;;
     ret true)
    (fun _ => ret false).

(** [ping()]. *)
Definition ping : Run (World (t H) D H) bool :=
  try_catch
    (this <- get_this ;;
     match typeormConnection this with
     | None => ret false
     | Some c =>
         connection_query (Some c) "SELECT 1" ;;
         ret true
     end)
    (fun _ => ret false).

End Methods.

End PostgreSQLConnector.

(* ================================================================== *)
(** ** connectors/base-connector.ts *)
(* ================================================================== *)

Module BaseConnector.

(** A [BaseConnector] is an object of one of its two subclasses. *)
Inductive t (H : Type) : Type :=
| Mongo (c : MongoDBConnector.t H)
| Postgres (c : PostgreSQLConnector.t H).
Arguments Mongo {H} c.
Arguments Postgres {H} c.

Section Methods.

Context {D H : Type} (B : Backend D H).

(** Running a method of the subclass on the object held in a [t]. *)
Definition as_mongo {A} (c : MongoDBConnector.t H)
  (m : Run (World (MongoDBConnector.t H) D H) A) : Run (World (t H) D H) A :=
  fun w =>
    let '(r, (c', e')) := m (c, snd w) in
    (r, (Mongo c', e')).

Definition as_postgres {A} (c : PostgreSQLConnector.t H)
  (m : Run (World (PostgreSQLConnector.t H) D H) A) : Run (World (t H) D H) A :=
  fun w =>
    let '(r, (c', e')) := m (c, snd w) in
    (r, (Postgres c', e')).

(** The abstract methods, dispatched on the class of [this]. *)
Definition connect : Run (World (t H) D H) H :=
  this <- get_this ;;
  match this with
  | Mongo c => as_mongo c (MongoDBConnector.connect B)
  | Postgres c => as_postgres c (PostgreSQLConnector.connect B)
  end.

Definition disconnect : Run (World (t H) D H) unit :=
  this <- get_this ;;
  match this with
  | Mongo c => as_mongo c (MongoDBConnector.disconnect B)
  | Postgres c => as_postgres c (PostgreSQLConnector.disconnect B)
  end.

Definition testConnection : Run (World (t H) D H) bool :=
  this <- get_this ;;
  match this with
  | Mongo c => as_mongo c (MongoDBConnector.testConnection B)
  | Postgres c => as_postgres c (PostgreSQLConnector.testConnection B)
  end.

Definition ping : Run (World (t H) D H) bool :=
  this <- get_this ;;
  match this with
  | Mongo c => as_mongo c (MongoDBConnector.ping B)
  | Postgres c => as_postgres c (PostgreSQLConnector.ping B)
  end.

End Methods.

End BaseConnector.

(* ================================================================== *)
(** ** factories/connector-factory.ts *)
(* ================================================================== *)

Module ConnectorFactory.

(** [createConnector(databaseType, credentials, options = {})]. *)
Definition createConnector {W H} (databaseType : DatabaseType)
  (credentials : Credentials) (options : option ConnectionOptions)
  : Run W (BaseConnector.t H) :=
  let options := match options with Some o => o | None => no_options end in
  if databaseType =? MONGODB
  then ret (BaseConnector.Mongo (MongoDBConnector.new credentials options))
  else if databaseType =? POSTGRESQL
  then ret (BaseConnector.Postgres (PostgreSQLConnector.new credentials options))
  else throw (ErrorObject ("Unsupported database type: " ++ databaseType)).

Definition requiredFields : list string :=
  ["host"; "port"; "username"; "password"; "database"].

(** [!credentials[field]] for a field of [requiredFields]. *)
Definition missing (credentials : Credentials) (field : string) : bool :=
  if field =? "host" then negb (truthy_string (host credentials))
  else if field =? "port" then negb (truthy_number (port credentials))
  else if field =? "username" then negb (truthy_string (username credentials))
  else if field =? "password" then negb (truthy_string (password credentials))
  else if field =? "database" then negb (truthy_string (database credentials))
  else true.

(** [validateCredentials(_databaseType, credentials)]. The [typeof] tests
    hold by the types of the fields. *)
Definition validateCredentials {W} (_databaseType : DatabaseType)
  (credentials : Credentials) : Run W bool :=
  for_of requiredFields (fun field =>
    when (missing credentials field)
      (throw (ErrorObject ("Missing required field: " ++ field)))) ;;
  when ((port credentials <? 1)%Z || (port credentials >? 65535)%Z)
    (throw (ErrorObject "Port must be a valid number between 1 and 65535")) ;;
  when (trim_is_empty (host credentials))
    (throw (ErrorObject "Host must be a non-empty string")) ;;
  when (trim_is_empty (database credentials))
    (throw (ErrorObject "Database name must be a non-empty string")) ;;
  ret true.

(** [getSupportedDatabaseTypes()]: [Object.values(DatabaseType)]. *)
Definition getSupportedDatabaseTypes : list DatabaseType :=
  [MONGODB; POSTGRESQL].

(** [isDatabaseTypeSupported(databaseType)]. *)
Definition isDatabaseTypeSupported (databaseType : string) : bool :=
  existsb (String.eqb databaseType) getSupportedDatabaseTypes.

End ConnectorFactory.

(* ================================================================== *)
(** ** [Map<string, V>] *)
(* ================================================================== *)

Module JsMap.

(** A [Map] keeps its entries in insertion order, one per key, and the
    manager iterates over it; it is the list of its entries. *)
Definition t (V : Type) : Type := list (string * V).

Section Operations.

Context {V : Type}.

(** [m.get(k)]. *)
Fixpoint get (k : string) (m : t V) : option V :=
  match m with
  | [] => None
  | (k', v) :: rest => if k =? k' then Some v else get k rest
  end.

(** [m.set(k, v)]: a known key keeps its place, a new one goes last. *)
Fixpoint set (k : string) (v : V) (m : t V) : t V :=
  match m with
  | [] => [(k, v)]
  | (k', v') :: rest =>
      if k =? k' then (k, v) :: rest else (k', v') :: set k v rest
  end.

(** [m.delete(k)]: no entry with key [k] is left. *)
Definition delete (k : string) (m : t V) : t V :=
  filter (fun kv => negb (k =? fst kv)) m.

(** [Array.from(m.keys())]. *)
Definition keys (m : t V) : list string := map fst m.

(** [Array.from(m.values())]. *)
Definition values (m : t V) : list V := map snd m.

(** [m.size]. *)
Definition size (m : t V) : nat := List.length m.

End Operations.

End JsMap.

(* ================================================================== *)
(** ** multi-tenant-manager.ts *)
(* ================================================================== *)

Module MultiTenantManager.

(** The object. *)
Record t (H : Type) : Type := {
  connections : JsMap.t (ConnectionInfo H);
  config : MultiTenantConfig;
  this_defaultOptions : ConnectionOptions
}.
Arguments connections {H} _.
Arguments config {H} _.
Arguments this_defaultOptions {H} _.
Arguments Build_t {H} _ _ _.

Definition defaultConfig : MultiTenantConfig :=
  {| enableConnectionPooling := Val true;
     enableLogging := Val true;
     logLevel := Val Info;
     defaultOptions :=
       Val {| maxConnections := Val 10%Z;
              connectionTimeout := Val 5000%Z;
              idleTimeout := Val 30000%Z;
              retryAttempts := Val 3%Z;
              retryDelay := Val 1000%Z |} |}.

(** [{ ...a, ...b, defaultOptions: { ...a.defaultOptions, ...b.defaultOptions } }],
    the expression of the constructor and of [updateConfig]. *)
Definition merge (a b : MultiTenantConfig) : MultiTenantConfig :=
  {| defaultOptions :=
       Val (spread_options (object_of (defaultOptions a))
                           (object_of (defaultOptions b)));
     enableConnectionPooling :=
       spread (enableConnectionPooling a) (enableConnectionPooling b);
     enableLogging := spread (enableLogging a) (enableLogging b);
     logLevel := spread (logLevel a) (logLevel b) |}.

(** [new MultiTenantManager(config = {})]. *)
Definition new {H} (config : option MultiTenantConfig) : t H :=
  let config := match config with Some c => c | None => empty_config end in
  let this_config := merge defaultConfig config in
  {| connections := [];
     config := this_config;
     this_defaultOptions := object_of (defaultOptions this_config) |}.

Definition set_lastUsed {H} (d : Z) (info : ConnectionInfo H) : ConnectionInfo H :=
  {| info_tenantId := info_tenantId info;
     info_databaseType := info_databaseType info;
     connection := connection info;
     createdAt := createdAt info;
     lastUsed := d;
     isActive := isActive info |}.

Section Methods.

Context {D H : Type} (B : Backend D H).

Definition set_connections (f : JsMap.t (ConnectionInfo H) -> JsMap.t (ConnectionInfo H))
  (this : t H) : t H :=
  Build_t (f (connections this)) (config this) (this_defaultOptions this).

(** [log(level, message)]. *)
Definition log (level message : string) : Run (World (t H) D H) unit :=
  this <- get_this ;;
  if negb (truthy_field (fun b : bool => b) (enableLogging (config this)))
  then ret tt
  else
    timestamp <- new_Date B ;;
    let logMessage := ManagerLine timestamp (toUpperCase level) message in
    if level =? "error" then console_write ConsoleError logMessage
    else if level =? "warn" then console_write ConsoleWarn logMessage
    else if level =? "info" then console_write ConsoleLog logMessage
    else if level =? "debug" then
      match logLevel (config this) with
      | Val Debug => console_write ConsoleLog logMessage
      | _ => ret tt
      end
    else ret tt.

(** [createConnector(tenantConfig)]. *)
Definition createConnector (tenantConfig : TenantConfig)
  : Run (World (t H) D H) (BaseConnector.t H) :=
  this <- get_this ;;
  let options :=
    spread_options (this_defaultOptions this)
                   (object_of (options (credentials tenantConfig))) in
  if databaseType tenantConfig =? MONGODB
  then ret (BaseConnector.Mongo
              (MongoDBConnector.new (credentials tenantConfig) options))
  else if databaseType tenantConfig =? POSTGRESQL
  then ret (BaseConnector.Postgres
              (PostgreSQLConnector.new (credentials tenantConfig) options))
  else throw (ErrorObject ("Unsupported database type: " ++ databaseType tenantConfig)).

(** [testConnection(connection, databaseType)]. *)
Definition testConnection (connection : option H) (databaseType : DatabaseType)
  : Run (World (t H) D H) bool :=
  try_catch
    (if databaseType =? MONGODB then
       match connection with
       | Some c =>
           db <- read (has_db B c) ;;
           if db
           then call (admin_ping B c) (fun r => AdminPing c (returned r)) ;;
                ret true
           else ret false
       | None => ret false
       end
     else if databaseType =? POSTGRESQL then
       match connection with
       | Some c =>
           isInitialized <- read (has_isInitialized B c) ;;
           if isInitialized
           then call (query B c "SELECT 1")
                     (fun r => Query c "SELECT 1" (returned r)) ;;
                ret true
           else ret false
       | None => ret false
       end
     else ret false)
    (fun _ => ret false).

(** The first block of [getConnection], under
    [// Check if connection already exists and is active]. It yields the
    handle that [getConnection] returns from there, or nothing when control
    goes on to the second block. [existingConnection] is the object held by
    the map, so the assignment to its [lastUsed] is an update of the map
    entry. *)
Definition check_existing (tenantId : string) (tenantConfig : TenantConfig)
  : Run (World (t H) D H) (option (option H)) :=
  this <- get_this ;;
  match JsMap.get tenantId (connections this) with
  | Some existingConnection =>
      if isActive existingConnection then
        now <- new_Date B ;;
        update_this
          (set_connections (JsMap.set tenantId (set_lastUsed now existingConnection))) ;;
        alive <- testConnection (connection existingConnection)
                                (databaseType tenantConfig) ;;
        if alive then
          log "info" ("Returning existing connection for tenant: " ++ tenantId) ;;
          ret (Some (connection existingConnection))
        else
          log "warn" ("Existing connection for tenant " ++ tenantId
                      ++ " is not responding, removing it") ;;
          update_this (set_connections (JsMap.delete tenantId)) ;;
          ret None
      else ret None
  | None => ret None
  end.

(** The second block of [getConnection], under [// Create new connection]
    and [// Store connection info]. *)
Definition create_new (tenantId : string) (tenantConfig : TenantConfig)
  : Run (World (t H) D H) (option H) :=
  log "info" ("Creating new connection for tenant: " ++ tenantId) ;;
  connector <- createConnector tenantConfig ;;
  connection <- on_object connector (BaseConnector.connect B) ;;
  createdAt <- new_Date B ;;
  lastUsed <- new_Date B ;;
  let connectionInfo :=
    {| info_tenantId := tenantId;
       info_databaseType := databaseType tenantConfig;
       connection := Some connection;
       createdAt := createdAt;
       lastUsed := lastUsed;
       isActive := true |} in
  update_this (set_connections (JsMap.set tenantId connectionInfo)) ;;
  log "info" ("Successfully created connection for tenant: " ++ tenantId) ;;
  ret (Some connection).

(** [getConnection(tenantId, tenantConfig)]. *)
Definition getConnection (tenantId : string) (tenantConfig : TenantConfig)
  : Run (World (t H) D H) (option H) :=
  try_catch
    (existing <- check_existing tenantId tenantConfig ;;
     match existing with
     | Some connection => ret connection
     | None => create_new tenantId tenantConfig
     end)
    (fun error =>
       log "error" ("Failed to get connection for tenant " ++ tenantId ++ ": "
                    ++ message_of error) ;;
       throw error).

(** [hasConnection(tenantId)]. *)
Definition hasConnection (this : t H) (tenantId : string) : bool :=
  match JsMap.get tenantId (connections this) with
  | Some connectionInfo => isActive connectionInfo
  | None => false
  end.

(** [getConnectionInfo(tenantId)]. *)
Definition getConnectionInfo (this : t H) (tenantId : string)
  : option (ConnectionInfo H) :=
  JsMap.get tenantId (connections this).

(** [getActiveConnectionsCount()]. *)
Definition getActiveConnectionsCount (this : t H) : nat :=
  List.length (filter isActive (JsMap.values (connections this))).

(** [closeConnection(tenantId)]. *)
Definition closeConnection (tenantId : string) : Run (World (t H) D H) unit :=
  this <- get_this ;;
  match JsMap.get tenantId (connections this) with
  | Some connectionInfo =>
      try_catch
        (match connection connectionInfo with
         | Some c =>
             if info_databaseType connectionInfo =? MONGODB then
               has <- read (has_close B c) ;;
               when has (call (close B c) (fun r => Close c (returned r)))
             else if info_databaseType connectionInfo =? POSTGRESQL then
               has <- read (has_destroy B c) ;;
               when has (call (destroy B c) (fun r => Destroy c (returned r)))
             else ret tt
         | None => ret tt
         end ;;
         update_this (set_connections (JsMap.delete tenantId)) ;;
         log "info" ("Closed connection for tenant: " ++ tenantId))
        (fun error =>
           log "error" ("Error closing connection for tenant " ++ tenantId ++ ": "
                        ++ message_of error) ;;
           update_this (set_connections (JsMap.delete tenantId)))
  | None => ret tt
  end.

(** [closeAllConnections()]. *)
Definition closeAllConnections : Run (World (t H) D H) unit :=
  this <- get_this ;;
  let tenantIds := JsMap.keys (connections this) in
  for_of tenantIds closeConnection ;;
  log "info" "All connections closed".

(** The first loop of [cleanupInactiveConnections]. *)
Fixpoint idle_tenants (now maxIdleTime : Z) (entries : JsMap.t (ConnectionInfo H))
  (tenantIdsToRemove : list string) : list string :=
  match entries with
  | [] => tenantIdsToRemove
  | (tenantId, connectionInfo) :: rest =>
      let idleTime := (now - lastUsed connectionInfo)%Z in
      idle_tenants now maxIdleTime rest
        (if (idleTime >? maxIdleTime)%Z
         then push tenantIdsToRemove tenantId
         else tenantIdsToRemove)
  end.

(** [cleanupInactiveConnections(maxIdleTime = 300000)]. *)
Definition cleanupInactiveConnections (maxIdleTime : option Z)
  : Run (World (t H) D H) unit :=
  let maxIdleTime := match maxIdleTime with Some n => n | None => 300000%Z end in
  now <- new_Date B ;;
  this <- get_this ;;
  let tenantIdsToRemove := idle_tenants now maxIdleTime (connections this) [] in
  for_of tenantIdsToRemove closeConnection ;;
  when (Nat.ltb 0 (List.length tenantIdsToRemove))
    (log "info" ("Cleaned up " ++ string_of_length (List.length tenantIdsToRemove)
                 ++ " inactive connections")).

(** [updateConfig(newConfig)]. *)
Definition updateConfig (newConfig : MultiTenantConfig) : Run (World (t H) D H) unit :=
  update_this (fun this =>
    Build_t (connections this) (merge (config this) newConfig)
            (this_defaultOptions this)) ;;
  update_this (fun this =>
    Build_t (connections this) (config this)
            (object_of (defaultOptions (config this)))) ;;
  log "info" "Configuration updated".

(** [getConfig()]. *)
Definition getConfig (this : t H) : MultiTenantConfig := config this.

(** [getAllConnections()]: a new [Map] with the same entries. *)
Definition getAllConnections (this : t H) : JsMap.t (ConnectionInfo H) :=
  connections this.

(** A property of [stats.databaseTypes]: a count, or the [NaN] that [++]
    leaves under a key that was not there. *)
Inductive Tally : Type :=
| Counted (n : nat)
| NaN.

(** [o[k]++] on the value read under [k]. *)
Definition increment (read : option Tally) : Tally :=
  match read with
  | Some (Counted n) => Counted (Datatypes.S n)
  | _ => NaN
  end.

(** The object that [getConnectionStats] returns; [databaseTypes] is the
    object with its properties in order. *)
Record Stats : Type := {
  totalConnections : nat;
  activeConnections : nat;
  databaseTypes : JsMap.t Tally;
  oldestConnection : option Z;
  newestConnection : option Z
}.

(** The loop of [getConnectionStats] over the values of the map. A [Date]
    is an object, so [!stats.oldestConnection] holds of [null] only. *)
Fixpoint tally (infos : list (ConnectionInfo H)) (stats : Stats) : Stats :=
  match infos with
  | [] => stats
  | connectionInfo :: rest =>
      let types :=
        JsMap.set (info_databaseType connectionInfo)
          (increment (JsMap.get (info_databaseType connectionInfo)
                                (databaseTypes stats)))
          (databaseTypes stats) in
      let oldest :=
        match oldestConnection stats with
        | None => Some (createdAt connectionInfo)
        | Some oldest =>
            if (createdAt connectionInfo <? oldest)%Z
            then Some (createdAt connectionInfo) else Some oldest
        end in
      let newest :=
        match newestConnection stats with
        | None => Some (createdAt connectionInfo)
        | Some newest =>
            if (createdAt connectionInfo >? newest)%Z
            then Some (createdAt connectionInfo) else Some newest
        end in
      tally rest
        {| totalConnections := totalConnections stats;
           activeConnections := activeConnections stats;
           databaseTypes := types;
           oldestConnection := oldest;
           newestConnection := newest |}
  end.

(** [getConnectionStats()]. *)
Definition getConnectionStats (this : t H) : Stats :=
  tally (JsMap.values (connections this))
    {| totalConnections := JsMap.size (connections this);
       activeConnections := getActiveConnectionsCount this;
       databaseTypes := [(MONGODB, Counted 0); (POSTGRESQL, Counted 0)];
       oldestConnection := None;
       newestConnection := None |}.

End Methods.

End MultiTenantManager.

(* ================================================================== *)
(** ** validators/connection-validator.ts *)
(* ================================================================== *)

Module ConnectionValidator.

(** [validateTenantConfig(config)]. The [typeof] test holds by the type of
    [tenantId], and [!config.credentials] is false of an object. *)
Definition validateTenantConfig {W} (config : TenantConfig) : Run W bool :=
  try_catch
    (when (negb (truthy_string (tenantId config)))
       (throw (ErrorObject "Tenant ID must be a non-empty string")) ;;
     when (negb (truthy_string (databaseType config)))
       (throw (ErrorObject "Database type is required")) ;;
     when (negb (ConnectorFactory.isDatabaseTypeSupported (databaseType config)))
       (throw (ErrorObject ("Unsupported database type: " ++ databaseType config))) ;;
     _ <- ConnectorFactory.validateCredentials (databaseType config)
                                               (credentials config) ;;
     ret true)
    (fun error =>
       throw (ErrorObject ("Invalid tenant configuration: " ++ message_of error))).



(** [tenantIds.has(id)] on the [Set<string>] of the identifiers seen. *)
Definition has (tenantIds : list string) (id : string) : bool :=
  existsb (String.eqb id) tenantIds.

(** [tenantIds.add(id)]. *)
Definition add (tenantIds : list string) (id : string) : list string :=
  if has tenantIds id then tenantIds else push tenantIds id.

(** The loop of [validateMultipleTenantConfigs], from a given [tenantIds]. *)
Fixpoint validate_each {W} (configs : list TenantConfig) (tenantIds : list string)
  : Run W unit :=
  match configs with
  | [] => ret tt
  | config :: rest =>
      _ <- validateTenantConfig config ;;
      when (has tenantIds (tenantId config))
        (throw (ErrorObject ("Duplicate tenant ID found: " ++ tenantId config))) ;;
      validate_each rest (add tenantIds (tenantId config))
  end.

(** [validateMultipleTenantConfigs(configs)]. *)
Definition validateMultipleTenantConfigs {W} (configs : list TenantConfig)
  : Run W bool :=
  try_catch
    (validate_each configs [] ;;
     ret true)
    (fun error =>
       throw (ErrorObject ("Invalid tenant configurations: " ++ message_of error))).

(** [isValidConnectionString(connectionString, databaseType)]. *)
Definition isValidConnectionString (connectionString : string)
  (databaseType : DatabaseType) : bool :=
  if negb (truthy_string connectionString) then false
  else if databaseType =? MONGODB then
    (startsWith connectionString "mongodb://"
     || startsWith connectionString "mongodb+srv://")%bool
  else if databaseType =? POSTGRESQL then
    (startsWith connectionString "postgresql://"
     || startsWith connectionString "postgres://")%bool
  else false.

End ConnectionValidator.

(* ================================================================== *)
(** ** A scripted backend *)
(* ================================================================== *)

Module Stub.

(** A driver stub in the manner of the mocks of a test suite: handles are
    numbers, every property read is truthy, and the [n]-th driver call
    returns or throws as the script says (it returns once the script is
    exhausted). The clock advances by one second per reading. *)
Record State : Type := {
  next_handle : nat;
  script : list bool
}.

Definition step (d : State) : bool * State :=
  match script d with
  | [] => (true, d)
  | b :: rest => (b, {| next_handle := next_handle d; script := rest |})
  end.

Definition create (d : State) : Outcome nat * State :=
  let '(ok, d') := step d in
  if ok
  then (inr (next_handle d'),
        {| next_handle := S (next_handle d'); script := script d' |})
  else (inl (ErrorObject "connect ECONNREFUSED"), d').

Definition act (d : State) : Outcome unit * State :=
  let '(ok, d') := step d in
  if ok then (inr tt, d') else (inl (ErrorObject "socket closed"), d').

Definition backend : Backend State nat :=
  {| clock := fun n => (1000 * Z.of_nat n)%Z;
     mongoose_createConnection := fun _ _ => create;
     has_db := fun _ _ => true;
     admin_ping := fun _ => act;
     typeorm_createConnection := fun _ => create;
     has_isInitialized := fun _ _ => true;
     query := fun _ _ => act;
     has_close := fun _ _ => true;
     close := fun _ => act;
     has_destroy := fun _ _ => true;
     destroy := fun _ => act |}.

(** The environment at the start of a run with the given script. *)
Definition start (outcomes : list bool) : Env State nat :=
  {| reads := 0; drv := {| next_handle := 1; script := outcomes |};
     trace := []; console := [] |}.

Definition some_credentials : Credentials :=
  {| host := "localhost"; port := 27017%Z; username := "admin";
     password := "s3cret/pw"; database := "tenant1"; options := Absent;
     authSource := Val "admin"; replicaSet := Absent; ssl := Absent;
     schema := Absent |}.

Definition mongo_tenant : TenantConfig :=
  {| tenantId := "tenant1"; databaseType := MONGODB;
     credentials := some_credentials; connectionName := Absent |}.

Definition postgres_tenant : TenantConfig :=
  {| tenantId := "tenant2"; databaseType := POSTGRESQL;
     credentials := some_credentials; connectionName := Absent |}.

Definition redis_tenant : TenantConfig :=
  {| tenantId := "tenant3"; databaseType := "redis";
     credentials := some_credentials; connectionName := Absent |}.

(** A fresh manager with the default configuration. *)
Definition manager : MultiTenantManager.t nat := MultiTenantManager.new None.

(** The world after a first [getConnection] for ["tenant1"] on a fresh
    manager, under the given script. *)
Definition after_first_call (outcomes : list bool)
  : World (MultiTenantManager.t nat) State nat :=
  snd (MultiTenantManager.getConnection backend "tenant1" mongo_tenant
         (manager, start outcomes)).

Definition first_manager (outcomes : list bool) : MultiTenantManager.t nat :=
  fst (after_first_call outcomes).

Definition first_env (outcomes : list bool) : Env State nat :=
  snd (after_first_call outcomes).


(** A tenant configuration with the given identifier and host. *)
Definition tenant (id hostname : string) : TenantConfig :=
  {| tenantId := id; databaseType := POSTGRESQL;
     credentials :=
       {| host := hostname; port := 5432%Z; username := "app";
          password := "pw"; database := "main"; options := Absent;
          authSource := Absent; replicaSet := Absent; ssl := Absent;
          schema := Absent |};
     connectionName := Absent |}.


(** Credentials whose port is 0. *)
Definition credentials_without_port : Credentials :=
  {| host := "localhost"; port := 0%Z; username := "app"; password := "pw";
     database := "main"; options := Absent; authSource := Absent;
     replicaSet := Absent; ssl := Absent; schema := Absent |}.


(** A manager with two tenants, last used at 100 s and at 400 s. *)
Definition two_tenants : MultiTenantManager.t nat :=
  {| MultiTenantManager.connections :=
       [("old", {| info_tenantId := "old"; info_databaseType := MONGODB;
                   connection := Some 1; createdAt := 50000%Z;
                   lastUsed := 100000%Z; isActive := true |});
        ("recent", {| info_tenantId := "recent"; info_databaseType := POSTGRESQL;
                      connection := Some 2; createdAt := 60000%Z;
                      lastUsed := 400000%Z; isActive := true |})];
     MultiTenantManager.config := MultiTenantManager.config manager;
     MultiTenantManager.this_defaultOptions :=
       MultiTenantManager.this_defaultOptions manager |}.

(** The environment after [n] readings of the clock, under a script. *)
Definition at_reading (n : nat) (outcomes : list bool) : Env State nat :=
  {| reads := n; drv := {| next_handle := 3; script := outcomes |};
     trace := []; console := [] |}.

End Stub.

(* ================================================================== *)
(** ** Vocabulary of the properties *)
(* ================================================================== *)

(** The completion of a pure computation. *)
Definition result {A} (m : Run unit A) : Completion A := fst (m tt).


(** The keys of [ConnectionOptions]. *)
Inductive OptionKey : Type :=
| key_maxConnections
| key_connectionTimeout
| key_idleTimeout
| key_retryAttempts
| key_retryDelay.

(** [options[k]]. *)
Definition option_at (k : OptionKey) (o : ConnectionOptions) : Field Z :=
  match k with
  | key_maxConnections => maxConnections o
  | key_connectionTimeout => connectionTimeout o
  | key_idleTimeout => idleTimeout o
  | key_retryAttempts => retryAttempts o
  | key_retryDelay => retryDelay o
  end.

(** The update [{ defaultOptions: { maxConnections: n } }]. *)
Definition only_maxConnections (n : Z) : MultiTenantConfig :=
  {| defaultOptions :=
       Val {| maxConnections := Val n; connectionTimeout := Absent;
              idleTimeout := Absent; retryAttempts := Absent;
              retryDelay := Absent |};
     enableConnectionPooling := Absent;
     enableLogging := Absent;
     logLevel := Absent |}.

(** [ks.includes(k)] for a list of identifiers. *)
Definition listed (k : string) (ks : list string) : bool :=
  existsb (String.eqb k) ks.

(** A backend kind for which there is a connector. *)
Definition supported (databaseType : DatabaseType) : Prop :=
  databaseType = MONGODB \/ databaseType = POSTGRESQL.

(** A tenant configuration that [validateTenantConfig] accepts. *)
Definition individually_valid (config : TenantConfig) : Prop :=
  result (ConnectionValidator.validateTenantConfig config) = Return true.

(** The manager of a world, and its environment. *)
Definition manager_of {S D H} (w : World S D H) : S := fst w.
Definition env_of {S D H} (w : World S D H) : Env D H := snd w.

(** The calls a client can make that change the manager or its
    environment. ([hasConnection], [getConnectionInfo], [getAllConnections],
    [getActiveConnectionsCount], [getConnectionStats] and [getConfig] only
    read.) *)
Inductive Operation : Type :=
| GetConnection (tenantId : string) (tenantConfig : TenantConfig)
| CloseConnection (tenantId : string)
| CloseAllConnections
| CleanupInactiveConnections (maxIdleTime : option Z)
| UpdateConfig (newConfig : MultiTenantConfig).

Section Histories.

Context {D H : Type} (B : Backend D H).

(** The world after one call, whether it returned or threw. *)
Definition perform (op : Operation) (w : World (MultiTenantManager.t H) D H)
  : World (MultiTenantManager.t H) D H :=
  match op with
  | GetConnection tenantId tenantConfig =>
      snd (MultiTenantManager.getConnection B tenantId tenantConfig w)
  | CloseConnection tenantId =>
      snd (MultiTenantManager.closeConnection B tenantId w)
  | CloseAllConnections =>
      snd (MultiTenantManager.closeAllConnections B w)
  | CleanupInactiveConnections maxIdleTime =>
      snd (MultiTenantManager.cleanupInactiveConnections B maxIdleTime w)
  | UpdateConfig newConfig =>
      snd (MultiTenantManager.updateConfig B newConfig w)
  end.

(** The world after a sequence of calls, one after the other. *)
Definition perform_all (ops : list Operation)
  (w : World (MultiTenantManager.t H) D H) : World (MultiTenantManager.t H) D H :=
  fold_left (fun w op => perform op w) ops w.

(** The world in which a manager has just been constructed. *)
Definition initial (config : option MultiTenantConfig) (e : Env D H)
  : World (MultiTenantManager.t H) D H :=
  (MultiTenantManager.new config, e).

(** A clock that never goes back. *)
Definition non_decreasing_clock : Prop :=
  forall i j : nat, (i <= j)%nat -> (clock B i <= clock B j)%Z.

(** Both timestamps of an entry are clock readings made before the [n]-th,
    that of [createdAt] no later than that of [lastUsed]. *)
Definition stamped (n : nat) (info : ConnectionInfo H) : Prop :=
  exists i j : nat,
    (i <= j)%nat /\ (j < n)%nat /\
    createdAt info = clock B i /\ lastUsed info = clock B j.

(** Idle for longer than [maxIdleTime] at time [now]. *)
Definition idle (now maxIdleTime : Z) (info : ConnectionInfo H) : bool :=
  (now - lastUsed info >? maxIdleTime)%Z.

(** The environment has moved on without any driver call. *)
Definition undisturbed (e e' : Env D H) : Prop :=
  drv e' = drv e /\ trace e' = trace e /\ (reads e <= reads e')%nat.

(** The verdict of the manager's liveness probe on a handle when the drivers
    are in state [d]: [testConnection] run there. *)
Definition probe (connection : option H) (databaseType : DatabaseType) (d : D)
  : bool :=
  match fst (MultiTenantManager.testConnection B connection databaseType
               (MultiTenantManager.new None, Build_Env 0 d [] [])) with
  | Return alive => alive
  | Throw _ => false
  end.

(** The handle that a connection request produced. *)
Definition created_handle (ev : Event H) : option H :=
  match ev with
  | MongooseCreateConnection _ _ r | TypeormCreateConnection _ r => r
  | _ => None
  end.

(** The entry that [getConnection] stores for a new handle, stamped with the
    clock readings [i] and [i + 1]. *)
Definition fresh_entry (tenantId : string) (tenantConfig : TenantConfig)
  (h : H) (i : nat) : ConnectionInfo H :=
  {| info_tenantId := tenantId;
     info_databaseType := databaseType tenantConfig;
     connection := Some h;
     createdAt := clock B i;
     lastUsed := clock B (Datatypes.S i);
     isActive := true |}.

(** How an entry [after] a call relates to the registry [before] it, the
    clock having been read [n] times before the call and [n'] times after:
    either it is an entry of [before] under the same key, with the same
    [createdAt], and with the same [lastUsed] or a reading made during the
    call; or it was created during the call, [createdAt] and [lastUsed]
    being two successive readings. *)
Definition entry_step (n n' : nat) (before : JsMap.t (ConnectionInfo H))
  (after : string * ConnectionInfo H) : Prop :=
  (exists info,
     In (fst after, info) before /\
     createdAt (snd after) = createdAt info /\
     (lastUsed (snd after) = lastUsed info \/
      exists i, (n <= i)%nat /\ (i < n')%nat /\
                lastUsed (snd after) = clock B i))
  \/
  (exists i, (n <= i)%nat /\ (Datatypes.S i < n')%nat /\
             createdAt (snd after) = clock B i /\
             lastUsed (snd after) = clock B (Datatypes.S i)).

(** The manager after [getConnection] has set the [lastUsed] of the entry
    [info] of [tenantId] to the next clock reading. *)
Definition touched (tenantId : string) (info : ConnectionInfo H)
  (this : MultiTenantManager.t H) (e : Env D H) : MultiTenantManager.t H :=
  MultiTenantManager.set_connections
    (JsMap.set tenantId
       (MultiTenantManager.set_lastUsed (clock B (reads e)) info)) this.

(** What one call may do to the registry: the clock is not read backwards,
    every entry left is a step from the entries before, and keys stay
    unique. *)
Definition step_ok (this : MultiTenantManager.t H) (e : Env D H)
  (w' : World (MultiTenantManager.t H) D H) : Prop :=
  (reads e <= reads (snd w'))%nat /\
  Forall (entry_step (reads e) (reads (snd w')) (MultiTenantManager.connections this))
         (MultiTenantManager.connections (fst w')) /\
  (NoDup (JsMap.keys (MultiTenantManager.connections this)) ->
   NoDup (JsMap.keys (MultiTenantManager.connections (fst w')))).

(** The invariant of the registry: unique keys, and timestamps that are
    clock readings in the right order. *)
Definition well_stamped (w : World (MultiTenantManager.t H) D H) : Prop :=
  NoDup (JsMap.keys (MultiTenantManager.connections (fst w))) /\
  Forall (fun kv => stamped (reads (snd w)) (snd kv))
         (MultiTenantManager.connections (fst w)).

End Histories.

(* ================================================================== *)
(** ** Vocabulary of the further properties *)
(* ================================================================== *)

(** Credentials that [validateCredentials] lets through: host and database
    not blank, user and password not empty, port between 1 and 65535. *)
Definition acceptable_credentials (c : Credentials) : bool :=
  (negb (trim_is_empty (host c)) && (1 <=? port c)%Z && (port c <=? 65535)%Z
   && truthy_string (username c) && truthy_string (password c)
   && negb (trim_is_empty (database c)))%bool.

(** A tenant configuration that [validateTenantConfig] lets through. *)
Definition acceptable_tenant (config : TenantConfig) : bool :=
  (truthy_string (tenantId config)
   && ((databaseType config =? MONGODB) || (databaseType config =? POSTGRESQL))
   && acceptable_credentials (credentials config))%bool.





(** The number of entries of a backend kind. *)
Definition entries_of_kind {H} (kind : DatabaseType)
  (m : JsMap.t (ConnectionInfo H)) : nat :=
  List.length (filter (fun kv => info_databaseType (snd kv) =? kind) m).

(** An entry as the manager stores them: under its own tenant identifier,
    active, with a handle, of a kind that has a connector. *)
Definition regular_entry {H} (kv : string * ConnectionInfo H) : Prop :=
  info_tenantId (snd kv) = fst kv /\
  isActive (snd kv) = true /\
  connection (snd kv) <> None /\
  supported (info_databaseType (snd kv)).

(** The options with which a connector is made for a tenant: the manager's
    defaults, overridden by the tenant's own. *)
Definition tenant_options {H} (this : MultiTenantManager.t H)
  (tenantConfig : TenantConfig) : ConnectionOptions :=
  spread_options (MultiTenantManager.this_defaultOptions this)
                 (object_of (options (credentials tenantConfig))).



(** Unfolds the primitive steps of a computation, leaving the methods. *)
Ltac run :=
  cbv beta iota zeta delta
    [bind ret throw try_catch when get_this update_this new_Date read call
     console_write on_object fst snd manager_of env_of].

Local Open Scope run_scope.

(* ================================================================== *)
(** ** Facts about [Map] *)
(* ================================================================== *)

Section MapFacts.

Context {V : Type}.

Lemma get_set_same : forall k (v : V) m, JsMap.get k (JsMap.set k v m) = Some v.
Proof.
  induction m as [|[k' v'] m IH]; simpl.
  - now rewrite String.eqb_refl.
  - destruct (k =? k') eqn:E; simpl; rewrite ?String.eqb_refl, ?E; auto.
Qed.

Lemma get_set_other : forall k k' (v : V) m,
  k' <> k -> JsMap.get k' (JsMap.set k v m) = JsMap.get k' m.
Proof.
  intros k k' v m Hne. induction m as [|[k0 v0] m IH]; simpl.
  - destruct (k' =? k) eqn:E; auto. apply String.eqb_eq in E. contradiction.
  - destruct (k =? k0) eqn:E; simpl.
    + apply String.eqb_eq in E. subst k0.
      destruct (k' =? k) eqn:E'; auto.
      apply String.eqb_eq in E'. contradiction.
    + destruct (k' =? k0); auto.
Qed.

Lemma get_delete_same : forall k (m : JsMap.t V), JsMap.get k (JsMap.delete k m) = None.
Proof.
  induction m as [|[k' v'] m IH]; simpl; auto.
  destruct (k =? k') eqn:E; simpl; rewrite ?E; auto.
Qed.

Lemma get_delete_other : forall k k' (m : JsMap.t V),
  k' <> k -> JsMap.get k' (JsMap.delete k m) = JsMap.get k' m.
Proof.
  intros k k' m Hne. induction m as [|[k0 v0] m IH]; simpl; auto.
  destruct (k =? k0) eqn:E; simpl.
  - apply String.eqb_eq in E. subst k0.
    destruct (k' =? k) eqn:E'; auto. apply String.eqb_eq in E'. contradiction.
  - destruct (k' =? k0); auto.
Qed.

Lemma delete_absent : forall k (m : JsMap.t V),
  JsMap.get k m = None -> JsMap.delete k m = m.
Proof.
  induction m as [|[k' v'] m IH]; simpl; auto.
  destruct (k =? k') eqn:E; simpl; intro Hg; [discriminate|].
  now rewrite IH.
Qed.

Lemma delete_set : forall k (v : V) m,
  JsMap.delete k (JsMap.set k v m) = JsMap.delete k m.
Proof.
  induction m as [|[k' v'] m IH]; simpl.
  - now rewrite String.eqb_refl.
  - destruct (k =? k') eqn:E; simpl; rewrite ?String.eqb_refl, ?E; simpl; auto.
    now rewrite IH.
Qed.

Lemma in_delete : forall k kv (m : JsMap.t V),
  In kv (JsMap.delete k m) -> In kv m.
Proof. intros k kv m Hin. apply filter_In in Hin. tauto. Qed.

Lemma in_set : forall k (v : V) kv m,
  In kv (JsMap.set k v m) -> kv = (k, v) \/ In kv m.
Proof.
  induction m as [|[k' v'] m IH]; simpl.
  - intros [<-|[]]. now left.
  - destruct (k =? k'); simpl.
    + intros [<-|Hin]; auto.
    + intros [<-|Hin]; auto. destruct (IH Hin); auto.
Qed.

Lemma get_in : forall k (v : V) m, JsMap.get k m = Some v -> In (k, v) m.
Proof.
  induction m as [|[k' v'] m IH]; simpl; [discriminate|].
  destruct (k =? k') eqn:E.
  - intro Heq. injection Heq as ->. apply String.eqb_eq in E. subst. now left.
  - auto.
Qed.

Lemma in_get : forall k (v : V) m,
  NoDup (JsMap.keys m) -> In (k, v) m -> JsMap.get k m = Some v.
Proof.
  induction m as [|[k' v'] m IH]; simpl; [contradiction|].
  intros Hnd [Heq|Hin].
  - injection Heq as -> ->. now rewrite String.eqb_refl.
  - inversion Hnd as [|? ? Hnotin Hnd']; subst.
    destruct (k =? k') eqn:E.
    + apply String.eqb_eq in E. subst k'. exfalso. apply Hnotin.
      change (In (fst (k, v)) (map fst m)). now apply in_map.
    + now apply IH.
Qed.

Lemma keys_delete : forall k (m : JsMap.t V),
  NoDup (JsMap.keys m) -> NoDup (JsMap.keys (JsMap.delete k m)).
Proof.
  induction m as [|[k' v'] m IH]; simpl; auto.
  intro Hnd. inversion Hnd as [|? ? Hnotin Hnd']; subst.
  destruct (k =? k'); simpl; auto.
  constructor; auto.
  intro Hin. apply Hnotin. unfold JsMap.keys in *.
  apply in_map_iff in Hin as [kv [Hk Hin]]. apply in_delete in Hin.
  rewrite <- Hk. now apply in_map.
Qed.

Lemma keys_set : forall k (v : V) m,
  NoDup (JsMap.keys m) -> NoDup (JsMap.keys (JsMap.set k v m)).
Proof.
  induction m as [|[k' v'] m IH]; simpl.
  - intros _. constructor; [intros []|constructor].
  - intro Hnd. inversion Hnd as [|? ? Hnotin Hnd']; subst.
    destruct (k =? k') eqn:E; simpl.
    + apply String.eqb_eq in E. subst k'. now constructor.
    + constructor; auto.
      intro Hin. unfold JsMap.keys in *.
      apply in_map_iff in Hin as [kv [Hk Hin]].
      apply in_set in Hin as [->|Hin].
      * simpl in Hk. subst k'. now rewrite String.eqb_refl in E.
      * apply Hnotin. rewrite <- Hk. now apply in_map.
Qed.

End MapFacts.

(* ================================================================== *)
(** ** Connection strings *)
(* ================================================================== *)

Lemma append_assoc : forall a b c : string, (a ++ b) ++ c = a ++ (b ++ c).
Proof. induction a as [|x a IH]; intros b c; simpl; [|rewrite IH]; reflexivity. Qed.

Lemma prefix_append : forall p s : string, String.prefix p (p ++ s) = true.
Proof.
  induction p as [|a p IH]; intro s; simpl; [now destruct s|].
  destruct (ascii_dec a a) as [_|Hne]; [apply IH|now elim Hne].
Qed.

Lemma prefix_other_head : forall (a b : ascii) (p s : string),
  a <> b -> String.prefix (String a p) (String b s) = false.
Proof.
  intros a b p s Hne. simpl. destruct (ascii_dec a b); [contradiction|reflexivity].
Qed.

Lemma mongodb_string_shape : forall credentials,
  exists rest,
    MongoDBConnector.buildConnectionString credentials = "mongodb://" ++ rest.
Proof.
  intro credentials. unfold MongoDBConnector.buildConnectionString.
  cbv zeta.
  destruct (truthy_string (username credentials) && truthy_string (password credentials))%bool;
    match goal with |- context [if ?c then _ else _] => destruct c end;
    eexists; repeat rewrite append_assoc; reflexivity.
Qed.

Lemma postgresql_string_shape : forall credentials,
  exists rest,
    PostgreSQLConnector.buildConnectionString credentials = "postgresql://" ++ rest.
Proof.
  intro credentials. unfold PostgreSQLConnector.buildConnectionString.
  cbv zeta.
  match goal with |- context [if ?c then _ else _] => destruct c end;
    eexists; repeat rewrite append_assoc; reflexivity.
Qed.

(** C10. Whatever the credentials, the connection string of the MongoDB
    connector starts with [mongodb://] and that of the PostgreSQL connector
    with [postgresql://]; so [isValidConnectionString] accepts each with its
    own backend kind and rejects it with the other. *)
Theorem built_connection_strings_validate :
  forall credentials : Credentials,
    startsWith (MongoDBConnector.buildConnectionString credentials) "mongodb://"
    = true /\
    startsWith (PostgreSQLConnector.buildConnectionString credentials) "postgresql://"
    = true /\
    ConnectionValidator.isValidConnectionString
      (MongoDBConnector.buildConnectionString credentials) MONGODB = true /\
    ConnectionValidator.isValidConnectionString
      (PostgreSQLConnector.buildConnectionString credentials) POSTGRESQL = true /\
    ConnectionValidator.isValidConnectionString
      (MongoDBConnector.buildConnectionString credentials) POSTGRESQL = false /\
    ConnectionValidator.isValidConnectionString
      (PostgreSQLConnector.buildConnectionString credentials) MONGODB = false.
Proof.
  intro credentials.
  destruct (mongodb_string_shape credentials) as (m & ->).
  destruct (postgresql_string_shape credentials) as (p & ->).
  assert (Hm : String.prefix "mongodb://" ("mongodb://" ++ m) = true)
    by apply prefix_append.
  assert (Hp : String.prefix "postgresql://" ("postgresql://" ++ p) = true)
    by apply prefix_append.
  assert (Hmp : String.prefix "postgresql://" ("mongodb://" ++ m) = false)
    by (apply prefix_other_head; discriminate).
  assert (Hmp' : String.prefix "postgres://" ("mongodb://" ++ m) = false)
    by (apply prefix_other_head; discriminate).
  assert (Hpm : String.prefix "mongodb://" ("postgresql://" ++ p) = false)
    by (apply prefix_other_head; discriminate).
  assert (Hpm' : String.prefix "mongodb+srv://" ("postgresql://" ++ p) = false)
    by (apply prefix_other_head; discriminate).
  unfold ConnectionValidator.isValidConnectionString, startsWith.
  change (truthy_string ("mongodb://" ++ m)) with true.
  change (truthy_string ("postgresql://" ++ p)) with true.
  change (MONGODB =? MONGODB) with true.
  change (POSTGRESQL =? MONGODB) with false.
  change (POSTGRESQL =? POSTGRESQL) with true.
  cbv iota. cbn [negb].
  rewrite Hm, Hp, Hmp, Hmp', Hpm, Hpm'.
  repeat split; reflexivity.
Qed.

(* ================================================================== *)
(** ** Validation of a batch of tenants *)
(* ================================================================== *)

Section Batch.

Import ConnectionValidator.

(** Validation runs the same in every world and leaves it alone. *)
Lemma validateTenantConfig_pure :
  forall (W : Type) (w : W) config,
    validateTenantConfig config w = (result (validateTenantConfig config), w).
Proof.
  intros W w config.
  unfold result, validateTenantConfig, ConnectorFactory.validateCredentials,
    ConnectorFactory.requiredFields, ConnectorFactory.missing.
  cbv beta iota zeta delta [bind ret throw try_catch when for_of fst snd].
  simpl.
  repeat match goal with
         | |- context [if ?c then _ else _] => destruct c
         end; reflexivity.
Qed.

Lemma has_in : forall tenantIds id, has tenantIds id = true <-> In id tenantIds.
Proof.
  intros tenantIds id. unfold has. rewrite existsb_exists. split.
  - intros (x & Hin & Heq). apply String.eqb_eq in Heq. now subst.
  - intro Hin. exists id. split; auto. apply String.eqb_refl.
Qed.

Lemma has_add : forall tenantIds id x,
  has (add tenantIds id) x = (has tenantIds x || (x =? id))%bool.
Proof.
  intros tenantIds id x. unfold add.
  destruct (has tenantIds id) eqn:Hid.
  - destruct (x =? id) eqn:E; [|now rewrite orb_false_r].
    apply String.eqb_eq in E. subst x. now rewrite Hid.
  - unfold has, push. rewrite existsb_app. simpl. now rewrite orb_false_r.
Qed.



(** Through valid configs with new identifiers the loop goes on. *)
Lemma validate_each_passes :
  forall (W : Type) (w : W) configs tail tenantIds,
    Forall individually_valid configs ->
    NoDup (map tenantId configs) ->
    (forall c, In c configs -> has tenantIds (tenantId c) = false) ->
    exists seen,
      validate_each (configs ++ tail) tenantIds w = validate_each tail seen w /\
      forall x, has seen x = true <->
                (has tenantIds x = true \/ In x (map tenantId configs)).
Proof.
  intros W w configs tail.
  induction configs as [|c configs IH]; intros tenantIds Hvalid Hnd Hnew; simpl.
  - exists tenantIds. split; [reflexivity|]. intro x. tauto.
  - inversion Hvalid as [|? ? Hc Hvalid']; subst.
    inversion Hnd as [|? ? Hnotin Hnd']; subst.
    unfold bind at 1. rewrite validateTenantConfig_pure, Hc.
    unfold bind at 1. rewrite (Hnew c) by now left. simpl. unfold ret.
    destruct (IH (add tenantIds (tenantId c)) Hvalid' Hnd') as (seen & Hrun & Hseen).
    + intros c' Hin. rewrite has_add, (Hnew c') by now right. simpl.
      apply String.eqb_neq. intro Heq. apply Hnotin. rewrite <- Heq.
      now apply in_map.
    + exists seen. split; [exact Hrun|]. intro x. rewrite Hseen, has_add.
      rewrite orb_true_iff, String.eqb_eq. intuition auto.
Qed.

End Batch.




(* ================================================================== *)
(** ** The steps of the manager *)
(* ================================================================== *)

Section ManagerSteps.

Context {D H : Type} (B : Backend D H).

Import MultiTenantManager.

Lemma undisturbed_refl : forall e : Env D H, undisturbed e e.
Proof. intro e. repeat split. lia. Qed.

(** [log] returns, and touches neither the manager nor the drivers. *)
Lemma log_runs : forall level message (this : t H) (e : Env D H),
  exists e',
    log B level message (this, e) = (Return tt, (this, e')) /\
    undisturbed e e' /\ (reads e' <= Datatypes.S (reads e))%nat.
Proof.
  intros level message this e. unfold log, undisturbed. run.
  destruct (truthy_field _ _); simpl.
  2:{ eexists; split; [reflexivity|]. repeat split; simpl; lia. }
  repeat match goal with |- context [if ?c then _ else _] => destruct c end;
  try destruct (logLevel (config this)) as [| |[]];
  (eexists; split; [reflexivity| repeat split; simpl; lia]).
Qed.

(** The probe returns its verdict, whatever the manager and the rest of the
    environment; it reads no clock and writes no line. *)
Lemma testConnection_runs :
  forall connection databaseType (this : t H) (e : Env D H),
  exists e',
    testConnection B connection databaseType (this, e)
    = (Return (probe B connection databaseType (drv e)), (this, e')) /\
    reads e' = reads e /\ console e' = console e /\
    connects e' = connects e /\ connected e' = connected e /\
    (exists probes, trace e' = (probes ++ trace e)%list).
Proof.
  intros connection databaseType this e.
  unfold probe, testConnection, connects, connected. run. simpl.
  destruct (databaseType =? MONGODB).
  - destruct connection as [c|]; simpl.
    2:{ eexists; repeat split; exists []; reflexivity. }
    destruct (has_db B c (drv e)); simpl.
    2:{ eexists; repeat split; exists []; reflexivity. }
    destruct (admin_ping B c (drv e)) as [[err|[]] d']; simpl;
      eexists; repeat split; eexists [_]; reflexivity.
  - destruct (databaseType =? POSTGRESQL).
    2:{ eexists; repeat split; exists []; reflexivity. }
    destruct connection as [c|]; simpl.
    2:{ eexists; repeat split; exists []; reflexivity. }
    destruct (has_isInitialized B c (drv e)); simpl.
    2:{ eexists; repeat split; exists []; reflexivity. }
    destruct (query B c "SELECT 1" (drv e)) as [[err|[]] d']; simpl;
      eexists; repeat split; eexists [_]; reflexivity.
Qed.

End ManagerSteps.

Section Creation.

Context {D H : Type} (B : Backend D H).

Import MultiTenantManager.

(** A first [connect()] on a new connector asks the driver once. *)
Lemma connect_new_mongo :
  forall credentials options (this : t H) (e : Env D H),
  exists r e' ev,
    on_object (BaseConnector.Mongo (MongoDBConnector.new credentials options))
              (BaseConnector.connect B) (this, e) = (r, (this, e')) /\
    reads e' = reads e /\ trace e' = ev :: trace e /\ is_connect ev = true /\
    match r with
    | Return h => created_handle ev = Some h
    | Throw _ => created_handle ev = None
    end.
Proof.
  intros credentials options this e.
  unfold BaseConnector.connect, BaseConnector.as_mongo,
    MongoDBConnector.connect. run. simpl.
  match goal with
  | |- context [mongoose_createConnection B ?u ?o ?d] =>
      destruct (mongoose_createConnection B u o d) as [[err|h] d']
  end; simpl; do 3 eexists; repeat split.
Qed.

Lemma connect_new_postgres :
  forall credentials options (this : t H) (e : Env D H),
  exists r e' ev,
    on_object (BaseConnector.Postgres (PostgreSQLConnector.new credentials options))
              (BaseConnector.connect B) (this, e) = (r, (this, e')) /\
    reads e' = reads e /\ trace e' = ev :: trace e /\ is_connect ev = true /\
    match r with
    | Return h => created_handle ev = Some h
    | Throw _ => created_handle ev = None
    end.
Proof.
  intros credentials options this e.
  unfold BaseConnector.connect, BaseConnector.as_postgres,
    PostgreSQLConnector.connect. run. simpl.
  match goal with
  | |- context [typeorm_createConnection B ?o ?d] =>
      destruct (typeorm_createConnection B o d) as [[err|h] d']
  end; simpl; do 3 eexists; repeat split.
Qed.

(** What a connection request leaves in the environment. *)
Lemma createConnector_connect :
  forall tenantConfig (this : t H) (e : Env D H),
    supported (databaseType tenantConfig) ->
    exists connector r e' ev,
      createConnector tenantConfig (this, e) = (Return connector, (this, e)) /\
      on_object connector (BaseConnector.connect B) (this, e) = (r, (this, e')) /\
      reads e' = reads e /\ trace e' = ev :: trace e /\ is_connect ev = true /\
      match r with
      | Return h => created_handle ev = Some h
      | Throw _ => created_handle ev = None
      end.
Proof.
  intros tenantConfig this e [Hk|Hk]; unfold createConnector; run; rewrite Hk;
    simpl.
  - match goal with
    | |- context [MongoDBConnector.new ?c ?o] =>
        destruct (connect_new_mongo c o this e) as (r & e' & ev & Hrun & Hrest)
    end.
    eexists _, r, e', ev. split; [reflexivity|]. split; [exact Hrun|exact Hrest].
  - match goal with
    | |- context [PostgreSQLConnector.new ?c ?o] =>
        destruct (connect_new_postgres c o this e) as (r & e' & ev & Hrun & Hrest)
    end.
    eexists _, r, e', ev. split; [reflexivity|]. split; [exact Hrun|exact Hrest].
Qed.

Lemma createConnector_unsupported :
  forall tenantConfig (this : t H) (e : Env D H),
    databaseType tenantConfig <> MONGODB ->
    databaseType tenantConfig <> POSTGRESQL ->
    createConnector tenantConfig (this, e)
    = (Throw (ErrorObject ("Unsupported database type: " ++ databaseType tenantConfig)),
       (this, e)).
Proof.
  intros tenantConfig this e Hm Hp. unfold createConnector. run.
  destruct (databaseType tenantConfig =? MONGODB) eqn:Em.
  { apply String.eqb_eq in Em. contradiction. }
  destruct (databaseType tenantConfig =? POSTGRESQL) eqn:Ep.
  { apply String.eqb_eq in Ep. contradiction. }
  reflexivity.
Qed.

Lemma supported_dec : forall k : DatabaseType,
  supported k \/ (k <> MONGODB /\ k <> POSTGRESQL).
Proof.
  intro k. unfold supported.
  destruct (string_dec k MONGODB); auto.
  destruct (string_dec k POSTGRESQL); auto.
Qed.

Lemma connects_cons : forall (e e' : Env D H) ev,
  trace e' = ev :: trace e -> is_connect ev = true ->
  connects e' = Datatypes.S (connects e).
Proof. intros e e' ev Ht Hc. unfold connects. rewrite Ht. simpl. now rewrite Hc. Qed.

Lemma connected_cons : forall (e e' : Env D H) ev,
  trace e' = ev :: trace e ->
  connected e' = ((if is_connected ev then 1 else 0) + connected e)%nat.
Proof.
  intros e e' ev Ht. unfold connected. rewrite Ht. simpl.
  now destruct (is_connected ev).
Qed.

Lemma is_connected_handle : forall ev : Event H,
  is_connected ev = match created_handle ev with Some _ => true | None => false end.
Proof. intros [? ? [h|]|? ?|? [h|]|? ? ?|? ?|? ?]; reflexivity. Qed.

(** The second block of [getConnection]: either the drivers are asked for one
    connection, obtain it, and the entry is stored; or nothing is stored. *)
Lemma create_new_runs :
  forall tenantId tenantConfig (this : t H) (e : Env D H),
  exists r this' e',
    create_new B tenantId tenantConfig (this, e) = (r, (this', e')) /\
    (reads e <= reads e')%nat /\
    match r with
    | Return c =>
        exists h i ev,
          c = Some h /\
          this' = set_connections
                    (JsMap.set tenantId (fresh_entry B tenantId tenantConfig h i)) this /\
          (reads e <= i)%nat /\ (Datatypes.S i < reads e')%nat /\
          trace e' = ev :: trace e /\ is_connect ev = true /\
          created_handle ev = Some h /\
          supported (databaseType tenantConfig)
    | Throw error =>
        this' = this /\
        ((trace e' = trace e /\ drv e' = drv e /\
          databaseType tenantConfig <> MONGODB /\
          databaseType tenantConfig <> POSTGRESQL /\
          error = ErrorObject ("Unsupported database type: "
                               ++ databaseType tenantConfig))
         \/
         (exists ev, trace e' = ev :: trace e /\ is_connect ev = true /\
                     created_handle ev = None /\
                     supported (databaseType tenantConfig)))
    end.
Proof.
  intros tenantId tenantConfig this e. unfold create_new.
  destruct (log_runs B "info" ("Creating new connection for tenant: " ++ tenantId)
              this e) as (e1 & Hlog1 & (Hd1 & Ht1 & Hr1) & _).
  destruct (supported_dec (databaseType tenantConfig)) as [Hs|[Hm Hp]].
  - destruct (createConnector_connect tenantConfig this e1 Hs)
      as (connector & r & e2 & ev & Hcc & Hco & Hr2 & Ht2 & Hic & Hh).
    unfold bind at 1. rewrite Hlog1.
    unfold bind at 1. rewrite Hcc.
    unfold bind at 1. rewrite Hco.
    destruct r as [h|error].
    + run. simpl.
      match goal with
      | |- context [log B ?l ?m (?t, ?env)] =>
          destruct (log_runs B l m t env) as (e3 & Hlog3 & (Hd3 & Ht3 & Hr3) & _);
          rewrite Hlog3
      end.
      simpl in Hr3, Ht3.
      do 3 eexists. split; [reflexivity|]. split; [lia|].
      exists h, (reads e2), ev. repeat split; auto; try lia.
      now rewrite Ht3, Ht2, Ht1.
    + do 3 eexists. split; [reflexivity|]. split; [lia|]. split; auto.
      right. exists ev. repeat split; auto. now rewrite Ht2, Ht1.
  - unfold bind at 1. rewrite Hlog1.
    unfold bind at 1. rewrite (createConnector_unsupported tenantConfig this e1 Hm Hp).
    do 3 eexists. split; [reflexivity|]. split; [lia|]. split; auto.
    left. repeat split; auto.
Qed.

End Creation.

Section GetConnection.

Context {D H : Type} (B : Backend D H).

Import MultiTenantManager.

Lemma check_existing_absent :
  forall tenantId tenantConfig (this : t H) (e : Env D H),
    JsMap.get tenantId (connections this) = None ->
    check_existing B tenantId tenantConfig (this, e) = (Return None, (this, e)).
Proof.
  intros tenantId tenantConfig this e Hg. unfold check_existing. run.
  now rewrite Hg.
Qed.

Lemma check_existing_inactive :
  forall tenantId tenantConfig (this : t H) (e : Env D H) info,
    JsMap.get tenantId (connections this) = Some info ->
    isActive info = false ->
    check_existing B tenantId tenantConfig (this, e) = (Return None, (this, e)).
Proof.
  intros tenantId tenantConfig this e info Hg Ha. unfold check_existing. run.
  now rewrite Hg, Ha.
Qed.

Lemma check_existing_active :
  forall tenantId tenantConfig (this : t H) (e : Env D H) info,
    JsMap.get tenantId (connections this) = Some info ->
    isActive info = true ->
    exists e',
      check_existing B tenantId tenantConfig (this, e)
      = (if probe B (connection info) (databaseType tenantConfig) (drv e)
         then (Return (Some (connection info)), (touched B tenantId info this e, e'))
         else (Return None,
               (set_connections (JsMap.delete tenantId)
                  (touched B tenantId info this e), e'))) /\
      (reads e < reads e')%nat /\
      connects e' = connects e /\ connected e' = connected e.
Proof.
  intros tenantId tenantConfig this e info Hg Ha.
  unfold check_existing, touched. run. rewrite Hg, Ha.
  match goal with
  | |- context [testConnection B ?c ?k (?t, ?env)] =>
      destruct (testConnection_runs B c k t env)
        as (e1 & Hrun & Hr1 & _ & Hc1 & Hcd1 & _);
      unfold connects, connected in Hc1, Hcd1;
      cbn [drv reads trace] in Hrun, Hr1, Hc1, Hcd1;
      rewrite Hrun
  end.
  destruct (probe B (connection info) (databaseType tenantConfig) (drv e));
    cbv beta iota;
    match goal with
    | |- context [log B ?l ?m (?t, ?env)] =>
        destruct (log_runs B l m t env) as (e2 & Hlog & (Hd2 & Ht2 & Hr2) & _)
    end;
    exists e2; rewrite Hlog; (split; [reflexivity|]);
    unfold connects, connected; rewrite Ht2;
    repeat split; auto; lia.
Qed.

Lemma getConnection_returning :
  forall tenantId tenantConfig w c w',
    check_existing B tenantId tenantConfig w = (Return (Some c), w') ->
    getConnection B tenantId tenantConfig w = (Return c, w').
Proof.
  intros tenantId tenantConfig w c w' Hc.
  unfold getConnection, try_catch, bind. now rewrite Hc.
Qed.

Lemma getConnection_creating :
  forall tenantId tenantConfig w (this1 : t H) (e1 : Env D H),
    check_existing B tenantId tenantConfig w = (Return None, (this1, e1)) ->
    exists r this' e2 e',
      create_new B tenantId tenantConfig (this1, e1) = (r, (this', e2)) /\
      getConnection B tenantId tenantConfig w = (r, (this', e')) /\
      undisturbed e2 e'.
Proof.
  intros tenantId tenantConfig w this1 e1 Hc.
  unfold getConnection, try_catch. unfold bind at 1. rewrite Hc.
  destruct (create_new B tenantId tenantConfig (this1, e1)) as [[c|error] [this' e2]].
  - exists (Return c), this', e2, e2. repeat split. lia.
  - match goal with
    | |- context [log B ?l ?m] =>
        destruct (log_runs B l m this' e2) as (e3 & Hlog & Hu & _)
    end.
    exists (Throw error), this', e2, e3. split; [reflexivity|].
    unfold bind. rewrite Hlog. split; [reflexivity|exact Hu].
Qed.

End GetConnection.

Section TwoCalls.

Context {D H : Type} (B : Backend D H).

Import MultiTenantManager.

(** A call that finds no entry and returns has obtained one connection from
    the drivers and stored it. *)
Lemma first_call_creates :
  forall tenantId tenantConfig (this0 this : t H) (e0 e : Env D H) c,
    JsMap.get tenantId (connections this0) = None ->
    getConnection B tenantId tenantConfig (this0, e0) = (Return c, (this, e)) ->
    connects e = Datatypes.S (connects e0) /\
    connected e = Datatypes.S (connected e0) /\
    supported (databaseType tenantConfig) /\
    exists h i,
      c = Some h /\
      this = set_connections
               (JsMap.set tenantId (fresh_entry B tenantId tenantConfig h i)) this0.
Proof.
  intros tenantId tenantConfig this0 this e0 e c Hg Hrun.
  pose proof (check_existing_absent B tenantId tenantConfig this0 e0 Hg) as Hc.
  destruct (getConnection_creating B _ _ _ _ _ Hc)
    as (r & this' & e2 & e' & Hnew & Hget & (Hd & Ht & Hr)).
  rewrite Hrun in Hget. injection Hget as <- <- <-.
  destruct (create_new_runs B tenantId tenantConfig this0 e0)
    as (r' & this'' & e'' & Hnew' & _ & Hcase).
  rewrite Hnew in Hnew'. injection Hnew' as <- <- <-.
  destruct Hcase as (h & i & ev & -> & -> & _ & _ & Htr & Hic & Hh & Hs).
  repeat split; auto.
  - unfold connects. rewrite Ht. now apply connects_cons with (ev := ev).
  - unfold connected. rewrite Ht.
    change (connected e2 = Datatypes.S (connected e0)).
    rewrite (connected_cons e0 e2 ev Htr), is_connected_handle, Hh. reflexivity.
  - now exists h, i.
Qed.

End TwoCalls.

(* ================================================================== *)
(** ** The life cycle of a tenant's connection *)
(* ================================================================== *)






(** C3. Unsupported backend: for a tenant without an entry and a backend kind
    that is neither ['mongodb'] nor ['postgresql'], [getConnection] throws
    the error [Unsupported database type: <kind>], makes no driver call and
    leaves the manager as it was, so still without an entry for the tenant. *)
Theorem getConnection_unsupported_backend :
  forall {D H : Type} (B : Backend D H) (tenantId : string)
    (tenantConfig : TenantConfig) (this : MultiTenantManager.t H) (e : Env D H),
    JsMap.get tenantId (MultiTenantManager.connections this) = None ->
    databaseType tenantConfig <> MONGODB ->
    databaseType tenantConfig <> POSTGRESQL ->
    exists this' e',
      MultiTenantManager.getConnection B tenantId tenantConfig (this, e)
      = (Throw (ErrorObject ("Unsupported database type: "
                             ++ databaseType tenantConfig)),
         (this', e')) /\
      this' = this /\
      JsMap.get tenantId (MultiTenantManager.connections this') = None /\
      trace e' = trace e /\ drv e' = drv e.
Proof.
  intros D H B tenantId tenantConfig this e Hg Hm Hp.
  pose proof (check_existing_absent B tenantId tenantConfig this e Hg) as Hc.
  destruct (getConnection_creating B _ _ _ _ _ Hc)
    as (r & this' & e2 & e' & Hnew & Hget & (Hd & Ht & Hr)).
  destruct (create_new_runs B tenantId tenantConfig this e)
    as (r' & this'' & e'' & Hnew' & _ & Hcase).
  rewrite Hnew in Hnew'. injection Hnew' as <- <- <-.
  destruct r as [c|error].
  - destruct Hcase as (h & i & ev & _ & _ & _ & _ & _ & _ & _ & [Hs|Hs]);
      contradiction.
  - destruct Hcase as (-> & [(Htr & Hdr & _ & _ & ->)|(ev & _ & _ & _ & [Hs|Hs])]);
      try contradiction.
    exists this, e'. split; [exact Hget|].
    repeat split; auto; congruence.
Qed.

Lemma getConnection_unsupported_backend_witness :
  (JsMap.get "tenant3" (MultiTenantManager.connections Stub.manager) = None /\
   databaseType Stub.redis_tenant <> MONGODB /\
   databaseType Stub.redis_tenant <> POSTGRESQL) /\
  exists this' e',
    MultiTenantManager.getConnection Stub.backend "tenant3" Stub.redis_tenant
      (Stub.manager, Stub.start [])
    = (Throw (ErrorObject "Unsupported database type: redis"), (this', e')) /\
    JsMap.get "tenant3" (MultiTenantManager.connections this') = None.
Proof.
  split; [repeat split; try reflexivity; discriminate|].
  destruct (getConnection_unsupported_backend Stub.backend "tenant3"
              Stub.redis_tenant Stub.manager (Stub.start []))
    as (this' & e' & Hrun & _ & Hnone & _);
    [reflexivity | discriminate | discriminate |].
  exists this', e'. split; [exact Hrun | exact Hnone].
Defined.

Section Closing.

Context {D H : Type} (B : Backend D H).

Import MultiTenantManager.

Lemma set_connections_id : forall (this : t H),
  set_connections (fun m => m) this = this.
Proof. now intros []. Qed.

(** [closeConnection] returns; the tenant's entry is gone whatever the driver
    did; no connection is requested. *)
Lemma closeConnection_runs :
  forall tenantId (this : t H) (e : Env D H),
  exists e',
    closeConnection B tenantId (this, e)
    = (Return tt, (set_connections (JsMap.delete tenantId) this, e')) /\
    (reads e <= reads e')%nat /\
    connects e' = connects e /\ connected e' = connected e.
Proof.
  intros tenantId this e. unfold closeConnection. run.
  destruct (JsMap.get tenantId (connections this)) as [info|] eqn:Hg.
  2:{ exists e. unfold set_connections. rewrite (delete_absent _ _ Hg).
      destruct this; simpl. repeat split; lia. }
  assert (Hfinish : forall (w : World (t H) D H),
            (reads e <= reads (snd w))%nat -> connects (snd w) = connects e ->
            connected (snd w) = connected e ->
            forall l m,
            exists e',
              log B l m w = (Return tt, (fst w, e')) /\
              (reads e <= reads e')%nat /\
              connects e' = connects e /\ connected e' = connected e).
  { intros [this1 e1] Hr Hc Hd l m. cbn [fst snd] in *.
    destruct (log_runs B l m this1 e1) as (e' & Hlog & (_ & Ht & Hr') & _).
    exists e'. split; [exact Hlog|]. unfold connects, connected in *.
    rewrite Ht. repeat split; auto; lia. }
  assert (Hclosed : forall (e1 : Env D H),
            (reads e <= reads e1)%nat -> connects e1 = connects e ->
            connected e1 = connected e ->
            exists e',
              match log B "info" ("Closed connection for tenant: " ++ tenantId)
                      (set_connections (JsMap.delete tenantId) this, e1) with
              | (Return a, w') => (Return a, w')
              | (Throw error, w') =>
                  match log B "error" ("Error closing connection for tenant "
                                       ++ tenantId ++ ": " ++ message_of error) w' with
                  | (Return _, w'') =>
                      (Return tt, (set_connections (JsMap.delete tenantId) (fst w''), snd w''))
                  | (Throw error', w'') => (Throw error', w'')
                  end
              end
              = (Return tt, (set_connections (JsMap.delete tenantId) this, e')) /\
              (reads e <= reads e')%nat /\
              connects e' = connects e /\ connected e' = connected e).
  { intros e1 Hr Hc Hd.
    destruct (Hfinish (set_connections (JsMap.delete tenantId) this, e1) Hr Hc Hd
                "info" ("Closed connection for tenant: " ++ tenantId))
      as (e' & Hlog & Hrest).
    exists e'. rewrite Hlog. auto. }
  assert (Hfailed : forall error (e1 : Env D H),
            (reads e <= reads e1)%nat -> connects e1 = connects e ->
            connected e1 = connected e ->
            exists e',
              match log B "error" ("Error closing connection for tenant "
                                   ++ tenantId ++ ": " ++ message_of error)
                      (this, e1) with
              | (Return _, w'') =>
                  (Return tt, (set_connections (JsMap.delete tenantId) (fst w''), snd w''))
              | (Throw error', w'') => (Throw error', w'')
              end
              = (Return tt, (set_connections (JsMap.delete tenantId) this, e')) /\
              (reads e <= reads e')%nat /\
              connects e' = connects e /\ connected e' = connected e).
  { intros error e1 Hr Hc Hd.
    destruct (Hfinish (this, e1) Hr Hc Hd "error"
                ("Error closing connection for tenant " ++ tenantId ++ ": "
                 ++ message_of error))
      as (e' & Hlog & Hrest).
    exists e'. rewrite Hlog. auto. }
  destruct (connection info) as [c|].
  2:{ apply Hclosed; auto. }
  destruct (info_databaseType info =? MONGODB).
  - destruct (has_close B c (drv e)).
    + destruct (close B c (drv e)) as [[error|[]] d'].
      * apply Hfailed; auto.
      * apply Hclosed; auto.
    + apply Hclosed; auto.
  - destruct (info_databaseType info =? POSTGRESQL).
    + destruct (has_destroy B c (drv e)).
      * destruct (destroy B c (drv e)) as [[error|[]] d'].
        -- apply Hfailed; auto.
        -- apply Hclosed; auto.
      * apply Hclosed; auto.
    + apply Hclosed; auto.
Qed.

End Closing.

Section Sweeping.

Context {D H : Type} (B : Backend D H).

Import MultiTenantManager.

Lemma listed_in : forall k ks, listed k ks = true <-> In k ks.
Proof.
  intros k ks. unfold listed. rewrite existsb_exists. split.
  - intros (x & Hin & Heq). apply String.eqb_eq in Heq. now subst.
  - intro Hin. exists k. split; auto. apply String.eqb_refl.
Qed.

Lemma filter_twice : forall {A} (p q : A -> bool) (l : list A),
  filter p (filter q l) = filter (fun x => q x && p x) l.
Proof.
  induction l as [|x l IH]; simpl; auto.
  destruct (q x); simpl; [destruct (p x)|]; now rewrite IH.
Qed.

(** Closing the tenants of a list one after the other removes exactly the
    entries under these keys. *)
Lemma for_of_closeConnection :
  forall tenantIds (this : t H) (e : Env D H),
  exists e',
    for_of tenantIds (closeConnection B) (this, e)
    = (Return tt,
       (set_connections
          (filter (fun kv => negb (listed (fst kv) tenantIds))) this, e')) /\
    (reads e <= reads e')%nat /\
    connects e' = connects e /\ connected e' = connected e.
Proof.
  induction tenantIds as [|tenantId rest IH]; intros this e.
  - exists e.
    assert (Hf : forall m : JsMap.t (ConnectionInfo H),
              filter (fun kv => negb (listed (fst kv) [])) m = m).
    { induction m as [|kv m IHm]; [reflexivity|]. simpl. f_equal. exact IHm. }
    unfold for_of, ret, set_connections. rewrite Hf.
    destruct this. simpl. repeat split; lia.
  - simpl. unfold bind.
    destruct (closeConnection_runs B tenantId this e) as (e1 & Hrun & Hr1 & Hc1 & Hd1).
    rewrite Hrun.
    destruct (IH (set_connections (JsMap.delete tenantId) this) e1)
      as (e2 & Hrun2 & Hr2 & Hc2 & Hd2).
    rewrite Hrun2. exists e2. split; [|repeat split; lia].
    unfold set_connections, JsMap.delete. simpl. rewrite filter_twice.
    do 3 f_equal. apply filter_ext. intros [k v]. simpl.
    rewrite String.eqb_sym. now destruct (k =? tenantId), (listed k rest).
Qed.

Lemma idle_tenants_spec :
  forall now maxIdleTime (entries : JsMap.t (ConnectionInfo H)) acc,
    idle_tenants now maxIdleTime entries acc
    = (acc ++ JsMap.keys (filter (fun kv => idle now maxIdleTime (snd kv)) entries))%list.
Proof.
  induction entries as [|[k info] entries IH]; intro acc; simpl.
  - now rewrite app_nil_r.
  - rewrite IH. unfold idle at 2. simpl.
    destruct (now - lastUsed info >? maxIdleTime)%Z; simpl; auto.
    unfold push. now rewrite <- app_assoc.
Qed.

(** In a map, the keys of the entries that satisfy a test single them out. *)
Lemma filter_by_keys :
  forall (p : ConnectionInfo H -> bool) (m : JsMap.t (ConnectionInfo H)),
    NoDup (JsMap.keys m) ->
    filter (fun kv => negb (listed (fst kv)
                              (JsMap.keys (filter (fun kv => p (snd kv)) m)))) m
    = filter (fun kv => negb (p (snd kv))) m.
Proof.
  intros p m Hnd. apply filter_ext_in. intros [k v] Hin. simpl. f_equal.
  destruct (p v) eqn:Hp.
  - apply listed_in. unfold JsMap.keys.
    change k with (fst (k, v)). apply in_map. apply filter_In. auto.
  - destruct (listed k _) eqn:Hl; auto.
    apply listed_in in Hl. unfold JsMap.keys in Hl.
    apply in_map_iff in Hl as ([k' v'] & Hk & Hin').
    simpl in Hk. subst k'. apply filter_In in Hin' as [Hin' Hp']. simpl in Hp'.
    pose proof (in_get _ _ _ Hnd Hin) as G1.
    pose proof (in_get _ _ _ Hnd Hin') as G2.
    congruence.
Qed.

Lemma get_filter :
  forall (p : ConnectionInfo H -> bool) k (m : JsMap.t (ConnectionInfo H)),
    NoDup (JsMap.keys m) ->
    JsMap.get k (filter (fun kv => p (snd kv)) m)
    = match JsMap.get k m with
      | Some v => if p v then Some v else None
      | None => None
      end.
Proof.
  intros p k m. induction m as [|[k' v'] m IH]; simpl; auto.
  intro Hnd. inversion Hnd as [|? ? Hnotin Hnd']; subst.
  destruct (k =? k') eqn:E.
  - apply String.eqb_eq in E. subst k'.
    destruct (p v'); simpl; [now rewrite String.eqb_refl|].
    rewrite IH by assumption.
    destruct (JsMap.get k m) as [v|] eqn:G; auto.
    exfalso. apply Hnotin. apply get_in in G.
    change k with (fst (k, v)). now apply in_map.
  - destruct (p v'); simpl; rewrite ?E; auto.
Qed.

End Sweeping.

Section Cleanup.

Context {D H : Type} (B : Backend D H).

Import MultiTenantManager.

(** The threshold that a call of [cleanupInactiveConnections] applies. *)
Lemma cleanupInactiveConnections_runs :
  forall maxIdleTime (this : t H) (e : Env D H),
  exists e',
    cleanupInactiveConnections B maxIdleTime (this, e)
    = (Return tt,
       (set_connections
          (filter (fun kv =>
             negb (listed (fst kv)
                     (JsMap.keys
                        (filter (fun kv => idle (clock B (reads e))
                                             (match maxIdleTime with
                                              | Some n => n
                                              | None => 300000%Z
                                              end) (snd kv))
                                (connections this)))))) this, e')) /\
    (reads e <= reads e')%nat /\
    connects e' = connects e /\ connected e' = connected e.
Proof.
  intros maxIdleTime this e. unfold cleanupInactiveConnections.
  unfold bind at 1. unfold new_Date at 1. cbv beta iota zeta. cbn [fst snd].
  unfold bind at 1. unfold get_this at 1. cbv beta iota zeta. cbn [fst snd].
  rewrite idle_tenants_spec. cbn [app].
  unfold bind at 1.
  match goal with
  | |- context [for_of ?ids (closeConnection B) (this, ?env)] =>
      destruct (for_of_closeConnection B ids this env) as (e1 & Hrun & Hr1 & Hc1 & Hd1)
  end.
  rewrite Hrun. unfold when.
  unfold connects, connected in *. cbn [reads trace] in *.
  match goal with |- context [if ?c then _ else _] => destruct c end.
  - match goal with
    | |- context [log B ?l ?m (?t, ?env)] =>
        destruct (log_runs B l m t env) as (e2 & Hlog & (_ & Ht2 & Hr2) & _)
    end.
    exists e2. rewrite Hlog. rewrite Ht2. repeat split; auto; lia.
  - exists e1. unfold ret. repeat split; auto; lia.
Qed.

Lemma closeAllConnections_runs :
  forall (this : t H) (e : Env D H),
  exists e',
    closeAllConnections B (this, e)
    = (Return tt,
       (set_connections
          (filter (fun kv => negb (listed (fst kv) (JsMap.keys (connections this)))))
          this, e')) /\
    (reads e <= reads e')%nat /\
    connects e' = connects e /\ connected e' = connected e.
Proof.
  intros this e. unfold closeAllConnections.
  unfold bind at 1. unfold get_this at 1. cbv beta iota zeta. cbn [fst snd].
  unfold bind at 1.
  destruct (for_of_closeConnection B (JsMap.keys (connections this)) this e)
    as (e1 & Hrun & Hr1 & Hc1 & Hd1).
  rewrite Hrun.
  match goal with
  | |- context [log B ?l ?m (?t, ?env)] =>
      destruct (log_runs B l m t env) as (e2 & Hlog & (_ & Ht2 & Hr2) & _)
  end.
  exists e2. rewrite Hlog. unfold connects, connected in *. rewrite Ht2.
  repeat split; auto; lia.
Qed.

Lemma updateConfig_runs :
  forall newConfig (this : t H) (e : Env D H),
  exists e',
    updateConfig B newConfig (this, e)
    = (Return tt,
       (Build_t (connections this) (merge (config this) newConfig)
          (object_of (defaultOptions (merge (config this) newConfig))), e')) /\
    (reads e <= reads e')%nat /\
    connects e' = connects e /\ connected e' = connected e.
Proof.
  intros newConfig this e. unfold updateConfig. run.
  match goal with
  | |- context [log B ?l ?m (?t, ?env)] =>
      destruct (log_runs B l m t env) as (e2 & Hlog & (_ & Ht2 & Hr2) & _)
  end.
  exists e2. rewrite Hlog. unfold connects, connected in *. rewrite Ht2.
  repeat split; auto; lia.
Qed.

End Cleanup.

(* ================================================================== *)
(** ** Eviction *)
(* ================================================================== *)

(** C4. Idle eviction: [cleanupInactiveConnections(maxIdleTime)], with
    [maxIdleTime] defaulting to 300000 ms, returns and leaves in the registry
    exactly the entries whose idle time [now - lastUsed] does not exceed
    [maxIdleTime], in their order; an entry is removed if and only if its
    idle time is strictly greater. In particular, with the threshold 300000,
    an entry last used at [now - 400000] is removed and one last used at
    [now - 100000] is kept. *)
Theorem cleanupInactiveConnections_evicts_idle :
  forall {D H : Type} (B : Backend D H) (maxIdleTime : option Z)
    (this : MultiTenantManager.t H) (e : Env D H),
    NoDup (JsMap.keys (MultiTenantManager.connections this)) ->
    exists this' e',
      MultiTenantManager.cleanupInactiveConnections B maxIdleTime (this, e)
      = (Return tt, (this', e')) /\
      MultiTenantManager.connections this'
      = filter (fun kv => negb (idle (clock B (reads e))
                                  (match maxIdleTime with
                                   | Some n => n
                                   | None => 300000%Z
                                   end) (snd kv)))
               (MultiTenantManager.connections this) /\
      (forall tenantId,
         JsMap.get tenantId (MultiTenantManager.connections this')
         = match JsMap.get tenantId (MultiTenantManager.connections this) with
           | Some info =>
               if (clock B (reads e) - lastUsed info
                   >? match maxIdleTime with
                      | Some n => n
                      | None => 300000
                      end)%Z
               then None else Some info
           | None => None
           end) /\
      (forall tenantId info,
         (maxIdleTime = Some 300000%Z \/ maxIdleTime = None) ->
         JsMap.get tenantId (MultiTenantManager.connections this) = Some info ->
         (lastUsed info = (clock B (reads e) - 400000)%Z ->
          JsMap.get tenantId (MultiTenantManager.connections this') = None) /\
         (lastUsed info = (clock B (reads e) - 100000)%Z ->
          JsMap.get tenantId (MultiTenantManager.connections this') = Some info)).
Proof.
  intros D H B maxIdleTime this e Hnd.
  destruct (cleanupInactiveConnections_runs B maxIdleTime this e)
    as (e' & Hrun & _).
  eexists _, e'. split; [exact Hrun|].
  cbn [MultiTenantManager.connections MultiTenantManager.set_connections].
  rewrite filter_by_keys by exact Hnd.
  assert (Hget : forall tenantId,
    JsMap.get tenantId
      (filter (fun kv => negb (idle (clock B (reads e))
                                 (match maxIdleTime with
                                  | Some n => n
                                  | None => 300000%Z
                                  end) (snd kv)))
              (MultiTenantManager.connections this))
    = match JsMap.get tenantId (MultiTenantManager.connections this) with
      | Some info =>
          if (clock B (reads e) - lastUsed info
              >? match maxIdleTime with
                 | Some n => n
                 | None => 300000
                 end)%Z
          then None else Some info
      | None => None
      end).
  { intro tenantId.
    rewrite (get_filter (fun info => negb (idle (clock B (reads e))
                                             (match maxIdleTime with
                                              | Some n => n
                                              | None => 300000%Z
                                              end) info))) by exact Hnd.
    destruct (JsMap.get tenantId _) as [info|]; auto.
    unfold idle. now destruct (_ >? _)%Z. }
  split; [reflexivity|]. split; [exact Hget|].
  intros tenantId info Hmax Hg. rewrite Hget, Hg.
  assert (Hlimit : match maxIdleTime with Some n => n | None => 300000%Z end
                   = 300000%Z) by (destruct Hmax; subst; reflexivity).
  rewrite Hlimit. split; intros ->.
  - replace (clock B (reads e) - (clock B (reads e) - 400000))%Z with 400000%Z by lia.
    reflexivity.
  - replace (clock B (reads e) - (clock B (reads e) - 100000))%Z with 100000%Z by lia.
    reflexivity.
Qed.

(** At time 500 s, of two tenants last used at 100 s and 400 s the default
    threshold evicts the first and keeps the second. *)
Lemma cleanupInactiveConnections_evicts_idle_witness :
  NoDup (JsMap.keys (MultiTenantManager.connections Stub.two_tenants)) /\
  exists this' e',
    MultiTenantManager.cleanupInactiveConnections Stub.backend None
      (Stub.two_tenants, Stub.at_reading 500 [])
    = (Return tt, (this', e')) /\
    JsMap.get "old" (MultiTenantManager.connections this') = None /\
    MultiTenantManager.hasConnection this' "recent" = true.
Proof.
  assert (Hnd : NoDup (JsMap.keys (MultiTenantManager.connections Stub.two_tenants))).
  { repeat constructor; simpl; intuition discriminate. }
  split; [exact Hnd|].
  destruct (cleanupInactiveConnections_evicts_idle Stub.backend None
              Stub.two_tenants (Stub.at_reading 500 []) Hnd)
    as (this' & e' & Hrun & _ & Hget & _).
  exists this', e'. split; [exact Hrun|].
  unfold MultiTenantManager.hasConnection. rewrite !Hget.
  split; reflexivity.
Defined.

(** C5. Close semantics: [closeConnection(tenantId)] always returns; for a
    tenant without an entry it changes nothing at all; for a tenant with an
    entry the entry is gone afterwards, whether the [close] or [destroy] call
    on the handle returned or threw; the entries of the other tenants and
    the configuration are untouched. *)
Theorem closeConnection_removes_entry :
  forall {D H : Type} (B : Backend D H) (tenantId : string)
    (this : MultiTenantManager.t H) (e : Env D H),
    exists this' e',
      MultiTenantManager.closeConnection B tenantId (this, e)
      = (Return tt, (this', e')) /\
      JsMap.get tenantId (MultiTenantManager.connections this') = None /\
      (forall other, other <> tenantId ->
         JsMap.get other (MultiTenantManager.connections this')
         = JsMap.get other (MultiTenantManager.connections this)) /\
      MultiTenantManager.config this' = MultiTenantManager.config this /\
      (JsMap.get tenantId (MultiTenantManager.connections this) = None ->
       this' = this /\ e' = e).
Proof.
  intros D H B tenantId this e.
  destruct (JsMap.get tenantId (MultiTenantManager.connections this))
    as [info|] eqn:Hg.
  - destruct (closeConnection_runs B tenantId this e) as (e' & Hrun & _).
    eexists _, e'. split; [exact Hrun|].
    cbn [MultiTenantManager.connections MultiTenantManager.config
         MultiTenantManager.set_connections].
    split; [apply get_delete_same|].
    split; [intros other Hne; now apply get_delete_other|].
    split; [reflexivity|discriminate].
  - exists this, e. split.
    + unfold MultiTenantManager.closeConnection. run. now rewrite Hg.
    + repeat split; auto.
Qed.

(** The driver refuses to close the handle of ["tenant1"]; the entry is
    removed all the same and the call returns. *)
Lemma closeConnection_removes_entry_witness :
  MultiTenantManager.hasConnection (Stub.first_manager [true; false]) "tenant1"
  = true /\
  exists this' e',
    MultiTenantManager.closeConnection Stub.backend "tenant1"
      (Stub.first_manager [true; false], Stub.first_env [true; false])
    = (Return tt, (this', e')) /\
    trace e' = Close 1%nat false :: trace (Stub.first_env [true; false]) /\
    JsMap.get "tenant1" (MultiTenantManager.connections this') = None.
Proof.
  split; [vm_compute; reflexivity|].
  destruct (closeConnection_removes_entry Stub.backend "tenant1"
              (Stub.first_manager [true; false]) (Stub.first_env [true; false]))
    as (this' & e' & Hrun & Hnone & _).
  exists this', e'. split; [exact Hrun|]. split; [|exact Hnone].
  assert (He : e' = snd (snd (MultiTenantManager.closeConnection Stub.backend "tenant1"
                                (Stub.first_manager [true; false],
                                 Stub.first_env [true; false]))))
    by now rewrite Hrun.
  rewrite He. vm_compute. reflexivity.
Defined.

(* ================================================================== *)
(** ** Configuration *)
(* ================================================================== *)

(** C6. Config merge: [updateConfig(newConfig)] returns and leaves the
    registry alone; each top-level option takes the update's value when the
    update has the key and keeps its prior value otherwise; [defaultOptions]
    is merged key by key in the same way. After
    [updateConfig({defaultOptions: {maxConnections: 50}})], [maxConnections]
    is 50 and every other default option and every top-level option has its
    prior value. *)
Theorem updateConfig_merges :
  forall {D H : Type} (B : Backend D H) (newConfig : MultiTenantConfig)
    (this : MultiTenantManager.t H) (e : Env D H),
    (exists this' e' merged,
       MultiTenantManager.updateConfig B newConfig (this, e)
       = (Return tt, (this', e')) /\
       MultiTenantManager.connections this' = MultiTenantManager.connections this /\
       enableConnectionPooling (MultiTenantManager.config this')
       = match enableConnectionPooling newConfig with
         | Absent => enableConnectionPooling (MultiTenantManager.config this)
         | Undefined => Undefined
         | Val given => Val given
         end /\
       enableLogging (MultiTenantManager.config this')
       = match enableLogging newConfig with
         | Absent => enableLogging (MultiTenantManager.config this)
         | Undefined => Undefined
         | Val given => Val given
         end /\
       logLevel (MultiTenantManager.config this')
       = match logLevel newConfig with
         | Absent => logLevel (MultiTenantManager.config this)
         | Undefined => Undefined
         | Val given => Val given
         end /\
       defaultOptions (MultiTenantManager.config this') = Val merged /\
       MultiTenantManager.this_defaultOptions this' = merged /\
       forall k,
         option_at k merged
         = match option_at k (object_of (defaultOptions newConfig)) with
           | Absent =>
               option_at k (object_of (defaultOptions (MultiTenantManager.config this)))
           | Undefined => Undefined
         | Val given => Val given
           end)
    /\
    (exists this' e' merged,
       MultiTenantManager.updateConfig B (only_maxConnections 50) (this, e)
       = (Return tt, (this', e')) /\
       defaultOptions (MultiTenantManager.config this') = Val merged /\
       MultiTenantManager.this_defaultOptions this' = merged /\
       maxConnections merged = Val 50%Z /\
       (forall k, k <> key_maxConnections ->
          option_at k merged
          = option_at k (object_of (defaultOptions (MultiTenantManager.config this)))) /\
       enableConnectionPooling (MultiTenantManager.config this')
       = enableConnectionPooling (MultiTenantManager.config this) /\
       enableLogging (MultiTenantManager.config this')
       = enableLogging (MultiTenantManager.config this) /\
       logLevel (MultiTenantManager.config this')
       = logLevel (MultiTenantManager.config this) /\
       MultiTenantManager.connections this' = MultiTenantManager.connections this).
Proof.
  intros D H B newConfig this e. split.
  - destruct (updateConfig_runs B newConfig this e) as (e' & Hrun & _).
    eexists _, e', _. split; [exact Hrun|].
    cbn [MultiTenantManager.connections MultiTenantManager.config
         MultiTenantManager.this_defaultOptions MultiTenantManager.merge
         defaultOptions enableConnectionPooling enableLogging logLevel object_of].
    assert (Hspread : forall (A : Type) (a b : Field A),
              spread a b = match b with
                           | Absent => a
                           | Undefined => Undefined
                           | Val x => Val x
                           end)
      by (intros A a []; reflexivity).
    split; [reflexivity|]. do 3 (split; [apply Hspread|]).
    do 2 (split; [reflexivity|]).
    intros []; apply Hspread.
  - destruct (updateConfig_runs B (only_maxConnections 50) this e) as (e' & Hrun & _).
    eexists _, e', _. split; [exact Hrun|].
    cbn [MultiTenantManager.connections MultiTenantManager.config
         MultiTenantManager.this_defaultOptions MultiTenantManager.merge
         defaultOptions enableConnectionPooling enableLogging logLevel object_of
         only_maxConnections].
    do 3 (split; [reflexivity|]).
    split; [|repeat split; reflexivity].
    intros [] Hk; try reflexivity. contradiction.
Qed.

(** On a manager with the default configuration: [maxConnections] becomes 50,
    [idleTimeout] stays 30000 and [retryAttempts] stays 3. *)
Lemma updateConfig_merges_witness :
  exists this' e' merged,
    MultiTenantManager.updateConfig Stub.backend (only_maxConnections 50)
      (Stub.manager, Stub.start [])
    = (Return tt, (this', e')) /\
    defaultOptions (MultiTenantManager.config this') = Val merged /\
    maxConnections merged = Val 50%Z /\
    idleTimeout merged = Val 30000%Z /\
    retryAttempts merged = Val 3%Z.
Proof.
  destruct (updateConfig_merges Stub.backend empty_config Stub.manager (Stub.start []))
    as (_ & this' & e' & merged & Hrun & Hd & _ & Hmax & Hothers & _).
  exists this', e', merged. split; [exact Hrun|]. split; [exact Hd|].
  split; [exact Hmax|].
  split.
  - apply (Hothers key_idleTimeout). discriminate.
  - apply (Hothers key_retryAttempts). discriminate.
Defined.

Section Steps.

Context {D H : Type} (B : Backend D H).

Import MultiTenantManager.

Lemma keys_filter : forall (p : string * ConnectionInfo H -> bool) m,
  NoDup (JsMap.keys m) -> NoDup (JsMap.keys (filter p m)).
Proof.
  induction m as [|kv m IH]; simpl; auto.
  intro Hnd. inversion Hnd as [|? ? Hnotin Hnd']; subst.
  destruct (p kv); simpl; auto. constructor; auto.
  intro Hin. apply Hnotin. unfold JsMap.keys in *.
  apply in_map_iff in Hin as (kv' & Hk & Hin). apply filter_In in Hin as [Hin _].
  rewrite <- Hk. now apply in_map.
Qed.

Lemma entry_kept : forall n n' (m : JsMap.t (ConnectionInfo H)) kv,
  In kv m -> entry_step B n n' m kv.
Proof.
  intros n n' m [k info] Hin. left. exists info. simpl. auto.
Qed.

Lemma entry_step_wider :
  forall n1 n2 n1' n2' (m : JsMap.t (ConnectionInfo H)) kv,
    (n1 <= n2)%nat -> (n2' <= n1')%nat ->
    entry_step B n2 n2' m kv -> entry_step B n1 n1' m kv.
Proof.
  intros n1 n2 n1' n2' m kv Hle Hle'
    [(info & Hin & Hc & [Hl|(i & Hi & Hi' & Hl)])|(i & Hi & Hi' & Hc & Hl)].
  - left. exists info. auto.
  - left. exists info. repeat split; auto. right. exists i. repeat split; auto; lia.
  - right. exists i. repeat split; auto; lia.
Qed.

(** A step in which entries are only kept or created, after a step. *)
Lemma entry_step_then_kept_or_created :
  forall n1 n2 n3 (m1 m2 : JsMap.t (ConnectionInfo H)) kv,
    (n1 <= n2)%nat -> (n2 <= n3)%nat ->
    Forall (entry_step B n1 n2 m1) m2 ->
    In kv m2 \/
    (exists i, (n2 <= i)%nat /\ (Datatypes.S i < n3)%nat /\
               createdAt (snd kv) = clock B i /\
               lastUsed (snd kv) = clock B (Datatypes.S i)) ->
    entry_step B n1 n3 m1 kv.
Proof.
  intros n1 n2 n3 m1 m2 kv H12 H23 Hs1 [Hin|(i & Hi & Hi' & Hc & Hl)].
  - rewrite Forall_forall in Hs1.
    apply (entry_step_wider n1 n1 n3 n2); auto.
  - right. exists i. repeat split; auto; lia.
Qed.

Lemma step_subset :
  forall (this : t H) (e : Env D H) (p : string * ConnectionInfo H -> bool) e',
    (reads e <= reads e')%nat ->
    step_ok B this e (set_connections (filter p) this, e').
Proof.
  intros this e p e' Hr. unfold step_ok. cbn [fst snd]. repeat split; auto.
  - apply Forall_forall. intros kv Hin. apply entry_kept.
    simpl in Hin. apply filter_In in Hin. tauto.
  - simpl. apply keys_filter.
Qed.

Lemma create_new_entries :
  forall tenantId tenantConfig (this : t H) (e : Env D H) r this' e',
    create_new B tenantId tenantConfig (this, e) = (r, (this', e')) ->
    (reads e <= reads e')%nat /\
    (forall kv, In kv (connections this') ->
       In kv (connections this) \/
       (exists i, (reads e <= i)%nat /\ (Datatypes.S i < reads e')%nat /\
                  createdAt (snd kv) = clock B i /\
                  lastUsed (snd kv) = clock B (Datatypes.S i))) /\
    (NoDup (JsMap.keys (connections this)) ->
     NoDup (JsMap.keys (connections this'))).
Proof.
  intros tenantId tenantConfig this e r this' e' Hnew.
  destruct (create_new_runs B tenantId tenantConfig this e)
    as (r0 & this0 & e0 & Hrun & Hr & Hcase).
  rewrite Hnew in Hrun. injection Hrun as <- <- <-.
  split; [exact Hr|]. destruct r as [c|error].
  - destruct Hcase as (h & i & ev & _ & -> & Hi & Hi' & _). split.
    + intros kv Hin. simpl in Hin.
      apply in_set in Hin as [->|Hin]; [|now left].
      right. exists i. simpl. auto.
    + simpl. apply keys_set.
  - destruct Hcase as (-> & _). split; auto.
Qed.

Lemma getConnection_step :
  forall tenantId tenantConfig (this : t H) (e : Env D H),
    step_ok B this e (snd (getConnection B tenantId tenantConfig (this, e))).
Proof.
  intros tenantId tenantConfig this e.
  assert (Hfrom : forall this1 e1,
            check_existing B tenantId tenantConfig (this, e)
            = (Return None, (this1, e1)) ->
            step_ok B this e (this1, e1) ->
            step_ok B this e (snd (getConnection B tenantId tenantConfig (this, e)))).
  { intros this1 e1 Hc (Hr1 & Hs1 & Hk1).
    destruct (getConnection_creating B _ _ _ _ _ Hc)
      as (r & this' & e2 & e' & Hnew & Hget & (_ & _ & Hr)).
    rewrite Hget.
    destruct (create_new_entries _ _ _ _ _ _ _ Hnew) as (Hr2 & Hs2 & Hk2).
    unfold step_ok. cbn [fst snd] in *.
    repeat split; [lia| |auto].
    apply Forall_forall. intros kv Hin.
    apply (entry_step_wider _ (reads e) _ (reads e2)); [lia|lia|].
    apply (entry_step_then_kept_or_created _ (reads e1) _ _ (connections this1));
      auto. }
  destruct (JsMap.get tenantId (connections this)) as [info|] eqn:Hg.
  2:{ apply (Hfrom this e (check_existing_absent B _ tenantConfig _ e Hg)).
      unfold step_ok. cbn [fst snd]. repeat split; auto. apply Forall_forall. intros kv Hin. now apply entry_kept. }
  destruct (isActive info) eqn:Ha.
  2:{ apply (Hfrom this e (check_existing_inactive B _ tenantConfig _ e _ Hg Ha)).
      unfold step_ok. cbn [fst snd]. repeat split; auto. apply Forall_forall. intros kv Hin. now apply entry_kept. }
  destruct (check_existing_active B tenantId tenantConfig this e info Hg Ha)
    as (e1 & Hc & Hr1 & _).
  assert (Htouched : forall kv,
            In kv (JsMap.set tenantId (set_lastUsed (clock B (reads e)) info)
                     (connections this)) ->
            entry_step B (reads e) (reads e1) (connections this) kv).
  { intros kv Hin. apply in_set in Hin as [->|Hin]; [|now apply entry_kept].
    left. exists info. simpl. split; [now apply get_in|]. split; [reflexivity|].
    right. exists (reads e). repeat split; auto. }
  destruct (probe B (connection info) (databaseType tenantConfig) (drv e)).
  - rewrite (getConnection_returning B _ _ _ _ _ Hc).
    unfold step_ok. cbn [fst snd]. repeat split; [lia| |].
    + apply Forall_forall. intros kv Hin. now apply Htouched.
    + simpl. apply keys_set.
  - apply (Hfrom _ _ Hc). unfold step_ok. cbn [fst snd]. repeat split; [lia| |].
    + apply Forall_forall. intros kv Hin. simpl in Hin.
      apply in_delete in Hin. now apply Htouched.
    + simpl. intro Hnd. now apply keys_delete, keys_set.
Qed.

Lemma perform_step :
  forall op (this : t H) (e : Env D H),
    step_ok B this e (perform B op (this, e)).
Proof.
  intros [tenantId tenantConfig|tenantId| |maxIdleTime|newConfig] this e; simpl.
  - apply getConnection_step.
  - destruct (closeConnection_runs B tenantId this e) as (e' & Hrun & Hr & _).
    rewrite Hrun. now apply step_subset.
  - destruct (closeAllConnections_runs B this e) as (e' & Hrun & Hr & _).
    rewrite Hrun. now apply step_subset.
  - destruct (cleanupInactiveConnections_runs B maxIdleTime this e)
      as (e' & Hrun & Hr & _).
    rewrite Hrun. now apply step_subset.
  - destruct (updateConfig_runs B newConfig this e) as (e' & Hrun & Hr & _).
    rewrite Hrun. unfold step_ok. cbn [fst snd]. repeat split; auto.
    apply Forall_forall. intros kv Hin. now apply entry_kept.
Qed.

Lemma perform_keeps_well_stamped :
  forall op w, well_stamped B w -> well_stamped B (perform B op w).
Proof.
  intros op [this e] [Hnd Hst].
  destruct (perform_step op this e) as (Hr & Hs & Hk).
  split; [auto|].
  apply Forall_forall. intros kv Hin.
  rewrite Forall_forall in Hs, Hst. cbn [fst snd] in *.
  destruct (Hs kv Hin) as [(info & Hin0 & Hc & Hl)|(i & Hi & Hi' & Hc & Hl)].
  - destruct (Hst _ Hin0) as (i0 & j0 & Hij & Hj & Hc0 & Hl0). cbn [snd] in *.
    destruct Hl as [Hl|(i & Hi & Hi' & Hl)].
    + exists i0, j0. repeat split; auto; try lia; congruence.
    + exists i0, i. repeat split; auto; try lia; congruence.
  - exists i, (Datatypes.S i). repeat split; auto; lia.
Qed.

Lemma reachable_well_stamped :
  forall ops w, well_stamped B w -> well_stamped B (perform_all B ops w).
Proof.
  induction ops as [|op ops IH]; intros w Hw; simpl; auto.
  apply IH. now apply perform_keeps_well_stamped.
Qed.

Lemma initial_well_stamped :
  forall config e, well_stamped B (initial config e).
Proof. intros config e. split; simpl; constructor. Qed.

End Steps.

(* ================================================================== *)
(** ** Timestamps *)
(* ================================================================== *)

(** C7. Under a clock that never goes back, in the world reached from a new
    manager by any sequence of calls, every entry has [lastUsed >= createdAt];
    and a further call leaves every entry it does not remove with the same
    [createdAt] and with its [lastUsed] either unchanged or set to a reading
    of the clock made during the call, while an entry it creates gets two
    successive readings as [createdAt] and [lastUsed]. *)
Theorem lastUsed_never_before_createdAt :
  forall {D H : Type} (B : Backend D H),
    non_decreasing_clock B ->
    forall (config : option MultiTenantConfig) (e0 : Env D H)
      (ops : list Operation),
      Forall (fun kv => (createdAt (snd kv) <= lastUsed (snd kv))%Z)
             (MultiTenantManager.connections
                (manager_of (perform_all B ops (initial config e0)))) /\
      forall op,
        Forall (entry_step B
                  (reads (env_of (perform_all B ops (initial config e0))))
                  (reads (env_of (perform B op (perform_all B ops (initial config e0)))))
                  (MultiTenantManager.connections
                     (manager_of (perform_all B ops (initial config e0)))))
               (MultiTenantManager.connections
                  (manager_of (perform B op (perform_all B ops (initial config e0))))).
Proof.
  intros D H B Hclock config e0 ops. split.
  - destruct (reachable_well_stamped B ops _ (initial_well_stamped B config e0))
      as [_ Hst].
    apply Forall_forall. intros kv Hin. rewrite Forall_forall in Hst.
    destruct (Hst kv Hin) as (i & j & Hij & _ & -> & ->).
    now apply Hclock.
  - intro op. destruct (perform_all B ops (initial config e0)) as [this e].
    apply (perform_step B op this e).
Qed.

Lemma stub_clock_non_decreasing : non_decreasing_clock Stub.backend.
Proof. intros i j Hij. unfold Stub.backend, clock. lia. Qed.

(** A history on the scripted backend: connect, find the connection stale
    and replace it, reuse it, sweep. *)
Lemma lastUsed_never_before_createdAt_witness :
  non_decreasing_clock Stub.backend /\
  Forall (fun kv => (createdAt (snd kv) <= lastUsed (snd kv))%Z)
         (MultiTenantManager.connections
            (manager_of
               (perform_all Stub.backend
                  [GetConnection "tenant1" Stub.mongo_tenant;
                   GetConnection "tenant1" Stub.mongo_tenant;
                   GetConnection "tenant2" Stub.postgres_tenant;
                   GetConnection "tenant1" Stub.mongo_tenant;
                   CleanupInactiveConnections (Some 2000%Z)]
                  (initial None (Stub.start [true; false; true]))))).
Proof.
  split; [exact stub_clock_non_decreasing|].
  apply (lastUsed_never_before_createdAt Stub.backend stub_clock_non_decreasing).
Defined.

(* ================================================================== *)
(** ** Connectors *)
(* ================================================================== *)

Section ConnectorProbes.

Context {D H : Type} (B : Backend D H).









End ConnectorProbes.



(* ================================================================== *)
(** ** Further properties: validation *)
(* ================================================================== *)

Lemma blank_is_falsy : forall s : string,
  truthy_string s = false -> trim_is_empty s = true.
Proof.
  intros s Hs. unfold truthy_string in Hs. apply negb_false_iff in Hs.
  apply String.eqb_eq in Hs. now subst.
Qed.

Lemma zero_is_below_one : forall z : Z,
  truthy_number z = false -> (1 <=? z)%Z = false.
Proof.
  intros z Hz. unfold truthy_number in Hz. apply negb_false_iff in Hz.
  apply Z.eqb_eq in Hz. now subst.
Qed.

Lemma validateCredentials_cases :
  forall (W : Type) (w : W) (kind : DatabaseType) (c : Credentials),
    (acceptable_credentials c = true /\
     ConnectorFactory.validateCredentials kind c w = (Return true, w)) \/
    (exists message,
       acceptable_credentials c = false /\
       ConnectorFactory.validateCredentials kind c w
       = (Throw (ErrorObject message), w)).
Proof.
  intros W w kind c.
  unfold acceptable_credentials, ConnectorFactory.validateCredentials,
    ConnectorFactory.requiredFields, ConnectorFactory.missing.
  cbv beta iota zeta delta [bind ret throw when for_of].
  simpl.
  assert (Hrange : ((port c <? 1)%Z || (port c >? 65535)%Z)%bool
                   = negb ((1 <=? port c)%Z && (port c <=? 65535)%Z)).
  { rewrite Z.gtb_ltb.
    destruct (Z.ltb_spec (port c) 1), (Z.leb_spec 1 (port c)),
      (Z.leb_spec (port c) 65535), (Z.ltb_spec 65535 (port c));
      simpl; try reflexivity; lia. }
  rewrite Hrange.
  destruct (truthy_string (host c)) eqn:Hh;
    [|rewrite (blank_is_falsy _ Hh); simpl; eauto].
  destruct (truthy_number (port c)) eqn:Hp;
    [|rewrite (zero_is_below_one _ Hp); simpl;
      rewrite ?andb_false_r; simpl; eauto].
  destruct (truthy_string (username c)) eqn:Hu;
    [|simpl; rewrite ?andb_false_r; simpl; eauto].
  destruct (truthy_string (password c)) eqn:Hw;
    [|simpl; rewrite ?andb_false_r; simpl; eauto].
  destruct (truthy_string (database c)) eqn:Hd;
    [|rewrite (blank_is_falsy _ Hd); simpl; rewrite ?andb_false_r; simpl; eauto].
  destruct (1 <=? port c)%Z; simpl;
    [|rewrite ?andb_false_r; simpl; eauto].
  destruct (port c <=? 65535)%Z; simpl;
    [|rewrite ?andb_false_r; simpl; eauto].
  destruct (trim_is_empty (host c)); simpl; [eauto|].
  destruct (trim_is_empty (database c)); simpl; eauto.
Qed.

(** X1. [validateCredentials] returns true exactly on credentials whose host
    and database are not blank, whose user and password are not empty and
    whose port lies between 1 and 65535; on all others it throws an [Error].
    It never returns false, and its verdict does not depend on the backend
    kind it is given. A port of 0 is reported as a missing field, not as out
    of range. *)
Theorem validateCredentials_accepts :
  forall (W : Type) (w : W) (kind : DatabaseType) (c : Credentials),
    (if acceptable_credentials c
     then ConnectorFactory.validateCredentials kind c w = (Return true, w)
     else exists message,
            ConnectorFactory.validateCredentials kind c w
            = (Throw (ErrorObject message), w)) /\
    ConnectorFactory.validateCredentials kind c w
    = ConnectorFactory.validateCredentials MONGODB c w /\
    (truthy_string (host c) = true -> port c = 0%Z ->
     ConnectorFactory.validateCredentials kind c w
     = (Throw (ErrorObject "Missing required field: port"), w)).
Proof.
  intros W w kind c. split; [|split; [reflexivity|]].
  - destruct (validateCredentials_cases W w kind c)
      as [[Hacc Hrun]|(message & Hacc & Hrun)]; rewrite Hacc; eauto.
  - intros Hh Hp.
    unfold ConnectorFactory.validateCredentials,
      ConnectorFactory.requiredFields, ConnectorFactory.missing.
    cbv beta iota zeta delta [bind ret throw when for_of].
    simpl. rewrite Hh, Hp. reflexivity.
Qed.

Lemma validateCredentials_accepts_witness :
  ConnectorFactory.validateCredentials POSTGRESQL
    (credentials (Stub.tenant "acme" "db1")) tt = (Return true, tt) /\
  ConnectorFactory.validateCredentials POSTGRESQL Stub.credentials_without_port tt
  = (Throw (ErrorObject "Missing required field: port"), tt).
Proof.
  split.
  - exact (proj1 (validateCredentials_accepts unit tt POSTGRESQL
                    (credentials (Stub.tenant "acme" "db1")))).
  - exact (proj2 (proj2 (validateCredentials_accepts unit tt POSTGRESQL
                           Stub.credentials_without_port))
             eq_refl eq_refl).
Defined.


Lemma supported_test : forall k : DatabaseType,
  ConnectorFactory.isDatabaseTypeSupported k
  = ((k =? MONGODB) || (k =? POSTGRESQL))%bool.
Proof.
  intro k. unfold ConnectorFactory.isDatabaseTypeSupported,
    ConnectorFactory.getSupportedDatabaseTypes. simpl.
  now rewrite orb_false_r.
Qed.

Lemma validateTenantConfig_cases :
  forall (W : Type) (w : W) (config : TenantConfig),
    (acceptable_tenant config = true /\
     ConnectionValidator.validateTenantConfig config w = (Return true, w)) \/
    (exists reason,
       acceptable_tenant config = false /\
       ConnectionValidator.validateTenantConfig config w
       = (Throw (ErrorObject ("Invalid tenant configuration: " ++ reason)), w)).
Proof.
  intros W w config.
  unfold acceptable_tenant, ConnectionValidator.validateTenantConfig.
  rewrite supported_test.
  cbv beta iota zeta delta [bind ret throw try_catch when].
  destruct (truthy_string (tenantId config)); cbn [negb andb];
    [|simpl; eauto].
  destruct (truthy_string (databaseType config)) eqn:Hk; cbn [negb].
  2:{ unfold truthy_string in Hk. apply negb_false_iff, String.eqb_eq in Hk.
      rewrite Hk. simpl. eauto. }
  destruct ((databaseType config =? MONGODB)
            || (databaseType config =? POSTGRESQL))%bool; cbn [negb andb];
    [|simpl; eauto].
  destruct (validateCredentials_cases W w (databaseType config)
              (credentials config)) as [[Hacc Hrun]|(message & Hacc & Hrun)];
    rewrite Hacc, Hrun; simpl; eauto.
Qed.

(** X2. [validateTenantConfig] returns true exactly on a configuration with
    a non-empty tenant identifier, a backend kind that has a connector and
    credentials that [validateCredentials] accepts; on all others it throws
    an [Error] whose message starts with [Invalid tenant configuration: ].
    It never returns false. *)
Theorem validateTenantConfig_accepts :
  forall (W : Type) (w : W) (config : TenantConfig),
    if acceptable_tenant config
    then ConnectionValidator.validateTenantConfig config w = (Return true, w)
    else exists reason,
           ConnectionValidator.validateTenantConfig config w
           = (Throw (ErrorObject ("Invalid tenant configuration: " ++ reason)), w).
Proof.
  intros W w config.
  destruct (validateTenantConfig_cases W w config)
    as [[Hacc Hrun]|(reason & Hacc & Hrun)]; rewrite Hacc; eauto.
Qed.

Lemma validateTenantConfig_accepts_witness :
  acceptable_tenant (Stub.tenant "acme" "db1") = true /\
  ConnectionValidator.validateTenantConfig (Stub.tenant "acme" "db1") tt
  = (Return true, tt) /\
  exists reason,
    ConnectionValidator.validateTenantConfig Stub.redis_tenant tt
    = (Throw (ErrorObject ("Invalid tenant configuration: " ++ reason)), tt).
Proof.
  split; [reflexivity|]. split.
  - exact (validateTenantConfig_accepts unit tt (Stub.tenant "acme" "db1")).
  - exact (validateTenantConfig_accepts unit tt Stub.redis_tenant).
Defined.



Section BatchVerdict.

Import ConnectionValidator.

Lemma acceptable_is_valid : forall config,
  acceptable_tenant config = true <-> individually_valid config.
Proof.
  intro config. unfold individually_valid, result.
  destruct (validateTenantConfig_cases unit tt config)
    as [[Hacc Hrun]|(reason & Hacc & Hrun)]; rewrite Hacc, Hrun; simpl;
    split; congruence.
Qed.

(** If the loop gets through, every configuration was acceptable and no
    identifier had been seen. *)
Lemma validate_each_returned :
  forall (W : Type) (w : W) configs tenantIds,
    validate_each configs tenantIds w = (Return tt, w) ->
    Forall (fun c => acceptable_tenant c = true) configs /\
    NoDup (map tenantId configs) /\
    (forall c, In c configs -> has tenantIds (tenantId c) = false).
Proof.
  intros W w configs.
  induction configs as [|c configs IH]; intros tenantIds Hrun; simpl in *.
  - repeat split; [constructor|constructor|intros c []].
  - unfold bind at 1 in Hrun.
    destruct (validateTenantConfig_cases W w c)
      as [[Hacc Hc]|(reason & Hacc & Hc)]; rewrite Hc in Hrun; [|discriminate].
    unfold bind at 1 in Hrun.
    destruct (has tenantIds (tenantId c)) eqn:Hseen; simpl in Hrun;
      [discriminate|].
    try unfold ret at 1 in Hrun.
    destruct (IH _ Hrun) as (Hall & Hnd & Hnew).
    assert (Hrest : forall c', In c' configs ->
              has tenantIds (tenantId c') = false /\ tenantId c' <> tenantId c).
    { intros c' Hin. specialize (Hnew c' Hin). rewrite has_add in Hnew.
      apply orb_false_iff in Hnew as [Hs Hne]. split; [exact Hs|].
      now apply String.eqb_neq. }
    repeat split.
    + constructor; auto.
    + constructor; auto. intro Hin. apply in_map_iff in Hin as (c' & Heq & Hin).
      destruct (Hrest c' Hin) as [_ Hne]. contradiction.
    + intros c' [<-|Hin]; [exact Hseen|]. now destruct (Hrest c' Hin).
Qed.

End BatchVerdict.

(** X4. [validateMultipleTenantConfigs] returns true exactly on a batch in
    which every configuration is acceptable on its own and the tenant
    identifiers are pairwise distinct, the empty batch included; on every
    other batch it throws an [Error] whose message starts with
    [Invalid tenant configurations: ]. It never returns false. *)
Theorem validateMultipleTenantConfigs_accepts :
  forall (W : Type) (w : W) (configs : list TenantConfig),
    (ConnectionValidator.validateMultipleTenantConfigs configs w = (Return true, w)
     <-> (Forall (fun c => acceptable_tenant c = true) configs /\
          NoDup (map tenantId configs))) /\
    (ConnectionValidator.validateMultipleTenantConfigs configs w = (Return true, w) \/
     exists reason,
       ConnectionValidator.validateMultipleTenantConfigs configs w
       = (Throw (ErrorObject ("Invalid tenant configurations: " ++ reason)), w)).
Proof.
  intros W w configs.
  assert (Hpure : exists r, ConnectionValidator.validate_each configs [] w = (r, w)).
  { generalize (@nil string) as tenantIds.
    induction configs as [|c configs IH]; intro tenantIds; simpl.
    - eexists. reflexivity.
    - unfold bind at 1. rewrite validateTenantConfig_pure.
      destruct (result (ConnectionValidator.validateTenantConfig c)); [|eauto].
      unfold bind at 1.
      destruct (ConnectionValidator.has tenantIds (tenantId c)); simpl;
        [unfold throw; eauto|].
      try unfold ret at 1. apply IH. }
  destruct Hpure as (r & Hrun).
  unfold ConnectionValidator.validateMultipleTenantConfigs, try_catch, bind.
  rewrite Hrun. destruct r as [[]|error]; simpl.
  - split; [|now left]. split; [intros _|reflexivity].
    destruct (validate_each_returned W w configs [] Hrun) as (Hall & Hnd & _).
    auto.
  - split; [|right; eexists; reflexivity]. split; [discriminate|].
    intros [Hall Hnd]. exfalso.
    assert (Hvalid : Forall individually_valid configs).
    { rewrite Forall_forall in *. intros c Hin. now apply acceptable_is_valid, Hall. }
    destruct (validate_each_passes W w configs [] [] Hvalid Hnd)
      as (seen & Hpass & _); [reflexivity|].
    rewrite app_nil_r in Hpass. rewrite Hpass in Hrun. discriminate.
Qed.

Lemma validateMultipleTenantConfigs_accepts_witness :
  ConnectionValidator.validateMultipleTenantConfigs
    [Stub.tenant "acme" "db1"; Stub.tenant "globex" "db2"] tt = (Return true, tt) /\
  ConnectionValidator.validateMultipleTenantConfigs [] tt = (Return true, tt).
Proof.
  split.
  - apply (validateMultipleTenantConfigs_accepts unit tt
             [Stub.tenant "acme" "db1"; Stub.tenant "globex" "db2"]).
    split; [repeat constructor|].
    repeat constructor; simpl; intuition discriminate.
  - apply (validateMultipleTenantConfigs_accepts unit tt []).
    split; constructor.
Defined.


(* ================================================================== *)
(** ** Further properties: connection strings *)
(* ================================================================== *)



Lemma append_to_both : forall a b c : string, b = c -> a ++ b = a ++ c.
Proof. intros a b c ->. reflexivity. Qed.



(* ================================================================== *)
(** ** Further properties: connectors *)
(* ================================================================== *)

Section ConnectorLifeCycle.

Context {D H : Type} (B : Backend D H).





End ConnectorLifeCycle.





(* ================================================================== *)
(** ** What a call of [getConnection] leaves in the registry *)
(* ================================================================== *)

Section GetConnectionCases.

Context {D H : Type} (B : Backend D H).

Import MultiTenantManager.

(** The manager's probe of a missing handle fails. *)
Lemma probe_without_handle : forall databaseType (d : D),
  probe B None databaseType d = false.
Proof.
  intros databaseType d. unfold probe, testConnection. run.
  destruct (databaseType =? MONGODB); [reflexivity|].
  destruct (databaseType =? POSTGRESQL); reflexivity.
Qed.

(** From the end of the first block on: the entry is stored on the registry
    that the first block left, or this registry is left as it is. *)
Lemma getConnection_from :
  forall tenantId tenantConfig (this this1 : t H) (e e1 : Env D H),
    check_existing B tenantId tenantConfig (this, e) = (Return None, (this1, e1)) ->
    exists r this' e',
      getConnection B tenantId tenantConfig (this, e) = (r, (this', e')) /\
      config this' = config this1 /\
      this_defaultOptions this' = this_defaultOptions this1 /\
      match r with
      | Return c =>
          exists h i,
            c = Some h /\ supported (databaseType tenantConfig) /\
            connections this'
            = JsMap.set tenantId (fresh_entry B tenantId tenantConfig h i)
                (connections this1)
      | Throw _ => connections this' = connections this1
      end.
Proof.
  intros tenantId tenantConfig this this1 e e1 Hc.
  destruct (getConnection_creating B _ _ _ _ _ Hc)
    as (r & this' & e2 & e' & Hnew & Hget & _).
  destruct (create_new_runs B tenantId tenantConfig this1 e1)
    as (r0 & this0 & e0 & Hrun & _ & Hcase).
  rewrite Hnew in Hrun. injection Hrun as <- <- <-.
  exists r, this', e'. split; [exact Hget|].
  destruct r as [c|error].
  - destruct Hcase as (h & i & ev & -> & -> & _ & _ & _ & _ & _ & Hs).
    repeat split. exists h, i. repeat split. exact Hs.
  - destruct Hcase as (-> & _). repeat split.
Qed.

(** The three ways of a call: the live entry is reused; or an entry is
    stored on what is left of the registry; or what is left of the registry
    stays. What is left is the registry itself when the tenant has no active
    entry, and the registry without the tenant's entry when the probe of the
    entry failed. *)
Lemma getConnection_cases :
  forall tenantId tenantConfig (this : t H) (e : Env D H),
  exists r this' e',
    getConnection B tenantId tenantConfig (this, e) = (r, (this', e')) /\
    config this' = config this /\
    this_defaultOptions this' = this_defaultOptions this /\
    ((exists info,
        JsMap.get tenantId (connections this) = Some info /\
        isActive info = true /\
        probe B (connection info) (databaseType tenantConfig) (drv e) = true /\
        r = Return (connection info) /\
        connections this'
        = JsMap.set tenantId (set_lastUsed (clock B (reads e)) info)
            (connections this))
     \/
     (exists base,
        ((base = connections this /\ hasConnection this tenantId = false) \/
         base = JsMap.delete tenantId (connections this)) /\
        match r with
        | Return c =>
            exists h i,
              c = Some h /\ supported (databaseType tenantConfig) /\
              connections this'
              = JsMap.set tenantId (fresh_entry B tenantId tenantConfig h i) base
        | Throw _ => connections this' = base
        end)).
Proof.
  intros tenantId tenantConfig this e.
  destruct (JsMap.get tenantId (connections this)) as [info|] eqn:Hg.
  2:{ destruct (getConnection_from _ _ _ _ _ _
                  (check_existing_absent B _ tenantConfig _ e Hg))
        as (r & this' & e' & Hget & Hcfg & Hdo & Hcase).
      exists r, this', e'. repeat split; auto. right.
      exists (connections this). split; [|exact Hcase].
      left. split; [reflexivity|]. unfold hasConnection. now rewrite Hg. }
  destruct (isActive info) eqn:Ha.
  2:{ destruct (getConnection_from _ _ _ _ _ _
                  (check_existing_inactive B _ tenantConfig _ e _ Hg Ha))
        as (r & this' & e' & Hget & Hcfg & Hdo & Hcase).
      exists r, this', e'. repeat split; auto. right.
      exists (connections this). split; [|exact Hcase].
      left. split; [reflexivity|]. unfold hasConnection. now rewrite Hg. }
  destruct (check_existing_active B tenantId tenantConfig this e info Hg Ha)
    as (e1 & Hc & _).
  destruct (probe B (connection info) (databaseType tenantConfig) (drv e)) eqn:Hp.
  - exists (Return (connection info)), (touched B tenantId info this e), e1.
    split; [now apply getConnection_returning|]. repeat split.
    left. exists info. repeat split; auto.
  - destruct (getConnection_from _ _ _ _ _ _ Hc)
      as (r & this' & e' & Hget & Hcfg & Hdo & Hcase).
    exists r, this', e'. repeat split; auto. right.
    exists (JsMap.delete tenantId (connections this)). split; [now right|].
    unfold touched in Hcase. cbn [set_connections connections] in Hcase.
    rewrite delete_set in Hcase. exact Hcase.
Qed.

End GetConnectionCases.

(** X8. [getConnection] and the registry agree on the outcome of a call:
    when the call returns, the value is a handle (the one of the entry that
    passed the probe, or the one that the driver returned), never a stored
    [null], and the tenant's entry is active and holds this handle; when the
    call throws, [hasConnection] of the tenant is false afterwards, whatever
    the registry held for the tenant before. *)
Theorem getConnection_registers_what_it_returns :
  forall {D H : Type} (B : Backend D H) (tenantId : string)
         (tenantConfig : TenantConfig) (this : MultiTenantManager.t H)
         (e : Env D H),
    match MultiTenantManager.getConnection B tenantId tenantConfig (this, e) with
    | (Return c, w') =>
        exists h info,
          c = Some h /\
          MultiTenantManager.getConnectionInfo (manager_of w') tenantId = Some info /\
          connection info = Some h /\
          MultiTenantManager.hasConnection (manager_of w') tenantId = true
    | (Throw _, w') =>
        MultiTenantManager.hasConnection (manager_of w') tenantId = false
    end.
Proof.
  intros D H B tenantId tenantConfig this e.
  destruct (getConnection_cases B tenantId tenantConfig this e)
    as (r & this' & e' & Hget & _ & _ & Hcase).
  rewrite Hget. unfold manager_of, MultiTenantManager.hasConnection,
    MultiTenantManager.getConnectionInfo. cbn [fst].
  destruct Hcase as [(info & Hg & Ha & Hp & -> & Hm)|(base & Hbase & Hcase)].
  - destruct (connection info) as [h|] eqn:Hh.
    2:{ rewrite probe_without_handle in Hp. discriminate. }
    exists h, (MultiTenantManager.set_lastUsed (clock B (reads e)) info).
    rewrite Hm, get_set_same. repeat split; auto.
  - destruct r as [c|error].
    + destruct Hcase as (h & i & -> & _ & Hm).
      exists h, (fresh_entry B tenantId tenantConfig h i).
      rewrite Hm, get_set_same. repeat split.
    + rewrite Hcase. destruct Hbase as [[-> Hno]| ->]; [exact Hno|].
      now rewrite get_delete_same.
Qed.

(** X9. A call of [getConnection] for one tenant leaves every other tenant's
    entry, and the configuration, as they were, whether it returns or
    throws. *)
Theorem getConnection_leaves_other_tenants :
  forall {D H : Type} (B : Backend D H) (tenantId other : string)
         (tenantConfig : TenantConfig) (this : MultiTenantManager.t H)
         (e : Env D H),
    other <> tenantId ->
    let this' :=
      manager_of (snd (MultiTenantManager.getConnection B tenantId tenantConfig
                         (this, e))) in
    MultiTenantManager.getConnectionInfo this' other
    = MultiTenantManager.getConnectionInfo this other /\
    MultiTenantManager.hasConnection this' other
    = MultiTenantManager.hasConnection this other /\
    MultiTenantManager.getConfig this' = MultiTenantManager.getConfig this.
Proof.
  intros D H B tenantId other tenantConfig this e Hother.
  destruct (getConnection_cases B tenantId tenantConfig this e)
    as (r & this' & e' & Hget & Hcfg & _ & Hcase).
  rewrite Hget. unfold manager_of, MultiTenantManager.hasConnection,
    MultiTenantManager.getConnectionInfo, MultiTenantManager.getConfig.
  cbn [fst snd].
  assert (Hsame : JsMap.get other (MultiTenantManager.connections this')
                  = JsMap.get other (MultiTenantManager.connections this)).
  { destruct Hcase as [(info & _ & _ & _ & _ & Hm)|(base & Hbase & Hcase)].
    - rewrite Hm. now apply get_set_other.
    - assert (Hb : JsMap.get other base
                   = JsMap.get other (MultiTenantManager.connections this)).
      { destruct Hbase as [[-> _]| ->]; [reflexivity|].
        now apply get_delete_other. }
      destruct r as [c|error].
      + destruct Hcase as (h & i & _ & _ & Hm). rewrite Hm, <- Hb.
        now apply get_set_other.
      + now rewrite Hcase. }
  rewrite Hsame. repeat split. exact Hcfg.
Qed.

Lemma getConnection_leaves_other_tenants_witness :
  MultiTenantManager.getConnectionInfo
    (manager_of (snd (MultiTenantManager.getConnection Stub.backend "old"
                        Stub.mongo_tenant
                        (Stub.two_tenants, Stub.at_reading 500 [false; false]))))
    "recent"
  = MultiTenantManager.getConnectionInfo Stub.two_tenants "recent".
Proof.
  assert (Hother : "recent" <> "old") by discriminate.
  exact (proj1 (getConnection_leaves_other_tenants Stub.backend "old" "recent"
                  Stub.mongo_tenant Stub.two_tenants
                  (Stub.at_reading 500 [false; false]) Hother)).
Defined.

(* ================================================================== *)
(** ** What reaches the drivers *)
(* ================================================================== *)

Section DriverCalls.

Context {D H : Type} (B : Backend D H).

Import MultiTenantManager.

(** [log] writes at most one line, and nothing else changes. *)
Lemma log_writes :
  forall level message (this : t H) (e : Env D H),
  exists e' lines,
    log B level message (this, e) = (Return tt, (this, e')) /\
    drv e' = drv e /\ trace e' = trace e /\
    console e' = (lines ++ console e)%list.
Proof.
  intros level message this e. unfold log. run.
  destruct (truthy_field _ _); simpl.
  2:{ exists e, []. repeat split. }
  repeat match goal with |- context [if ?c then _ else _] => destruct c end;
  try destruct (logLevel (config this)) as [| |[]];
  first [ (eexists; exists []; repeat split; reflexivity)
        | (eexists; eexists [_]; repeat split; reflexivity) ].
Qed.


End DriverCalls.






(* ================================================================== *)
(** ** Closing: what the drivers see *)
(* ================================================================== *)

Section ClosingCalls.

Context {D H : Type} (B : Backend D H).

Import MultiTenantManager.

(** Every key of a map is listed among its keys. *)
Lemma filter_own_keys : forall (m : JsMap.t (ConnectionInfo H)),
  filter (fun kv => negb (listed (fst kv) (JsMap.keys m))) m = [].
Proof.
  intro m.
  assert (Hall : forall kv, In kv m ->
            negb (listed (fst kv) (JsMap.keys m)) = false).
  { intros kv Hin. apply negb_false_iff. apply listed_in.
    unfold JsMap.keys. now apply in_map. }
  revert Hall. generalize (JsMap.keys m) as ks.
  induction m as [|kv m IH]; intros ks Hall; simpl; auto.
  rewrite (Hall kv (or_introl eq_refl)). apply IH.
  intros kv' Hin. apply Hall. now right.
Qed.

(** The end of [closeConnection], after the driver was or was not called:
    neither branch touches the drivers again. *)
Lemma closeConnection_finish :
  forall tenantId (this : t H) (e1 : Env D H) (r : Completion unit),
    let rest :=
      match r with
      | Return _ =>
          match log B "info" ("Closed connection for tenant: " ++ tenantId)
                  (set_connections (JsMap.delete tenantId) this, e1) with
          | (Return a, w') => (Return a, w')
          | (Throw error, w') =>
              match log B "error" ("Error closing connection for tenant "
                                   ++ tenantId ++ ": " ++ message_of error) w' with
              | (Return _, w'') =>
                  (Return tt,
                   (set_connections (JsMap.delete tenantId) (fst w''), snd w''))
              | (Throw error', w'') => (Throw error', w'')
              end
          end
      | Throw error =>
          match log B "error" ("Error closing connection for tenant "
                               ++ tenantId ++ ": " ++ message_of error)
                  (this, e1) with
          | (Return _, w'') =>
              (Return tt,
               (set_connections (JsMap.delete tenantId) (fst w''), snd w''))
          | (Throw error', w'') => (Throw error', w'')
          end
      end in
    trace (snd (snd rest)) = trace e1 /\ drv (snd (snd rest)) = drv e1.
Proof.
  intros tenantId this e1 [[]|error]; cbv zeta.
  - destruct (log_writes B "info" ("Closed connection for tenant: " ++ tenantId)
                (set_connections (JsMap.delete tenantId) this) e1)
      as (e' & lines & Hlog & Hd & Ht & _).
    rewrite Hlog. cbn [snd]. auto.
  - destruct (log_writes B "error"
                ("Error closing connection for tenant " ++ tenantId ++ ": "
                 ++ message_of error) this e1)
      as (e' & lines & Hlog & Hd & Ht & _).
    rewrite Hlog. cbn [snd]. auto.
Qed.

End ClosingCalls.

(** X12. What [closeConnection] asks of the drivers. For a tenant without
    entry, nothing: the world stays as it is. For a tenant with an entry,
    at most one call, on the stored handle: [close()] when the entry is a
    MongoDB one and the handle has the method, [destroy()] when it is a
    PostgreSQL one and the handle has the method; and no call when the
    handle is [null], lacks the method, or is of another kind. A call that
    throws is not repeated. *)
Theorem closeConnection_driver_call :
  forall {D H : Type} (B : Backend D H) (tenantId : string)
         (this : MultiTenantManager.t H) (e : Env D H),
    let after := MultiTenantManager.closeConnection B tenantId (this, e) in
    let e' := env_of (snd after) in
    match MultiTenantManager.getConnectionInfo this tenantId with
    | None => after = (Return tt, (this, e))
    | Some info =>
        match connection info with
        | Some c =>
            if info_databaseType info =? MONGODB then
              if has_close B c (drv e)
              then trace e' = Close c (returned (fst (close B c (drv e)))) :: trace e
                   /\ drv e' = snd (close B c (drv e))
              else trace e' = trace e /\ drv e' = drv e
            else if info_databaseType info =? POSTGRESQL then
              if has_destroy B c (drv e)
              then trace e' = Destroy c (returned (fst (destroy B c (drv e)))) :: trace e
                   /\ drv e' = snd (destroy B c (drv e))
              else trace e' = trace e /\ drv e' = drv e
            else trace e' = trace e /\ drv e' = drv e
        | None => trace e' = trace e /\ drv e' = drv e
        end
    end.
Proof.
  intros D H B tenantId this e. cbv zeta.
  unfold MultiTenantManager.getConnectionInfo, MultiTenantManager.closeConnection.
  run.
  destruct (JsMap.get tenantId (MultiTenantManager.connections this))
    as [info|] eqn:Hg; [|reflexivity].
  destruct (connection info) as [c|].
  2:{ apply (closeConnection_finish B tenantId this e (Return tt)). }
  destruct (info_databaseType info =? MONGODB).
  - destruct (has_close B c (drv e)).
    + destruct (close B c (drv e)) as [[error|[]] d']; cbn [fst snd returned].
      * apply (closeConnection_finish B tenantId this
                 (Build_Env (reads e) d' (Close c false :: trace e) (console e))
                 (Throw error)).
      * apply (closeConnection_finish B tenantId this
                 (Build_Env (reads e) d' (Close c true :: trace e) (console e))
                 (Return tt)).
    + apply (closeConnection_finish B tenantId this e (Return tt)).
  - destruct (info_databaseType info =? POSTGRESQL).
    + destruct (has_destroy B c (drv e)).
      * destruct (destroy B c (drv e)) as [[error|[]] d']; cbn [fst snd returned].
        -- apply (closeConnection_finish B tenantId this
                    (Build_Env (reads e) d' (Destroy c false :: trace e) (console e))
                    (Throw error)).
        -- apply (closeConnection_finish B tenantId this
                    (Build_Env (reads e) d' (Destroy c true :: trace e) (console e))
                    (Return tt)).
      * apply (closeConnection_finish B tenantId this e (Return tt)).
    + apply (closeConnection_finish B tenantId this e (Return tt)).
Qed.

(** X13. [closeAllConnections] returns and leaves the registry empty,
    whatever the drivers answer: no tenant has a connection afterwards, the
    count of active connections is zero, the configuration is as before and
    no connection has been requested. *)
Theorem closeAllConnections_empties_registry :
  forall {D H : Type} (B : Backend D H) (this : MultiTenantManager.t H)
         (e : Env D H),
    let after := MultiTenantManager.closeAllConnections B (this, e) in
    let this' := manager_of (snd after) in
    fst after = Return tt /\
    MultiTenantManager.getAllConnections this' = [] /\
    (forall tenantId, MultiTenantManager.hasConnection this' tenantId = false) /\
    MultiTenantManager.getActiveConnectionsCount this' = 0%nat /\
    MultiTenantManager.getConfig this' = MultiTenantManager.getConfig this /\
    connects (env_of (snd after)) = connects e.
Proof.
  intros D H B this e. cbv zeta.
  destruct (closeAllConnections_runs B this e) as (e' & Hrun & _ & Hc & _).
  rewrite Hrun. unfold manager_of, env_of. cbn [fst snd].
  unfold MultiTenantManager.getAllConnections, MultiTenantManager.hasConnection,
    MultiTenantManager.getActiveConnectionsCount, MultiTenantManager.getConfig,
    MultiTenantManager.set_connections.
  cbn [MultiTenantManager.connections MultiTenantManager.config].
  rewrite filter_own_keys. repeat split; auto.
Qed.

(* ================================================================== *)
(** ** Statistics *)
(* ================================================================== *)

Section Statistics.

Context {H : Type}.

Import MultiTenantManager.

Lemma tally_counts : forall (infos : list (ConnectionInfo H)) stats,
  totalConnections (tally infos stats) = totalConnections stats /\
  activeConnections (tally infos stats) = activeConnections stats.
Proof.
  induction infos as [|info infos IH]; intro stats; simpl; auto.
  destruct (IH (Build_Stats (totalConnections stats) (activeConnections stats)
     (JsMap.set (info_databaseType info)
        (increment (JsMap.get (info_databaseType info) (databaseTypes stats)))
        (databaseTypes stats))
     (match oldestConnection stats with
      | None => Some (createdAt info)
      | Some oldest =>
          if (createdAt info <? oldest)%Z then Some (createdAt info) else Some oldest
      end)
     (match newestConnection stats with
      | None => Some (createdAt info)
      | Some newest =>
          if (createdAt info >? newest)%Z then Some (createdAt info) else Some newest
      end))) as [Ht Ha].
  split; [exact Ht|exact Ha].
Qed.

(** The count kept under a key goes up by one for each entry of the kind. *)
Lemma tally_kind :
  forall kind (infos : list (ConnectionInfo H)) stats n,
    JsMap.get kind (databaseTypes stats) = Some (Counted n) ->
    JsMap.get kind (databaseTypes (tally infos stats))
    = Some (Counted (n + List.length
                           (filter (fun info => info_databaseType info =? kind)
                                   infos))).
Proof.
  intros kind. induction infos as [|info infos IH]; intros stats n Hg; simpl.
  - now rewrite Nat.add_0_r.
  - destruct (info_databaseType info =? kind) eqn:E.
    + apply String.eqb_eq in E. rewrite E.
      rewrite (IH _ (Datatypes.S n)).
      * simpl. now rewrite Nat.add_succ_r.
      * simpl. rewrite Hg. simpl. apply get_set_same.
    + apply IH. simpl. rewrite get_set_other; auto.
      intro Heq. subst kind. now rewrite String.eqb_refl in E.
Qed.

Lemma count_values :
  forall kind (m : JsMap.t (ConnectionInfo H)),
    List.length (filter (fun info => info_databaseType info =? kind)
                        (JsMap.values m))
    = entries_of_kind kind m.
Proof.
  intros kind m. unfold entries_of_kind, JsMap.values.
  induction m as [|[k v] m IH]; simpl; auto.
  destruct (info_databaseType v =? kind); simpl; now rewrite IH.
Qed.

(** The oldest [createdAt] seen so far stays the least one. *)
Lemma tally_oldest :
  forall (infos seen : list (ConnectionInfo H)) stats,
    match oldestConnection stats with
    | None => seen = []
    | Some t => (exists info, In info seen /\ createdAt info = t) /\
                (forall info, In info seen -> (t <= createdAt info)%Z)
    end ->
    match oldestConnection (tally infos stats) with
    | None => (seen ++ infos)%list = []
    | Some t => (exists info, In info (seen ++ infos)%list /\ createdAt info = t) /\
                (forall info, In info (seen ++ infos)%list -> (t <= createdAt info)%Z)
    end.
Proof.
  induction infos as [|info infos IH]; intros seen stats Hseen.
  - simpl. now rewrite app_nil_r.
  - simpl.
    replace (seen ++ info :: infos)%list with ((seen ++ [info]) ++ infos)%list
      by now rewrite <- app_assoc.
    apply IH. simpl.
    destruct (oldestConnection stats) as [t|].
    + destruct Hseen as [(i0 & Hin0 & Hc0) Hle].
      destruct (createdAt info <? t)%Z eqn:E.
      * apply Z.ltb_lt in E. split.
        -- exists info. split; auto. apply in_or_app. right. now left.
        -- intros i Hin. apply in_app_or in Hin as [Hin|[<-|[]]]; [|lia].
           specialize (Hle i Hin). lia.
      * apply Z.ltb_ge in E. split.
        -- exists i0. split; auto. apply in_or_app. now left.
        -- intros i Hin. apply in_app_or in Hin as [Hin|[<-|[]]]; auto.
    + subst seen. simpl. split.
      * exists info. split; auto.
      * intros i [<-|[]]. lia.
Qed.

Lemma tally_newest :
  forall (infos seen : list (ConnectionInfo H)) stats,
    match newestConnection stats with
    | None => seen = []
    | Some t => (exists info, In info seen /\ createdAt info = t) /\
                (forall info, In info seen -> (createdAt info <= t)%Z)
    end ->
    match newestConnection (tally infos stats) with
    | None => (seen ++ infos)%list = []
    | Some t => (exists info, In info (seen ++ infos)%list /\ createdAt info = t) /\
                (forall info, In info (seen ++ infos)%list -> (createdAt info <= t)%Z)
    end.
Proof.
  induction infos as [|info infos IH]; intros seen stats Hseen.
  - simpl. now rewrite app_nil_r.
  - simpl.
    replace (seen ++ info :: infos)%list with ((seen ++ [info]) ++ infos)%list
      by now rewrite <- app_assoc.
    apply IH. simpl.
    destruct (newestConnection stats) as [t|].
    + destruct Hseen as [(i0 & Hin0 & Hc0) Hle].
      destruct (createdAt info >? t)%Z eqn:E.
      * apply Z.gtb_lt in E. split.
        -- exists info. split; auto. apply in_or_app. right. now left.
        -- intros i Hin. apply in_app_or in Hin as [Hin|[<-|[]]]; [|lia].
           specialize (Hle i Hin). lia.
      * assert (createdAt info <= t)%Z.
        { destruct (Z.gtb_spec (createdAt info) t); [discriminate|lia]. }
        split.
        -- exists i0. split; auto. apply in_or_app. now left.
        -- intros i Hin. apply in_app_or in Hin as [Hin|[<-|[]]]; auto.
    + subst seen. simpl. split.
      * exists info. split; auto.
      * intros i [<-|[]]. lia.
Qed.

(** With entries of the two kinds only, the object of counts keeps its two
    properties, and the counts add up to the number of entries. *)
Lemma tally_supported :
  forall (infos : list (ConnectionInfo H)) stats a b,
    Forall (fun info => supported (info_databaseType info)) infos ->
    databaseTypes stats = [(MONGODB, Counted a); (POSTGRESQL, Counted b)] ->
    exists a' b',
      databaseTypes (tally infos stats)
      = [(MONGODB, Counted a'); (POSTGRESQL, Counted b')] /\
      (a' + b' = a + b + List.length infos)%nat.
Proof.
  induction infos as [|info infos IH]; intros stats a b Hall Hd.
  - exists a, b. simpl. split; [exact Hd|lia].
  - inversion Hall as [|? ? Hs Hall']; subst. simpl.
    destruct Hs as [Hk|Hk].
    + destruct (IH (Build_Stats (totalConnections stats) (activeConnections stats)
        (JsMap.set (info_databaseType info)
           (increment (JsMap.get (info_databaseType info) (databaseTypes stats)))
           (databaseTypes stats))
        (match oldestConnection stats with
         | None => Some (createdAt info)
         | Some oldest =>
             if (createdAt info <? oldest)%Z then Some (createdAt info)
             else Some oldest
         end)
        (match newestConnection stats with
         | None => Some (createdAt info)
         | Some newest =>
             if (createdAt info >? newest)%Z then Some (createdAt info)
             else Some newest
         end)) (Datatypes.S a) b Hall') as (a' & b' & Hd' & Hsum).
      { simpl. rewrite Hd, Hk. reflexivity. }
      exists a', b'. split; [exact Hd'|lia].
    + destruct (IH (Build_Stats (totalConnections stats) (activeConnections stats)
        (JsMap.set (info_databaseType info)
           (increment (JsMap.get (info_databaseType info) (databaseTypes stats)))
           (databaseTypes stats))
        (match oldestConnection stats with
         | None => Some (createdAt info)
         | Some oldest =>
             if (createdAt info <? oldest)%Z then Some (createdAt info)
             else Some oldest
         end)
        (match newestConnection stats with
         | None => Some (createdAt info)
         | Some newest =>
             if (createdAt info >? newest)%Z then Some (createdAt info)
             else Some newest
         end)) a (Datatypes.S b) Hall') as (a' & b' & Hd' & Hsum).
      { simpl. rewrite Hd, Hk. reflexivity. }
      exists a', b'. split; [exact Hd'|lia].
Qed.

Lemma in_values : forall (m : JsMap.t (ConnectionInfo H)) info,
  In info (JsMap.values m) <-> exists kv, In kv m /\ snd kv = info.
Proof.
  intros m info. unfold JsMap.values. rewrite in_map_iff.
  split; intros (kv & Ha & Hb); exists kv; auto.
Qed.

End Statistics.

(** X14. [getConnectionStats] summarises the registry: the total is its
    size, the active count is that of [getActiveConnectionsCount] and never
    above the total, the counts under ["mongodb"] and ["postgresql"] are the
    numbers of entries of these kinds, and [oldestConnection] and
    [newestConnection] are [null] exactly for an empty registry and otherwise
    the least and the greatest [createdAt] of its entries. *)
Theorem getConnectionStats_summarises_registry :
  forall {H : Type} (this : MultiTenantManager.t H),
    let stats := MultiTenantManager.getConnectionStats this in
    let entries := MultiTenantManager.getAllConnections this in
    MultiTenantManager.totalConnections stats = JsMap.size entries /\
    MultiTenantManager.activeConnections stats
    = MultiTenantManager.getActiveConnectionsCount this /\
    (MultiTenantManager.activeConnections stats
     <= MultiTenantManager.totalConnections stats)%nat /\
    JsMap.get MONGODB (MultiTenantManager.databaseTypes stats)
    = Some (MultiTenantManager.Counted (entries_of_kind MONGODB entries)) /\
    JsMap.get POSTGRESQL (MultiTenantManager.databaseTypes stats)
    = Some (MultiTenantManager.Counted (entries_of_kind POSTGRESQL entries)) /\
    match MultiTenantManager.oldestConnection stats with
    | None => entries = []
    | Some t =>
        (exists kv, In kv entries /\ createdAt (snd kv) = t) /\
        (forall kv, In kv entries -> (t <= createdAt (snd kv))%Z)
    end /\
    match MultiTenantManager.newestConnection stats with
    | None => entries = []
    | Some t =>
        (exists kv, In kv entries /\ createdAt (snd kv) = t) /\
        (forall kv, In kv entries -> (createdAt (snd kv) <= t)%Z)
    end.
Proof.
  intros H this. cbv zeta.
  unfold MultiTenantManager.getConnectionStats, MultiTenantManager.getAllConnections.
  match goal with
  | |- context [MultiTenantManager.tally ?l ?s] =>
      set (infos := l); set (start := s)
  end.
  destruct (tally_counts infos start) as [Ht Ha].
  pose proof (tally_kind MONGODB infos start 0%nat eq_refl) as Hm.
  pose proof (tally_kind POSTGRESQL infos start 0%nat eq_refl) as Hp.
  pose proof (tally_oldest infos [] start eq_refl) as Ho.
  pose proof (tally_newest infos [] start eq_refl) as Hn.
  unfold infos in Hm, Hp. rewrite count_values in Hm, Hp.
  cbn [app] in Ho, Hn.
  split; [exact Ht|]. split; [exact Ha|].
  split.
  { rewrite Ht, Ha. unfold start, MultiTenantManager.getActiveConnectionsCount.
    cbn [MultiTenantManager.totalConnections MultiTenantManager.activeConnections].
    unfold JsMap.size, JsMap.values.
    etransitivity; [apply filter_length_le|]. now rewrite length_map. }
  split; [exact Hm|]. split; [exact Hp|].
  assert (Hempty : infos = [] -> MultiTenantManager.connections this = []).
  { unfold infos, JsMap.values.
    destruct (MultiTenantManager.connections this); [auto|discriminate]. }
  split.
  - destruct (MultiTenantManager.oldestConnection _) as [t|]; [|auto].
    destruct Ho as [(info & Hin & Hc) Hle]. split.
    + apply in_values in Hin as (kv & Hkv & <-). now exists kv.
    + intros kv Hkv. apply Hle. apply in_values. now exists kv.
  - destruct (MultiTenantManager.newestConnection _) as [t|]; [|auto].
    destruct Hn as [(info & Hin & Hc) Hle]. split.
    + apply in_values in Hin as (kv & Hkv & <-). now exists kv.
    + intros kv Hkv. apply Hle. apply in_values. now exists kv.
Qed.

Lemma getConnectionStats_summarises_registry_witness :
  MultiTenantManager.oldestConnection
    (MultiTenantManager.getConnectionStats Stub.two_tenants) = Some 50000%Z /\
  (forall kv,
     In kv (MultiTenantManager.getAllConnections Stub.two_tenants) ->
     (50000 <= createdAt (snd kv))%Z) /\
  MultiTenantManager.newestConnection
    (MultiTenantManager.getConnectionStats Stub.two_tenants) = Some 60000%Z /\
  (forall kv,
     In kv (MultiTenantManager.getAllConnections Stub.two_tenants) ->
     (createdAt (snd kv) <= 60000)%Z).
Proof.
  destruct (getConnectionStats_summarises_registry Stub.two_tenants)
    as (_ & _ & _ & _ & _ & Hold & Hnew).
  split; [reflexivity|]. split; [exact (proj2 Hold)|].
  split; [reflexivity|exact (proj2 Hnew)].
Defined.

(* ================================================================== *)
(** ** Invariants of the registry and of the configuration *)
(* ================================================================== *)

Section Invariants.

Context {D H : Type} (B : Backend D H).

Import MultiTenantManager.

Lemma regular_filter :
  forall (p : string * ConnectionInfo H -> bool) (m : JsMap.t (ConnectionInfo H)),
    Forall regular_entry m -> Forall regular_entry (filter p m).
Proof.
  intros p m Hall. apply Forall_forall. intros kv Hin.
  apply filter_In in Hin as [Hin _]. rewrite Forall_forall in Hall. auto.
Qed.

Lemma regular_set :
  forall k info (m : JsMap.t (ConnectionInfo H)),
    regular_entry (k, info) -> Forall regular_entry m ->
    Forall regular_entry (JsMap.set k info m).
Proof.
  intros k info m Hr Hall. apply Forall_forall. intros kv Hin.
  apply in_set in Hin as [->|Hin]; auto. rewrite Forall_forall in Hall. auto.
Qed.

Lemma getConnection_keeps_regular :
  forall tenantId tenantConfig (this : t H) (e : Env D H),
    Forall regular_entry (connections this) ->
    Forall regular_entry
      (connections (fst (snd (getConnection B tenantId tenantConfig (this, e))))).
Proof.
  intros tenantId tenantConfig this e Hall.
  destruct (getConnection_cases B tenantId tenantConfig this e)
    as (r & this' & e' & Hget & _ & _ & Hcase).
  rewrite Hget. cbn [fst snd].
  destruct Hcase as [(info & Hg & Ha & Hp & _ & ->)|(base & Hbase & Hcase)].
  - apply regular_set; auto.
    apply get_in in Hg. rewrite Forall_forall in Hall.
    destruct (Hall _ Hg) as (Hid & Hact & Hh & Hs).
    repeat split; auto.
  - assert (Hb : Forall regular_entry base).
    { destruct Hbase as [[-> _]| ->]; auto. now apply regular_filter. }
    destruct r as [c|error].
    + destruct Hcase as (h & i & _ & Hs & ->).
      apply regular_set; auto. repeat split; auto. simpl. discriminate.
    + now rewrite Hcase.
Qed.

Lemma perform_keeps_regular :
  forall op (w : World (t H) D H),
    Forall regular_entry (connections (fst w)) ->
    Forall regular_entry (connections (fst (perform B op w))).
Proof.
  intros [tenantId tenantConfig|tenantId| |maxIdleTime|newConfig] [this e] Hall;
    cbn [fst] in Hall; simpl.
  - now apply getConnection_keeps_regular.
  - destruct (closeConnection_runs B tenantId this e) as (e' & Hrun & _).
    rewrite Hrun. simpl. now apply regular_filter.
  - destruct (closeAllConnections_runs B this e) as (e' & Hrun & _).
    rewrite Hrun. simpl. now apply regular_filter.
  - destruct (cleanupInactiveConnections_runs B maxIdleTime this e)
      as (e' & Hrun & _).
    rewrite Hrun. simpl. now apply regular_filter.
  - destruct (updateConfig_runs B newConfig this e) as (e' & Hrun & _).
    rewrite Hrun. simpl. exact Hall.
Qed.

Lemma reachable_regular :
  forall ops (w : World (t H) D H),
    Forall regular_entry (connections (fst w)) ->
    Forall regular_entry (connections (fst (perform_all B ops w))).
Proof.
  induction ops as [|op ops IH]; intros w Hw; simpl; auto.
  apply IH. now apply perform_keeps_regular.
Qed.

(** In a registry of regular entries every entry counts as active. *)
Lemma regular_all_active :
  forall (m : JsMap.t (ConnectionInfo H)),
    Forall regular_entry m ->
    filter isActive (JsMap.values m) = JsMap.values m.
Proof.
  induction m as [|[k v] m IH]; intro Hall; simpl; auto.
  inversion Hall as [|? ? (_ & Ha & _) Hall']; subst. simpl in Ha.
  rewrite Ha. f_equal. now apply IH.
Qed.

Lemma perform_keeps_defaults :
  forall op (w : World (t H) D H),
    defaultOptions (config (fst w)) = Val (this_defaultOptions (fst w)) ->
    defaultOptions (config (fst (perform B op w)))
    = Val (this_defaultOptions (fst (perform B op w))).
Proof.
  intros [tenantId tenantConfig|tenantId| |maxIdleTime|newConfig] [this e] Hsync;
    cbn [fst] in Hsync; simpl.
  - destruct (getConnection_cases B tenantId tenantConfig this e)
      as (r & this' & e' & Hget & Hcfg & Hdo & _).
    rewrite Hget. cbn [fst snd]. now rewrite Hcfg, Hdo.
  - destruct (closeConnection_runs B tenantId this e) as (e' & Hrun & _).
    rewrite Hrun. exact Hsync.
  - destruct (closeAllConnections_runs B this e) as (e' & Hrun & _).
    rewrite Hrun. exact Hsync.
  - destruct (cleanupInactiveConnections_runs B maxIdleTime this e)
      as (e' & Hrun & _).
    rewrite Hrun. exact Hsync.
  - destruct (updateConfig_runs B newConfig this e) as (e' & Hrun & _).
    rewrite Hrun. reflexivity.
Qed.

Lemma reachable_defaults :
  forall ops (w : World (t H) D H),
    defaultOptions (config (fst w)) = Val (this_defaultOptions (fst w)) ->
    defaultOptions (config (fst (perform_all B ops w)))
    = Val (this_defaultOptions (fst (perform_all B ops w))).
Proof.
  induction ops as [|op ops IH]; intros w Hw; simpl; auto.
  apply IH. now apply perform_keeps_defaults.
Qed.

End Invariants.

(** X15. In the world reached from a new manager by any sequence of calls,
    every entry of the registry is stored under its own tenant identifier, is
    active, holds a handle and is of a kind that has a connector, and no
    identifier occurs twice. So [hasConnection] holds of exactly the tenants
    that [getConnectionInfo] knows, and [getActiveConnectionsCount] is the
    size of the registry. *)
Theorem registry_holds_live_entries_only :
  forall {D H : Type} (B : Backend D H) (config : option MultiTenantConfig)
         (e : Env D H) (ops : list Operation),
    let this := manager_of (perform_all B ops (initial config e)) in
    Forall regular_entry (MultiTenantManager.getAllConnections this) /\
    NoDup (JsMap.keys (MultiTenantManager.getAllConnections this)) /\
    (forall tenantId,
       MultiTenantManager.hasConnection this tenantId = true <->
       MultiTenantManager.getConnectionInfo this tenantId <> None) /\
    (forall tenantId info,
       MultiTenantManager.getConnectionInfo this tenantId = Some info ->
       info_tenantId info = tenantId /\ connection info <> None) /\
    MultiTenantManager.getActiveConnectionsCount this
    = JsMap.size (MultiTenantManager.getAllConnections this).
Proof.
  intros D H B config e ops. cbv zeta.
  assert (Hreg : Forall regular_entry
                   (MultiTenantManager.connections
                      (fst (perform_all B ops (initial config e))))).
  { apply reachable_regular. simpl. constructor. }
  destruct (reachable_well_stamped B ops (initial config e)
              (initial_well_stamped B config e)) as [Hnd _].
  unfold manager_of, MultiTenantManager.getAllConnections,
    MultiTenantManager.hasConnection, MultiTenantManager.getConnectionInfo,
    MultiTenantManager.getActiveConnectionsCount.
  set (this := fst (perform_all B ops (initial config e))) in *.
  assert (Hentry : forall tenantId info,
            JsMap.get tenantId (MultiTenantManager.connections this) = Some info ->
            regular_entry (tenantId, info)).
  { intros tenantId info Hg. apply get_in in Hg.
    rewrite Forall_forall in Hreg. auto. }
  split; [exact Hreg|]. split; [exact Hnd|]. split; [|split].
  - intro tenantId.
    destruct (JsMap.get tenantId (MultiTenantManager.connections this))
      as [info|] eqn:Hg.
    + destruct (Hentry _ _ Hg) as (_ & Ha & _). simpl in Ha. rewrite Ha.
      split; [discriminate|reflexivity].
    + split; [discriminate|]. intro Hne. now contradiction Hne.
  - intros tenantId info Hg. destruct (Hentry _ _ Hg) as (Hid & _ & Hh & _).
    split; [exact Hid|exact Hh].
  - rewrite regular_all_active by exact Hreg.
    unfold JsMap.values, JsMap.size. apply length_map.
Qed.

Lemma registry_holds_live_entries_only_witness :
  MultiTenantManager.hasConnection
    (manager_of (perform_all Stub.backend
                   [GetConnection "tenant1" Stub.mongo_tenant;
                    GetConnection "tenant2" Stub.postgres_tenant;
                    CloseConnection "tenant1"]
                   (initial None (Stub.start []))))
    "tenant2" = true.
Proof.
  destruct (registry_holds_live_entries_only Stub.backend None (Stub.start [])
              [GetConnection "tenant1" Stub.mongo_tenant;
               GetConnection "tenant2" Stub.postgres_tenant;
               CloseConnection "tenant1"])
    as (_ & _ & Hhas & _).
  apply (proj2 (Hhas "tenant2")). vm_compute. discriminate.
Defined.

(** X16. In the world reached from a new manager by any sequence of calls,
    the statistics count every entry as active, the object of counts has the
    two properties ["mongodb"] and ["postgresql"] and no other, and the two
    counts add up to the total. *)
Theorem getConnectionStats_counts_add_up :
  forall {D H : Type} (B : Backend D H) (config : option MultiTenantConfig)
         (e : Env D H) (ops : list Operation),
    let stats :=
      MultiTenantManager.getConnectionStats
        (manager_of (perform_all B ops (initial config e))) in
    MultiTenantManager.activeConnections stats
    = MultiTenantManager.totalConnections stats /\
    exists mongodb postgresql : nat,
      MultiTenantManager.databaseTypes stats
      = [(MONGODB, MultiTenantManager.Counted mongodb);
         (POSTGRESQL, MultiTenantManager.Counted postgresql)] /\
      (mongodb + postgresql)%nat = MultiTenantManager.totalConnections stats.
Proof.
  intros D H B config e ops. cbv zeta.
  assert (Hreg : Forall regular_entry
                   (MultiTenantManager.connections
                      (fst (perform_all B ops (initial config e))))).
  { apply reachable_regular. simpl. constructor. }
  unfold manager_of, MultiTenantManager.getConnectionStats.
  set (this := fst (perform_all B ops (initial config e))) in *.
  match goal with
  | |- context [MultiTenantManager.tally ?l ?s] =>
      set (infos := l); set (start := s)
  end.
  destruct (tally_counts infos start) as [Ht Ha].
  assert (Hkinds : Forall (fun info => supported (info_databaseType info)) infos).
  { apply Forall_forall. intros info Hin.
    apply in_values in Hin as (kv & Hin & <-).
    rewrite Forall_forall in Hreg. now destruct (Hreg _ Hin) as (_ & _ & _ & Hs). }
  destruct (tally_supported infos start 0%nat 0%nat Hkinds eq_refl)
    as (a & b & Hd & Hsum).
  rewrite Ht, Ha. unfold start.
  cbn [MultiTenantManager.totalConnections MultiTenantManager.activeConnections].
  split.
  - unfold MultiTenantManager.getActiveConnectionsCount.
    rewrite regular_all_active by exact Hreg.
    unfold JsMap.values, JsMap.size. apply length_map.
  - exists a, b. split; [exact Hd|].
    rewrite Hsum. unfold infos, JsMap.values, JsMap.size. simpl.
    apply length_map.
Qed.

(** X17. In the world reached from a new manager by any sequence of calls,
    the [defaultOptions] that [getConfig] shows are the default options that
    the next connector is created with. *)
Theorem getConfig_shows_defaults_in_use :
  forall {D H : Type} (B : Backend D H) (config : option MultiTenantConfig)
         (e : Env D H) (ops : list Operation),
    let this := manager_of (perform_all B ops (initial config e)) in
    defaultOptions (MultiTenantManager.getConfig this)
    = Val (MultiTenantManager.this_defaultOptions this) /\
    forall tenantConfig,
      tenant_options this tenantConfig
      = spread_options
          (object_of (defaultOptions (MultiTenantManager.getConfig this)))
          (object_of (options (credentials tenantConfig))).
Proof.
  intros D H B config e ops. cbv zeta.
  assert (Hsync : defaultOptions
                    (MultiTenantManager.config
                       (fst (perform_all B ops (initial config e))))
                  = Val (MultiTenantManager.this_defaultOptions
                           (fst (perform_all B ops (initial config e))))).
  { apply reachable_defaults. reflexivity. }
  unfold manager_of, MultiTenantManager.getConfig, tenant_options.
  split; [exact Hsync|]. intro tenantConfig. now rewrite Hsync.
Qed.

(** X18. The manager's own [createConnector] and the factory's agree: for
    every tenant configuration the manager makes the connector that
    [ConnectorFactory.createConnector] makes for the tenant's kind and
    credentials and the merged options, or throws the same error; and a
    connector is made exactly for the kinds that
    [isDatabaseTypeSupported] accepts. *)
Theorem createConnector_agrees_with_factory :
  forall {D H : Type} (tenantConfig : TenantConfig)
         (this : MultiTenantManager.t H) (e : Env D H),
    MultiTenantManager.createConnector tenantConfig (this, e)
    = ConnectorFactory.createConnector (databaseType tenantConfig)
        (credentials tenantConfig) (Some (tenant_options this tenantConfig))
        (this, e) /\
    (ConnectorFactory.isDatabaseTypeSupported (databaseType tenantConfig) = true
     <-> exists connector,
           MultiTenantManager.createConnector tenantConfig (this, e)
           = (Return connector, (this, e))) /\
    (ConnectorFactory.isDatabaseTypeSupported (databaseType tenantConfig) = true
     <-> In (databaseType tenantConfig) ConnectorFactory.getSupportedDatabaseTypes).
Proof.
  intros D H tenantConfig this e.
  unfold MultiTenantManager.createConnector, ConnectorFactory.createConnector,
    ConnectorFactory.isDatabaseTypeSupported,
    ConnectorFactory.getSupportedDatabaseTypes, tenant_options.
  run. cbn [existsb orb].
  split; [reflexivity|]. split.
  - destruct (databaseType tenantConfig =? MONGODB).
    { split; [eexists; reflexivity|reflexivity]. }
    destruct (databaseType tenantConfig =? POSTGRESQL).
    { split; [eexists; reflexivity|reflexivity]. }
    split; [discriminate|]. intros [connector Hc]. discriminate.
  - destruct (databaseType tenantConfig =? MONGODB) eqn:Em.
    { apply String.eqb_eq in Em. split; auto. intros _. left. now symmetry. }
    destruct (databaseType tenantConfig =? POSTGRESQL) eqn:Ep.
    { apply String.eqb_eq in Ep. split; auto. intros _. right. left. now symmetry. }
    split; [discriminate|]. intros [Heq|[Heq|[]]].
    + rewrite <- Heq, String.eqb_refl in Em. discriminate.
    + rewrite <- Heq, String.eqb_refl in Ep. discriminate.
Qed.

Lemma createConnector_agrees_with_factory_witness :
  exists connector,
    MultiTenantManager.createConnector Stub.mongo_tenant
      (Stub.manager, Stub.start [])
    = (Return connector, (Stub.manager, Stub.start [])).
Proof.
  destruct (createConnector_agrees_with_factory Stub.mongo_tenant Stub.manager
              (Stub.start [])) as (_ & Hiff & _).
  apply (proj1 Hiff). reflexivity.
Defined.

(* ================================================================== *)
(** ** Repeated updates, and reconnecting *)
(* ================================================================== *)

Section Merging.

Lemma spread_twice : forall {A} (a b : Field A), spread (spread a b) b = spread a b.
Proof. now intros A a [| |x]. Qed.

Lemma spread_options_twice : forall a b,
  spread_options (spread_options a b) b = spread_options a b.
Proof.
  intros a b. unfold spread_options. simpl. now rewrite !spread_twice.
Qed.

Lemma merge_twice : forall a b,
  MultiTenantManager.merge (MultiTenantManager.merge a b) b
  = MultiTenantManager.merge a b.
Proof.
  intros a b. unfold MultiTenantManager.merge. simpl.
  now rewrite spread_options_twice, !spread_twice.
Qed.

Lemma merge_nothing : forall a o,
  defaultOptions a = Val o ->
  MultiTenantManager.merge a empty_config = a.
Proof.
  intros [dO pooling logging level] o Hd. simpl in Hd. subst dO.
  unfold MultiTenantManager.merge. simpl. now destruct o.
Qed.

End Merging.

(** X19. [updateConfig] with the same argument a second time changes
    nothing more: the manager after two such calls is the manager after one.
    And on a manager whose configuration shows its default options (as it
    does from construction on), [updateConfig({})] leaves the manager as it
    is. *)
Theorem updateConfig_is_idempotent :
  forall {D H : Type} (B : Backend D H) (newConfig : MultiTenantConfig)
         (this : MultiTenantManager.t H) (e : Env D H),
    let once := snd (MultiTenantManager.updateConfig B newConfig (this, e)) in
    let twice := snd (MultiTenantManager.updateConfig B newConfig once) in
    manager_of twice = manager_of once /\
    (defaultOptions (MultiTenantManager.getConfig this)
     = Val (MultiTenantManager.this_defaultOptions this) ->
     manager_of (snd (MultiTenantManager.updateConfig B empty_config (this, e)))
     = this).
Proof.
  intros D H B newConfig this e. cbv zeta. split.
  - destruct (updateConfig_runs B newConfig this e) as (e1 & Hrun1 & _).
    rewrite Hrun1. cbn [snd].
    match goal with
    | |- context [MultiTenantManager.updateConfig B newConfig (?t, e1)] =>
        destruct (updateConfig_runs B newConfig t e1) as (e2 & Hrun2 & _)
    end.
    rewrite Hrun2. unfold manager_of. cbn [fst snd].
    cbn [MultiTenantManager.connections MultiTenantManager.config].
    now rewrite merge_twice.
  - intro Hsync. unfold MultiTenantManager.getConfig in Hsync.
    destruct (updateConfig_runs B empty_config this e) as (e1 & Hrun1 & _).
    rewrite Hrun1. unfold manager_of. cbn [fst snd].
    rewrite (merge_nothing _ _ Hsync), Hsync. now destruct this.
Qed.

Lemma updateConfig_is_idempotent_witness :
  manager_of (snd (MultiTenantManager.updateConfig Stub.backend empty_config
                     (Stub.manager, Stub.start [])))
  = Stub.manager.
Proof.
  exact (proj2 (updateConfig_is_idempotent Stub.backend empty_config Stub.manager
                  (Stub.start [])) eq_refl).
Defined.

(** X20. A closed connection is not handed out again: after
    [closeConnection] for a tenant, a [getConnection] for this tenant that
    returns has asked the drivers for one more connection and obtained it;
    one that throws leaves the tenant without connection. *)
Theorem getConnection_after_close_reconnects :
  forall {D H : Type} (B : Backend D H) (tenantId : string)
         (tenantConfig : TenantConfig) (this : MultiTenantManager.t H)
         (e : Env D H),
    let closed := snd (MultiTenantManager.closeConnection B tenantId (this, e)) in
    MultiTenantManager.hasConnection (manager_of closed) tenantId = false /\
    match MultiTenantManager.getConnection B tenantId tenantConfig closed with
    | (Return c, w') =>
        c <> None /\
        connects (env_of w') = Datatypes.S (connects (env_of closed)) /\
        connected (env_of w') = Datatypes.S (connected (env_of closed)) /\
        MultiTenantManager.hasConnection (manager_of w') tenantId = true
    | (Throw _, w') =>
        MultiTenantManager.hasConnection (manager_of w') tenantId = false
    end.
Proof.
  intros D H B tenantId tenantConfig this e. cbv zeta.
  destruct (closeConnection_runs B tenantId this e) as (e1 & Hrun & _).
  rewrite Hrun. unfold manager_of, env_of. cbn [fst snd].
  set (this1 := MultiTenantManager.set_connections (JsMap.delete tenantId) this).
  assert (Hg : JsMap.get tenantId (MultiTenantManager.connections this1) = None).
  { unfold this1. simpl. apply get_delete_same. }
  split.
  { unfold MultiTenantManager.hasConnection. now rewrite Hg. }
  destruct (MultiTenantManager.getConnection B tenantId tenantConfig (this1, e1))
    as [[c|error] [this2 e2]] eqn:Hget; cbn [fst snd].
  - destruct (first_call_creates B _ _ _ _ _ _ _ Hg Hget)
      as (Hn & Hm & _ & h & i & -> & ->).
    repeat split; auto; [discriminate|].
    unfold MultiTenantManager.hasConnection. simpl. now rewrite get_set_same.
  - destruct (getConnection_cases B tenantId tenantConfig this1 e1)
      as (r & this' & e' & Hget' & _ & _ & Hcase).
    rewrite Hget in Hget'. injection Hget' as <- <- <-.
    unfold MultiTenantManager.hasConnection.
    destruct Hcase as [(info & Hg' & _)|(base & Hbase & ->)].
    + rewrite Hg in Hg'. discriminate.
    + destruct Hbase as [[-> _]| ->]; [now rewrite Hg|now rewrite get_delete_same].
Qed.

(* ================================================================== *)
(** ** The console when logging is disabled *)
(* ================================================================== *)

Section Silence.

Context {D H : Type} (B : Backend D H).

Import MultiTenantManager.







End Silence.




(** X22. A call of [getConnection] that fails says so on the console: with
    [enableLogging] truthy, the last line written when the call throws is an
    [ERROR] line on [console.error] that names the tenant and carries the
    message of the error thrown. *)
Theorem getConnection_logs_failure :
  forall {D H : Type} (B : Backend D H) (tenantId : string)
         (tenantConfig : TenantConfig) (this : MultiTenantManager.t H)
         (e : Env D H) (error : Thrown) (w' : World (MultiTenantManager.t H) D H),
    truthy_field (fun b : bool => b)
      (enableLogging (MultiTenantManager.getConfig this)) = true ->
    MultiTenantManager.getConnection B tenantId tenantConfig (this, e)
    = (Throw error, w') ->
    exists timestamp rest,
      console (env_of w')
      = (ConsoleError,
         ManagerLine timestamp "ERROR"
           ("Failed to get connection for tenant " ++ tenantId ++ ": "
            ++ message_of error)) :: rest.
Proof.
  intros D H B tenantId tenantConfig this e error w' Hon.
  unfold MultiTenantManager.getConfig in Hon.
  assert (Hcheck : exists r this1 e1,
            MultiTenantManager.check_existing B tenantId tenantConfig (this, e)
            = (Return r, (this1, e1)) /\
            MultiTenantManager.config this1 = MultiTenantManager.config this).
  { destruct (JsMap.get tenantId (MultiTenantManager.connections this))
      as [info|] eqn:Hg.
    2:{ do 3 eexists. split; [now apply check_existing_absent|reflexivity]. }
    destruct (isActive info) eqn:Ha.
    2:{ do 3 eexists. split; [now apply check_existing_inactive with (info := info)|].
        reflexivity. }
    destruct (check_existing_active B tenantId tenantConfig this e info Hg Ha)
      as (e1 & Hc & _).
    rewrite Hc.
    destruct (probe B (connection info) (databaseType tenantConfig) (drv e));
      do 3 eexists; (split; [reflexivity|reflexivity]). }
  destruct Hcheck as (r & this1 & e1 & Hc & Hcfg1).
  unfold MultiTenantManager.getConnection, try_catch, bind. rewrite Hc.
  destruct r as [c|]; [discriminate|].
  destruct (create_new_runs B tenantId tenantConfig this1 e1)
    as (r2 & this2 & e2 & Hn & _ & Hcase).
  rewrite Hn. destruct r2 as [c|error2]; [discriminate|].
  destruct Hcase as (-> & _).
  unfold MultiTenantManager.log. run. rewrite Hcfg1, Hon.
  cbn [negb String.eqb Ascii.eqb Bool.eqb].
  intro Hrun. injection Hrun as <- <-.
  do 2 eexists. cbn [snd console]. reflexivity.
Qed.

Lemma getConnection_logs_failure_witness :
  exists timestamp rest,
    console (env_of (snd (MultiTenantManager.getConnection Stub.backend "tenant3"
                            Stub.redis_tenant (Stub.manager, Stub.start []))))
    = (ConsoleError,
       ManagerLine timestamp "ERROR"
         "Failed to get connection for tenant tenant3: Unsupported database type: redis")
      :: rest.
Proof.
  exact (getConnection_logs_failure Stub.backend "tenant3" Stub.redis_tenant
           Stub.manager (Stub.start [])
           (ErrorObject "Unsupported database type: redis") _ eq_refl eq_refl).
Defined.

(* ================================================================== *)
(** ** The driver calls of [getConnection] *)
(* ================================================================== *)

Section Probing.

Context {D H : Type} (B : Backend D H).

Import MultiTenantManager.

(** The manager's probe makes at most one driver call: a ping or a
    [SELECT 1] on the handle. *)
Lemma testConnection_events :
  forall connection databaseType (this : t H) (e : Env D H),
  exists e',
    testConnection B connection databaseType (this, e)
    = (Return (probe B connection databaseType (drv e)), (this, e')) /\
    console e' = console e /\ reads e' = reads e /\
    ((trace e' = trace e /\ drv e' = drv e) \/
     exists h ok,
       connection = Some h /\
       (trace e' = AdminPing h ok :: trace e \/
        trace e' = Query h "SELECT 1" ok :: trace e)).
Proof.
  intros connection databaseType this e.
  unfold probe, testConnection. run. simpl.
  destruct (databaseType =? MONGODB).
  - destruct connection as [c|]; simpl.
    2:{ eexists; repeat split; now left. }
    destruct (has_db B c (drv e)); simpl.
    2:{ eexists; repeat split; now left. }
    destruct (admin_ping B c (drv e)) as [[err|[]] d']; simpl;
      eexists; (split; [reflexivity|]); (split; [reflexivity|]);
      (split; [reflexivity|]); right; exists c; eexists;
      (split; [reflexivity|left; reflexivity]).
  - destruct (databaseType =? POSTGRESQL).
    2:{ eexists; repeat split; now left. }
    destruct connection as [c|]; simpl.
    2:{ eexists; repeat split; now left. }
    destruct (has_isInitialized B c (drv e)); simpl.
    2:{ eexists; repeat split; now left. }
    destruct (query B c "SELECT 1" (drv e)) as [[err|[]] d']; simpl;
      eexists; (split; [reflexivity|]); (split; [reflexivity|]);
      (split; [reflexivity|]); right; exists c; eexists;
      (split; [reflexivity|right; reflexivity]).
Qed.

(** For a kind without connector the probe fails without any call. *)
Lemma testConnection_unsupported :
  forall connection databaseType (this : t H) (e : Env D H),
    databaseType <> MONGODB -> databaseType <> POSTGRESQL ->
    testConnection B connection databaseType (this, e) = (Return false, (this, e)).
Proof.
  intros connection databaseType this e Hm Hp. unfold testConnection. run.
  destruct (databaseType =? MONGODB) eqn:Em.
  { apply String.eqb_eq in Em. contradiction. }
  destruct (databaseType =? POSTGRESQL) eqn:Ep.
  { apply String.eqb_eq in Ep. contradiction. }
  reflexivity.
Qed.

(** The first block of [getConnection] calls the drivers for the probe of
    the stored handle only. *)
Lemma check_existing_events :
  forall tenantId tenantConfig (this : t H) (e : Env D H),
  exists r this1 e1,
    check_existing B tenantId tenantConfig (this, e) = (Return r, (this1, e1)) /\
    (trace e1 = trace e \/
     exists info h ok,
       JsMap.get tenantId (connections this) = Some info /\
       connection info = Some h /\
       (trace e1 = AdminPing h ok :: trace e \/
        trace e1 = Query h "SELECT 1" ok :: trace e)).
Proof.
  intros tenantId tenantConfig this e. unfold check_existing. run.
  destruct (JsMap.get tenantId (connections this)) as [info|].
  2:{ do 3 eexists. split; [reflexivity|now left]. }
  destruct (isActive info).
  2:{ do 3 eexists. split; [reflexivity|now left]. }
  match goal with
  | |- context [testConnection B ?c ?k (?t, ?env)] =>
      destruct (testConnection_events c k t env) as (e1 & Hrun & _ & _ & Hev);
      rewrite Hrun
  end.
  cbn [trace drv] in Hev.
  assert (Hshape : trace e1 = trace e \/
            exists info0 h ok,
              Some info = Some info0 /\ connection info0 = Some h /\
              (trace e1 = AdminPing h ok :: trace e \/
               trace e1 = Query h "SELECT 1" ok :: trace e)).
  { destruct Hev as [[Ht _]|(h & ok & Hh & Ht)]; [now left|].
    right. exists info, h, ok. auto. }
  destruct (probe B (connection info) (databaseType tenantConfig) _);
    cbv beta iota;
    match goal with
    | |- context [log B ?l ?m (?t, ?env)] =>
        destruct (log_writes B l m t env) as (e2 & lines & Hlog & _ & Ht2 & _);
        rewrite Hlog
    end;
    do 3 eexists; (split; [reflexivity|]); cbn [snd]; rewrite Ht2; exact Hshape.
Qed.

End Probing.

(** X23. [getConnection] takes the backend kind from the configuration it
    is given, not from the stored entry: for a tenant with an active entry,
    a call with a kind that has no connector throws
    ["Unsupported database type: "] followed by the kind, and the entry is
    gone afterwards, although no driver was called: the stored handle was
    neither probed nor closed. *)
Theorem getConnection_unsupported_kind_drops_live_entry :
  forall {D H : Type} (B : Backend D H) (tenantId : string)
         (tenantConfig : TenantConfig) (this : MultiTenantManager.t H)
         (e : Env D H) (info : ConnectionInfo H),
    MultiTenantManager.getConnectionInfo this tenantId = Some info ->
    isActive info = true ->
    databaseType tenantConfig <> MONGODB ->
    databaseType tenantConfig <> POSTGRESQL ->
    exists this' e',
      MultiTenantManager.getConnection B tenantId tenantConfig (this, e)
      = (Throw (ErrorObject ("Unsupported database type: "
                             ++ databaseType tenantConfig)), (this', e')) /\
      MultiTenantManager.getConnectionInfo this' tenantId = None /\
      trace e' = trace e /\ drv e' = drv e.
Proof.
  intros D H B tenantId tenantConfig this e info Hg Ha Hm Hp.
  unfold MultiTenantManager.getConnectionInfo in *.
  unfold MultiTenantManager.getConnection, try_catch, bind,
    MultiTenantManager.check_existing.
  run. rewrite Hg, Ha.
  rewrite testConnection_unsupported by assumption.
  match goal with
  | |- context [MultiTenantManager.log B ?l ?m (?t, ?env)] =>
      destruct (log_writes B l m t env) as (e1 & lines1 & Hlog1 & Hd1 & Ht1 & _);
      rewrite Hlog1
  end.
  cbn [trace drv] in Hd1, Ht1.
  unfold MultiTenantManager.create_new, bind.
  match goal with
  | |- context [MultiTenantManager.log B ?l ?m (?t, ?env)] =>
      destruct (log_writes B l m t env) as (e2 & lines2 & Hlog2 & Hd2 & Ht2 & _);
      rewrite Hlog2
  end.
  rewrite createConnector_unsupported by assumption.
  match goal with
  | |- context [MultiTenantManager.log B ?l ?m (?t, ?env)] =>
      destruct (log_writes B l m t env) as (e3 & lines3 & Hlog3 & Hd3 & Ht3 & _);
      rewrite Hlog3
  end.
  unfold throw. do 2 eexists. split; [reflexivity|].
  cbn [MultiTenantManager.set_connections MultiTenantManager.connections].
  split; [apply get_delete_same|].
  split; congruence.
Qed.

Lemma getConnection_unsupported_kind_drops_live_entry_witness :
  exists this' e',
    MultiTenantManager.getConnection Stub.backend "old" Stub.redis_tenant
      (Stub.two_tenants, Stub.at_reading 500 [])
    = (Throw (ErrorObject "Unsupported database type: redis"), (this', e')) /\
    MultiTenantManager.getConnectionInfo this' "old" = None /\
    trace e' = [].
Proof.
  assert (Hm : databaseType Stub.redis_tenant <> MONGODB) by discriminate.
  assert (Hp : databaseType Stub.redis_tenant <> POSTGRESQL) by discriminate.
  destruct (getConnection_unsupported_kind_drops_live_entry Stub.backend "old"
              Stub.redis_tenant Stub.two_tenants (Stub.at_reading 500 []) _
              eq_refl eq_refl Hm Hp)
    as (this' & e' & Hrun & Hgone & Htrace & _).
  exists this', e'. split; [exact Hrun|]. split; [exact Hgone|exact Htrace].
Defined.

(** X24. [getConnection] never closes a handle. Its driver calls are at
    most two: one probe of the handle stored for the tenant (a ping or a
    [SELECT 1]), then one connection request. So a stale handle that is
    replaced is dropped without [close()] or [destroy()]. *)
Theorem getConnection_never_closes :
  forall {D H : Type} (B : Backend D H) (tenantId : string)
         (tenantConfig : TenantConfig) (this : MultiTenantManager.t H)
         (e : Env D H),
  exists probes requests,
    trace (env_of (snd (MultiTenantManager.getConnection B tenantId tenantConfig
                          (this, e))))
    = (requests ++ probes ++ trace e)%list /\
    (probes = [] \/
     exists info h ok,
       MultiTenantManager.getConnectionInfo this tenantId = Some info /\
       connection info = Some h /\
       (probes = [AdminPing h ok] \/ probes = [Query h "SELECT 1" ok])) /\
    (requests = [] \/ exists ev, requests = [ev] /\ is_connect ev = true).
Proof.
  intros D H B tenantId tenantConfig this e.
  unfold env_of, MultiTenantManager.getConnectionInfo.
  destruct (check_existing_events B tenantId tenantConfig this e)
    as (r & this1 & e1 & Hc & Hev).
  assert (Hprobes : exists probes,
            trace e1 = (probes ++ trace e)%list /\
            (probes = [] \/
             exists info h ok,
               JsMap.get tenantId (MultiTenantManager.connections this) = Some info /\
               connection info = Some h /\
               (probes = [AdminPing h ok] \/ probes = [Query h "SELECT 1" ok]))).
  { destruct Hev as [Ht|(info & h & ok & Hg & Hh & [Ht|Ht])].
    - exists []. split; [exact Ht|now left].
    - exists [AdminPing h ok]. split; [exact Ht|].
      right. exists info, h, ok. auto.
    - exists [Query h "SELECT 1" ok]. split; [exact Ht|].
      right. exists info, h, ok. auto. }
  destruct Hprobes as (probes & Ht1 & Hshape).
  exists probes.
  destruct r as [c|].
  - rewrite (getConnection_returning B _ _ _ _ _ Hc). cbn [snd].
    exists []. split; [exact Ht1|]. split; [exact Hshape|now left].
  - destruct (getConnection_creating B _ _ _ _ _ Hc)
      as (r2 & this' & e2 & e' & Hnew & Hget & (_ & Ht' & _)).
    rewrite Hget. cbn [snd]. rewrite Ht'.
    destruct (create_new_runs B tenantId tenantConfig this1 e1)
      as (r0 & this0 & e0 & Hrun & _ & Hcase).
    rewrite Hnew in Hrun. injection Hrun as <- <- <-.
    destruct r2 as [c|error].
    + destruct Hcase as (h & i & ev & _ & _ & _ & _ & Ht2 & Hic & _).
      exists [ev]. rewrite Ht2, Ht1. split; [reflexivity|].
      split; [exact Hshape|]. right. now exists ev.
    + destruct Hcase as (_ & [(Ht2 & _)|(ev & Ht2 & Hic & _)]).
      * exists []. rewrite Ht2, Ht1. split; [reflexivity|].
        split; [exact Hshape|now left].
      * exists [ev]. rewrite Ht2, Ht1. split; [reflexivity|].
        split; [exact Hshape|]. right. now exists ev.
Qed.
